(** * Moltbook API client: a model of [src/client.py] and its properties

    The client is modelled as a program in a state-and-exception monad.
    The state gathers the fields of a [MoltbookClient] instance together
    with the part of the outside world the client talks to: the wall
    clock, the network and the random number generator.  Every effect of
    the Python code that a property can observe (a request put on the
    wire, a blocking sleep, a page handed to the [on_page] callback) is
    appended to a trace.

    Conventions.
    - Times and durations are integers counting milliseconds, so that
      [RATE_WINDOW = 60.0] seconds is [60000] and the [0.1] second margin
      of the throttle is [100].  The clock moves only when the client
      sleeps.
    - Python integers are [Z]; dictionaries are [gmap]s; the set of seen
      keys is a [gset].
    - The body of every response decodes to a dictionary, whose lists are
      lists of records with atomic fields; the network either times out
      or answers; the callbacks handed to the client do not raise.
    - A [while True] loop is a function with fuel, which returns [None]
      when the fuel is used up before the loop is left. *)

From stdpp Require Import gmap strings list sorting.
From Stdlib Require Import ZArith Lia.

Local Open Scope Z_scope.

(** ** JSON payloads *)

(** Atoms found in the fields of a record.  [VNull] is also what
    [dict.get] answers for a missing field. *)
Inductive value :=
  | VNull
  | VNum (z : Z)
  | VStr (s : string).

#[global] Instance value_eq_dec : EqDecision value.
Proof. solve_decision. Defined.

Definition value_code (v : value) : unit + (Z + string) :=
  match v with
  | VNull => inl tt
  | VNum z => inr (inl z)
  | VStr s => inr (inr s)
  end.

Definition value_decode (c : unit + (Z + string)) : value :=
  match c with
  | inl _ => VNull
  | inr (inl z) => VNum z
  | inr (inr s) => VStr s
  end.

#[global] Instance value_countable : Countable value.
Proof.
  apply (inj_countable' value_code value_decode).
  intros []; reflexivity.
Defined.

(** A record of a listing (a submolt, a post, a moderator, ...). *)
Abbreviation record := (gmap string value).

(** [s.get(k)] *)
Definition rget (k : string) (s : record) : value := default VNull (s !! k).

Inductive json :=
  | JAtom (v : value)
  | JBool (b : bool)
  | JObj (r : record)
  | JList (l : list record).

(** The decoded body of a response, [response.json()]. *)
Abbreviation body := (gmap string json).

Record response := Response { status_code : Z; data : body }.

(** ** Exceptions *)

(** The three messages with which the client raises [RateLimitError]. *)
Inductive rate_limit_msg :=
  | Consecutive429s (consecutive total_requests : Z)
  | RetriesExhausted (max_retries : Z)
  | MaxRetriesExceeded.

Inductive exn :=
  | RateLimitError (m : rate_limit_msg)
  | Timeout
  | HTTPError (status : Z)
  | KeyError (k : string)
  | TypeError
  | AttributeError (attr : string)
  | ValueError
  | IndexError
  | UnboundLocalError (var : string).

Inductive res (A : Type) :=
  | Ok (a : A)
  | Raise (e : exn).
Arguments Ok {A} a.
Arguments Raise {A} e.

(** ** The world the client runs in *)

Record request := Request {
  method : string;
  url : string;
  params : list (string * value);
  timeout : option Z
}.

(** What the transport does with one attempt. *)
Inductive outcome :=
  | TimedOut
  | Responded (r : response).

Inductive event :=
  | Sent (r : request)
  | Slept (ms : Z)
  | OnPage (page : Z) (batch : list record).

Record state := State {
  (* the instance *)
  max_retries : Z;
  base_delay : Z;
  request_count : Z;
  _request_timestamps : list Z;
  _consecutive_429s : Z;
  _cooldown_until : Z;
  (* the world *)
  clock : Z;
  network : nat -> request -> outcome;
  sent : nat;
  entropy : nat -> Z;
  drawn : nat;
  trace : list event
}.

Definition set_request_count (f : Z -> Z) (s : state) : state :=
  State (max_retries s) (base_delay s) (f (request_count s))
    (_request_timestamps s) (_consecutive_429s s) (_cooldown_until s)
    (clock s) (network s) (sent s) (entropy s) (drawn s) (trace s).

Definition set_request_timestamps (f : list Z -> list Z) (s : state) : state :=
  State (max_retries s) (base_delay s) (request_count s)
    (f (_request_timestamps s)) (_consecutive_429s s) (_cooldown_until s)
    (clock s) (network s) (sent s) (entropy s) (drawn s) (trace s).

Definition set_consecutive_429s (f : Z -> Z) (s : state) : state :=
  State (max_retries s) (base_delay s) (request_count s)
    (_request_timestamps s) (f (_consecutive_429s s)) (_cooldown_until s)
    (clock s) (network s) (sent s) (entropy s) (drawn s) (trace s).

Definition set_cooldown_until (f : Z -> Z) (s : state) : state :=
  State (max_retries s) (base_delay s) (request_count s)
    (_request_timestamps s) (_consecutive_429s s) (f (_cooldown_until s))
    (clock s) (network s) (sent s) (entropy s) (drawn s) (trace s).

Definition set_clock (f : Z -> Z) (s : state) : state :=
  State (max_retries s) (base_delay s) (request_count s)
    (_request_timestamps s) (_consecutive_429s s) (_cooldown_until s)
    (f (clock s)) (network s) (sent s) (entropy s) (drawn s) (trace s).

Definition set_sent (f : nat -> nat) (s : state) : state :=
  State (max_retries s) (base_delay s) (request_count s)
    (_request_timestamps s) (_consecutive_429s s) (_cooldown_until s)
    (clock s) (network s) (f (sent s)) (entropy s) (drawn s) (trace s).

Definition set_drawn (f : nat -> nat) (s : state) : state :=
  State (max_retries s) (base_delay s) (request_count s)
    (_request_timestamps s) (_consecutive_429s s) (_cooldown_until s)
    (clock s) (network s) (sent s) (entropy s) (f (drawn s)) (trace s).

Definition log (e : event) (s : state) : state :=
  State (max_retries s) (base_delay s) (request_count s)
    (_request_timestamps s) (_consecutive_429s s) (_cooldown_until s)
    (clock s) (network s) (sent s) (entropy s) (drawn s) (trace s ++ [e]).

(** ** The monad *)

Definition M (A : Type) : Type := state -> res A * state.

Definition ret {A} (a : A) : M A := fun s => (Ok a, s).

Definition raise {A} (e : exn) : M A := fun s => (Raise e, s).

Definition bind {A B} (c : M A) (k : A -> M B) : M B :=
  fun s =>
    match c s with
    | (Ok a, s') => k a s'
    | (Raise e, s') => (Raise e, s')
    end.

(** [try: c except Exception: h] *)
Definition try_except {A} (c : M A) (h : exn -> M A) : M A :=
  fun s =>
    match c s with
    | (Ok a, s') => (Ok a, s')
    | (Raise e, s') => h e s'
    end.

Definition gets {A} (f : state -> A) : M A := fun s => (Ok (f s), s).

Definition modify (f : state -> state) : M unit := fun s => (Ok tt, f s).

Notation "'let*' x ':=' c 'in' k" := (bind c (fun x => k))
  (at level 10, x name, c at level 100, k at level 200).
Notation "c ';;' k" := (bind c (fun _ => k))
  (at level 100, k at level 200, right associativity).

(** ** Primitive effects *)

(** [time.time()] *)
Definition time : M Z := gets clock.

(** [time.sleep(d)]: a negative duration raises [ValueError]. *)
Definition sleep (d : Z) : M unit :=
  if d <? 0 then raise ValueError
  else modify (fun s => log (Slept d) (set_clock (fun t => t + d) s)).

(** [self.session.request(method, url, **kwargs)]: the attempt is put on
    the wire and the network decides its outcome. *)
Definition session_request (r : request) : M outcome :=
  fun s => (Ok (network s (sent s) r), log (Sent r) (set_sent S s)).

(** [random.randint(a, b)], a value of the closed interval [a..b] drawn
    from the entropy source; an empty interval raises [ValueError]. *)
Definition randint (a b : Z) : M Z :=
  if b <? a then raise ValueError
  else fun s =>
    (Ok (a + entropy s (drawn s) `mod` (b - a + 1)), set_drawn S s).

(** ** Class constants *)

Definition RATE_WINDOW : Z := 60000.
Definition RATE_LIMIT : Z := 100.
Definition RATE_THRESHOLD : Z := 90.
Definition COOLDOWN_BASE : Z := 30000.
Definition COOLDOWN_CAP : Z := 300000.
Definition MAX_CONSECUTIVE_429S : Z := 10.

(** ** The request executor *)

(** [while ts and ts[0] < cutoff: ts.popleft()] *)
Fixpoint popleft_below (cutoff : Z) (ts : list Z) : list Z :=
  match ts with
  | t :: ts' => if t <? cutoff then popleft_below cutoff ts' else ts
  | [] => []
  end.

Definition _enforce_throttle : M unit :=
  let* now := time in
  (* 1. Respect any active cooldown *)
  let* until := gets _cooldown_until in
  (if now <? until then sleep (until - now) else ret tt);;
  (* 2. Trim timestamps outside the window *)
  let* t := time in
  let cutoff := t - RATE_WINDOW in
  modify (set_request_timestamps (popleft_below cutoff));;
  (* 3. If at threshold, sleep until the oldest request falls out *)
  let* ts := gets _request_timestamps in
  if RATE_THRESHOLD <=? Z.of_nat (length ts) then
    match ts with
    | oldest :: _ =>
        let* t := time in
        let sleep_time := oldest + RATE_WINDOW - t + 100 in
        if 0 <? sleep_time then sleep sleep_time else ret tt
    | [] => raise IndexError
    end
  else ret tt.

Definition _on_429 : M unit :=
  modify (set_consecutive_429s (fun n => n + 1));;
  let* n := gets _consecutive_429s in
  if MAX_CONSECUTIVE_429S <=? n then
    let* total := gets request_count in
    raise (RateLimitError (Consecutive429s n total))
  else if 3 <=? n then
    let exponent := n - 3 in
    let cooldown := Z.min (COOLDOWN_BASE * 2 ^ exponent) COOLDOWN_CAP in
    let* t := time in
    modify (set_cooldown_until (fun _ => t + cooldown))
  else ret tt.

Definition _on_success : M unit :=
  modify (set_consecutive_429s (fun _ => 0));;
  let* t := time in
  modify (set_request_timestamps (fun ts => ts ++ [t])).

(** The body of [for attempt in range(self.max_retries + 1)]: [n] is the
    number of iterations left, [attempt] the loop variable.  Falling out
    of the loop reaches the final [raise]. *)
Fixpoint _request_loop (n : nat) (attempt : Z) (r : request) : M response :=
  match n with
  | O => raise (RateLimitError MaxRetriesExceeded)
  | S n' =>
      _enforce_throttle;;
      modify (set_request_count (fun c => c + 1));;
      let* o := session_request r in
      let* retries := gets max_retries in
      let* base := gets base_delay in
      match o with
      | TimedOut =>
          if attempt <? retries then
            sleep (base * 2 ^ attempt);;
            _request_loop n' (attempt + 1) r
          else raise Timeout
      | Responded resp =>
          if status_code resp =? 429 then
            _on_429;;
            if attempt <? retries then
              sleep (base * 2 ^ attempt);;
              _request_loop n' (attempt + 1) r
            else raise (RateLimitError (RetriesExhausted retries))
          else if 500 <=? status_code resp then
            if attempt <? retries then
              sleep (base * 2 ^ attempt);;
              _request_loop n' (attempt + 1) r
            else
              (_on_success;; ret resp)
          else
            (_on_success;; ret resp)
      end
  end.

(** [if "timeout" not in kwargs: kwargs["timeout"] = 30] *)
Definition default_timeout (r : request) : request :=
  match timeout r with
  | None => Request (method r) (url r) (params r) (Some 30000)
  | Some _ => r
  end.

Definition _request (r : request) : M response :=
  let r := default_timeout r in
  let* retries := gets max_retries in
  _request_loop (Z.to_nat (retries + 1)) 0 r.

(** ** Reading responses *)

(** [response.raise_for_status()] *)
Definition raise_for_status (resp : response) : M unit :=
  if (400 <=? status_code resp) && (status_code resp <? 600)
  then raise (HTTPError (status_code resp))
  else ret tt.

(** [data.get(k, d)] *)
Definition dget (k : string) (d : json) (b : body) : json := default d (b !! k).

(** Python truthiness of a decoded value. *)
Definition truthy (j : json) : bool :=
  match j with
  | JAtom VNull => false
  | JAtom (VNum z) => negb (z =? 0)
  | JAtom (VStr s) => negb (String.eqb s "")
  | JBool b => b
  | JObj r => negb (bool_decide (r = ∅))
  | JList l => negb (bool_decide (l = []))
  end.

(** Iterating a value as a list of records and calling [.get] on its
    elements: anything but a list makes the comprehension raise. *)
Definition as_records (j : json) : M (list record) :=
  match j with
  | JList l => ret l
  | JObj _ | JAtom (VStr _) => raise (AttributeError "get")
  | JAtom _ | JBool _ => raise TypeError
  end.

(** [v > 0] on a decoded value. *)
Definition positive (j : json) : M bool :=
  match j with
  | JAtom (VNum z) => ret (0 <? z)
  | JBool b => ret b
  | _ => raise TypeError
  end.

(** [all(v > 0 for v in vs)], stopping at the first value that is not. *)
Fixpoint all_positive (vs : list json) : M bool :=
  match vs with
  | [] => ret true
  | v :: vs' =>
      let* p := positive v in
      if p then all_positive vs' else ret false
  end.

Definition BASE_URL : string := "https://www.moltbook.com/api/v1".

Definition GET (path : string) (ps : list (string * value)) : request :=
  Request "GET" (BASE_URL ++ path) ps None.

(** ** Single-call operations *)

Definition fetch_posts (offset limit : Z) : M json :=
  let ps := [("limit", VNum limit)] ++
            (if 0 <? offset then [("offset", VNum offset)] else []) in
  let* response := _request (GET "/posts" ps) in
  raise_for_status response;;
  match data response !! "posts" with
  | Some posts => ret posts
  | None => raise (KeyError "posts")
  end.

Definition fetch_agent_profile (name : string) : M (option json) :=
  let* response := _request (GET "/agents/profile" [("name", VStr name)]) in
  raise_for_status response;;
  let data := data response in
  if negb (truthy (dget "success" (JBool false) data)) then ret None
  else
    match data !! "agent" with
    | Some agent => ret (Some agent)
    | None => raise (KeyError "agent")
    end.

(** The dictionary built by [fetch_platform_stats]. *)
Record stats := Stats { agents : json; submolts : json; posts : json; comments : json }.

(** The body of [for attempt in range(max_retries)]: [n] iterations are
    left, [last] is the local variable [stats], unbound until the first
    iteration assigns it. *)
Fixpoint fetch_platform_stats_loop (n : nat) (attempt retries : Z) (last : option stats)
  : M stats :=
  match n with
  | O =>
      (* Return best effort if we couldn't get all non-zero *)
      match last with
      | Some s => ret s
      | None => raise (UnboundLocalError "stats")
      end
  | S n' =>
      let* response := _request (GET "/stats" []) in
      raise_for_status response;;
      let data := data response in
      let s := Stats (dget "agents" (JAtom (VNum 0)) data)
                     (dget "submolts" (JAtom (VNum 0)) data)
                     (dget "posts" (JAtom (VNum 0)) data)
                     (dget "comments" (JAtom (VNum 0)) data) in
      let* full := all_positive [agents s; submolts s; posts s; comments s] in
      if full then ret s
      else
        let* base := gets base_delay in
        (if attempt <? retries - 1 then sleep (base * (attempt + 1)) else ret tt);;
        fetch_platform_stats_loop n' (attempt + 1) retries (Some s)
  end.

Definition fetch_platform_stats (retries : Z) : M stats :=
  fetch_platform_stats_loop (Z.to_nat retries) 0 retries None.

Definition fetch_submolt_moderators (submolt_name : string) : M json :=
  try_except
    (let* response :=
       _request (GET ("/submolts/" ++ submolt_name ++ "/moderators") []) in
     if status_code response =? 404 then ret (JList [])
     else
       raise_for_status response;;
       ret (dget "moderators" (JList []) (data response)))
    (fun _ => ret (JList [])).

(** The dictionary returned by [fetch_post_with_comments]. *)
Record post_with_comments := PostWithComments { post : json; its_comments : json }.

Definition fetch_post_with_comments (post_id : string) : M (option post_with_comments) :=
  let* response := _request (GET ("/posts/" ++ post_id) []) in
  if status_code response =? 404 then ret None
  else
    raise_for_status response;;
    let data := data response in
    if negb (truthy (dget "success" (JBool false) data)) then ret None
    else ret (Some (PostWithComments (dget "post" (JAtom VNull) data)
                                     (dget "comments" (JList []) data))).

(** ** Streaming collectors *)

(** [fetch_submolts_streaming] and [fetch_posts_streaming] are the same
    loop over two endpoints; what differs between the two bodies is
    gathered here: the path, the field of the body that holds the page,
    the field of a record used as its key, whether a [limit] parameter is
    sent, the step taken after an empty page and the upper bound of a
    random offset. *)
Record listing := Listing {
  path : string;
  page_field : string;
  key_field : string;
  sends_limit : bool;
  empty_step : Z;
  random_bound : Z
}.

Definition submolts_listing : listing :=
  Listing "/submolts" "submolts" "name" false 1000 20000.

Definition posts_listing : listing :=
  Listing "/posts" "posts" "id" true 500 100000.

Definition page_size : Z := 100.
Definition max_consecutive_errors : Z := 10.

(** The local variables of the loop. *)
Record locals := Locals {
  total : Z;
  offset : Z;
  page : Z;
  seen : gset value;
  stale_pages : Z;
  consecutive_errors : Z
}.

Definition len {A} (l : list A) : Z := Z.of_nat (length l).

(** [[s for s in page if s.get(key) not in seen]] *)
Definition unseen (key : string) (seen : gset value) (page : list record) : list record :=
  filter (fun s => rget key s ∉ seen) page.

(** [for s in batch: seen.add(s.get(key))] *)
Definition add_all (key : string) (batch : list record) (seen : gset value) : gset value :=
  foldl (fun acc s => acc ∪ {[ rget key s ]}) seen batch.

(** The query parameters of a page request. *)
Definition page_params (L : listing) (offset : Z) : list (string * value) :=
  (if sends_limit L then [("limit", VNum page_size)] else []) ++
  (if 0 <? offset then [("offset", VNum offset)] else []).

(** The [try] block of the loop: the page found in the body, or [None]
    when [except Exception] caught something. *)
Definition fetch_page (L : listing) (offset : Z) : M (option json) :=
  try_except
    (let* response := _request (GET (path L) (page_params L offset)) in
     raise_for_status response;;
     ret (Some (dget (page_field L) (JList []) (data response))))
    (fun _ => ret None).

(** The [except Exception] block of the loop; [again] is the [continue]
    into the next iteration, and a [break] is the final [return total]. *)
Definition on_fetch_error (L : listing) (target_count : Z)
    (again : locals -> M (option Z)) (v : locals) : M (option Z) :=
  let errors := consecutive_errors v + 1 in
  if max_consecutive_errors <=? errors then ret (Some (total v))
  else
    (* Try a different offset *)
    let* offset' := randint 0 (Z.max target_count (random_bound L)) in
    let* base := gets base_delay in
    sleep (base * errors);;
    again (Locals (total v) offset' (page v) (seen v) (stale_pages v) errors).

(** The body of [while True]; [fuel] bounds the number of iterations the
    model runs, and [None] is returned when it is used up before the loop
    is left.  A [break] is the final [return total]. *)
Fixpoint streaming_loop (L : listing) (target_count max_stale_pages : Z)
    (fuel : nat) (v : locals) : M (option Z) :=
  match fuel with
  | O => ret None
  | S fuel' =>
    let again := streaming_loop L target_count max_stale_pages fuel' in
    let* fetched := fetch_page L (offset v) in
    match fetched with
    | None => on_fetch_error L target_count again v
    | Some items =>
        if negb (truthy items) then
          if (0 <? target_count) && (total v <? target_count) then
            let offset' := (offset v + empty_step L) `mod` (target_count * 2) in
            let stale := stale_pages v + 1 in
            if max_stale_pages <=? stale then ret (Some (total v))
            else again (Locals (total v) offset' (page v) (seen v) stale 0)
          else ret (Some (total v))
        else
          let* items := as_records items in
          (* Filter to only new records *)
          let new := unseen (key_field L) (seen v) items in
          let* v' :=
            match new with
            | _ :: _ =>
                let page' := page v + 1 in
                modify (log (OnPage page' new));;
                ret (Locals (total v + len new) (offset v) page'
                       (add_all (key_field L) new (seen v)) 0 0)
            | [] =>
                ret (Locals (total v) (offset v) (page v) (seen v)
                       (stale_pages v + 1) 0)
            end in
          (* Check if we've hit target *)
          if (0 <? target_count) && (target_count <=? total v') then ret (Some (total v'))
          (* Check if we're stuck *)
          else if max_stale_pages <=? stale_pages v' then ret (Some (total v'))
          (* Advance offset *)
          else if 2 * len new <? len items then
            let* offset' := randint 0 (Z.max target_count (random_bound L)) in
            again (Locals (total v') offset' (page v') (seen v') (stale_pages v') 0)
          else
            again (Locals (total v') (offset v' + page_size) (page v') (seen v')
                     (stale_pages v') 0)
    end
  end.

Definition locals0 : locals := Locals 0 0 0 ∅ 0 0.

Definition fetch_submolts_streaming (target_count max_stale_pages : Z) (fuel : nat)
  : M (option Z) :=
  streaming_loop submolts_listing target_count max_stale_pages fuel locals0.

Definition fetch_posts_streaming (target_count max_stale_pages : Z) (fuel : nat)
  : M (option Z) :=
  streaming_loop posts_listing target_count max_stale_pages fuel locals0.

(** ** Runs and observations *)

(** The state left by a computation, and its result. *)
Definition after {A} (c : M A) (s : state) : state := snd (c s).
Definition result {A} (c : M A) (s : state) : res A := fst (c s).

(** [c] run [n] times in a row, whatever each run returns or raises. *)
Fixpoint repeated {A} (n : nat) (c : M A) (s : state) : state :=
  match n with
  | O => s
  | S n' => repeated n' c (after c s)
  end.

(** The durations of the sleeps of a trace, in order. *)
Definition sleeps (t : list event) : list Z :=
  omap (fun e => match e with Slept d => Some d | _ => None end) t.

(** The requests of a trace, in order. *)
Definition requests (t : list event) : list request :=
  omap (fun e => match e with Sent r => Some r | _ => None end) t.

(** The keys handed to [on_page] over a trace, in order of delivery. *)
Definition delivered (key : string) (t : list event) : list value :=
  mbind (M := list)
    (fun e => match e with OnPage _ batch => rget key <$> batch | _ => [] end) t.

(** [s'] is reached from [s] without a page handed to the callback and
    without a change of the network. *)
Definition quiet (key : string) (s s' : state) : Prop :=
  network s' = network s /\
  delivered key (trace s') = delivered key (trace s).

(** No page that the network can serve for the listing [L] holds a key
    twice. *)
Definition clean_pages (L : listing) (net : nat -> request -> outcome) : Prop :=
  forall k r resp items,
    net k r = Responded resp ->
    data resp !! page_field L = Some (JList items) ->
    NoDup (rget (key_field L) <$> items).

(** The invariant of a streaming loop over such a network: no key was
    delivered twice so far, and every key delivered is in the set of
    seen keys. *)
Definition delivered_once (L : listing) (v : locals) (s : state) : Prop :=
  clean_pages L (network s) /\
  NoDup (delivered (key_field L) (trace s)) /\
  forall k, k ∈ delivered (key_field L) (trace s) -> k ∈ seen v.

(** The state in which [_enforce_throttle] leaves the client. *)
Definition slept (d : Z) (s : state) : state :=
  log (Slept d) (set_clock (fun t => t + d) s).

Definition throttled (s : state) : state :=
  let s1 := if clock s <? _cooldown_until s
            then slept (_cooldown_until s - clock s) s else s in
  let s2 := set_request_timestamps (popleft_below (clock s1 - RATE_WINDOW)) s1 in
  match _request_timestamps s2 with
  | oldest :: _ =>
      if RATE_THRESHOLD <=? len (_request_timestamps s2)
      then slept (oldest + RATE_WINDOW - clock s2 + 100) s2
      else s2
  | [] => s2
  end.

(** The state in which [_on_success] leaves the client. *)
Definition succeeded (s : state) : state :=
  set_request_timestamps (fun ts => ts ++ [clock s])
    (set_consecutive_429s (fun _ => 0) s).

(** The state of the client once an attempt is on the wire. *)
Definition attempted (r : request) (s : state) : state :=
  log (Sent r) (set_sent S (set_request_count (fun c => c + 1) (throttled s))).

(** The state of the client once an attempt was answered 429, counted,
    and the backoff slept, on the way to attempt [a + 1]. *)
Definition rejected (a : Z) (r : request) (s : state) : state :=
  slept (base_delay s * 2 ^ a) (after _on_429 (attempted r s)).

(** ** Scenarios *)

(** A client as [__init__] leaves it, started at time [t0] in a world
    with the given network and entropy source. *)
Definition new_client (retries base t0 : Z)
    (net : nat -> request -> outcome) (rnd : nat -> Z) : state :=
  State retries base 0 [] 0 0 t0 net 0%nat rnd 0%nat [].

Definition status_only (c : Z) : outcome := Responded (Response c ∅).

Definition always (c : Z) : nat -> request -> outcome := fun _ _ => status_only c.

(** The first [k] attempts are answered 429, the following ones 200. *)
Definition rejects_first (k : nat) : nat -> request -> outcome :=
  fun n _ => if (n <? k)%nat then status_only 429 else status_only 200.

Definition a_record (key name : string) : record := {[ key := VStr name ]}.

(** Every request is answered 200 with the same page. *)
Definition same_page (field : string) (p : list record) : nat -> request -> outcome :=
  fun _ _ => Responded (Response 200 {[ field := JList p ]}).

Definition no_entropy : nat -> Z := fun _ => 0.

(** The client once it has seen four 429 responses in a row. *)
Definition after_four_429s : state :=
  set_consecutive_429s (fun _ => 4) (new_client 5 2000 0 (always 429) no_entropy).

(** The request for the statistics, as the executor puts it on the wire. *)
Definition stats_request : request :=
  Request "GET" (BASE_URL ++ "/stats") [] (Some 30000).

(** A client with [max_retries = 2] after three calls that were answered
    429 at each of their three attempts. *)
Definition nine_429s : state :=
  repeated 3 (_request (GET "/stats" []))
    (new_client 2 1000 0 (rejects_first 10) no_entropy).

(** A client after [n] calls in a row, each answered 200 at once. *)
Definition burst (n : nat) : state :=
  repeated n (_request (GET "/stats" []))
    (new_client 3 1000 0 (always 200) no_entropy).

(** [w] is what is left of the window [ts0] once the entries older than
    60 seconds at time [c] have been taken from its left end: all the
    entries taken are older, and the first entry kept is not. *)
Definition purged_at (c : Z) (ts0 w : list Z) : Prop :=
  exists old, ts0 = old ++ w /\
    Forall (fun t => t < c - RATE_WINDOW) old /\
    (forall t, head w = Some t -> c - RATE_WINDOW <= t).

(** What a call may do to the window of the state [s] it started from.
    A call that sends nothing leaves the client as it was.  A call that
    sends an attempt purges the window as of some time [c] of the call,
    and, if it returns a response, appends the time of return; it
    appends nothing if it raises. *)
Definition window_kept (s : state) (out : res response * state) : Prop :=
  match out with
  | (Ok _, s') =>
      (sent s < sent s')%nat /\
      exists c w, clock s <= c <= clock s' /\
        purged_at c (_request_timestamps s) w /\
        _request_timestamps s' = w ++ [clock s']
  | (Raise _, s') =>
      s' = s \/
      ((sent s < sent s')%nat /\
       exists c, clock s <= c <= clock s' /\
         purged_at c (_request_timestamps s) (_request_timestamps s'))
  end.

(** A client that may retry once, facing a server that always answers 503. *)
Definition failing_server : state := new_client 1 1000 0 (always 503) no_entropy.

(** That client once its first attempt was answered and the backoff slept. *)
Definition once_failed : state :=
  slept 1000 (attempted stats_request failing_server).

(** The client of the command line ([max_retries = 5], [base_delay = 2.0]),
    just created, facing a server that rejects the first three attempts. *)
Definition thrice_rejected : state :=
  new_client 5 2000 1000 (rejects_first 3) no_entropy.

(** Servers that answer 404, or 200 with a false [success] flag. *)
Definition nothing_there : state := new_client 5 2000 1000 (always 404) no_entropy.

Definition says_failure : state :=
  new_client 5 2000 1000
    (fun _ _ => Responded (Response 200 {[ "success" := JBool false ]})) no_entropy.

(** A server whose statistics are complete. *)
Definition complete_stats : body :=
  {[ "agents" := JAtom (VNum 2); "submolts" := JAtom (VNum 5);
     "posts" := JAtom (VNum 9); "comments" := JAtom (VNum 3) ]}.

(** A client facing that server. *)
Definition reports_stats : state :=
  new_client 5 2000 1000 (fun _ _ => Responded (Response 200 complete_stats)) no_entropy.

(** The server answers every request 200 with the body [b], and the
    client is allowed at least one attempt per call. *)
Definition serves (b : body) (s : state) : Prop :=
  0 <= max_retries s /\
  forall n r, network s n r = Responded (Response 200 b).

(** A page of 100 records whose keys are the numbers 0 to 99. *)
Definition hundred (key : string) : list record :=
  (fun i => {[ key := VNum (Z.of_nat i) ]}) <$> seq 0 100.

(** A client facing a server whose every page of submolts is that page. *)
Definition repeats_submolts : state :=
  new_client 5 2000 1000 (same_page "submolts" (hundred "name")) no_entropy.

(** A page that holds the same key twice. *)
Definition twins (key : string) : list record :=
  [a_record key "a"; a_record key "a"].

(** A client facing a server whose every page is that page. *)
Definition repeats_twins (field key : string) : state :=
  new_client 5 2000 1000 (same_page field (twins key)) no_entropy.

(** ** Relations between states *)

(** [s'] is reached from [s] by sending requests and sleeping: the
    configuration and the world's oracles are as they were, the clock did
    not go back, and the request counter, the number of attempts put on
    the wire and the requests of the trace grew by the same amount. *)
Definition advanced (s s' : state) : Prop :=
  max_retries s' = max_retries s /\
  base_delay s' = base_delay s /\
  network s' = network s /\
  entropy s' = entropy s /\
  (sent s <= sent s')%nat /\
  request_count s' = request_count s + Z.of_nat (sent s' - sent s) /\
  length (requests (trace s')) = (length (requests (trace s)) + (sent s' - sent s))%nat /\
  clock s <= clock s'.

(** ** The sliding window as a rate limit *)

(** The timestamps of [ts] that are at most 60 seconds old at time [now]. *)
Definition recent (now : Z) (ts : list Z) : list Z :=
  filter (fun t => now - RATE_WINDOW <= t) ts.

(** The window is in ascending order, holds no time of the future, and
    at most [RATE_THRESHOLD] of its entries are recent. *)
Definition window_ok (s : state) : Prop :=
  StronglySorted Z.le (_request_timestamps s) /\
  Forall (fun t => t <= clock s) (_request_timestamps s) /\
  (length (recent (clock s) (_request_timestamps s)) <= 90)%nat.

(** ** Reading the statistics *)

(** The dictionary that [fetch_platform_stats] builds from a body, and
    its values in the order of the dictionary. *)
Definition stats_of (b : body) : stats :=
  Stats (dget "agents" (JAtom (VNum 0)) b) (dget "submolts" (JAtom (VNum 0)) b)
        (dget "posts" (JAtom (VNum 0)) b) (dget "comments" (JAtom (VNum 0)) b).

Definition stat_values (st : stats) : list json :=
  [agents st; submolts st; posts st; comments st].

(** The request for the moderators of a submolt. *)
Definition moderators_request (submolt_name : string) : request :=
  GET ("/submolts/" ++ submolt_name ++ "/moderators") [].




(** ** Deliveries of a trace *)

(** The calls of [on_page] of a trace, in order: page number and batch. *)
Definition batches (t : list event) : list (Z * list record) :=
  omap (fun e => match e with OnPage p b => Some (p, b) | _ => None end) t.

(** The number of records in a list of deliveries. *)
Definition counted (bs : list (Z * list record)) : Z :=
  foldr (fun pb acc => len pb.2 + acc) 0 bs.

(** The deliveries are numbered 1, 2, 3, ... and none of them is empty. *)
Definition well_paged (bs : list (Z * list record)) : Prop :=
  bs.*1 = seqZ 1 (len bs) /\ Forall (fun pb => pb.2 <> []) bs.

(** [s'] is reached from [s] without a call of [on_page]. *)
Definition hush (s s' : state) : Prop :=
  batches (trace s') = batches (trace s).

(** ** Servers that refuse *)

(** The server answers every request with the client-error status [c]. *)
Definition refuses (c : Z) (b : body) (s : state) : Prop :=
  0 <= max_retries s /\ 0 <= base_delay s /\
  forall n r, network s n r = Responded (Response c b).

(** ** Collecting a whole listing *)

(** The elements that [list.extend(j)] appends for a decoded value [j]:
    the records of a list, the keys of a dictionary, the characters of a
    string; a number or a boolean is not iterable.  Python appends the
    keys of a dictionary in the order of the document; the dictionaries
    of the model do not keep that order, and the keys come here in the
    order of the [gmap].  The properties below serve pages that are
    lists. *)
Definition iterated (j : json) : M (list json) :=
  match j with
  | JList l => ret (JObj <$> l)
  | JObj r => ret ((fun kv => JAtom (VStr kv.1)) <$> map_to_list r)
  | JAtom (VStr s) =>
      ret ((fun c => JAtom (VStr (String c EmptyString))) <$> String.list_ascii_of_string s)
  | JAtom _ | JBool _ => raise TypeError
  end.

(** [fetch_submolts] and [fetch_all_posts] are the same loop; what
    differs is gathered here: the path, the field of the body that holds
    the page, and the [limit] of [fetch_all_posts], which is sent as a
    parameter, tells a full page from a short one and is the step of the
    offset.  [fetch_submolts] has no such parameter: it takes 100 for the
    size of a full page and moves the offset by the length of the page. *)
Record paging := Paging {
  paging_path : string;
  paging_field : string;
  paging_limit : option Z
}.

(** What a collection returns, with the calls [on_page(page, so_far)] it
    has made, in order. *)
Record collected := Collected {
  gathered : list json;
  progress : list (Z * Z)
}.

(** The parameters of a request: [{"limit": limit}] where the function
    has one, and the offset once it is positive. *)
Definition collect_params (P : paging) (offset : Z) : list (string * value) :=
  (match paging_limit P with
   | Some limit => [("limit", VNum limit)]
   | None => []
   end) ++ (if 0 <? offset then [("offset", VNum offset)] else []).

(** The body of [while True] of the two functions; [on_page] tells
    whether a callback was given, and [fuel] bounds the iterations as in
    [streaming_loop]. *)
Fixpoint collect_loop (P : paging) (on_page : bool) (fuel : nat)
    (all : list json) (offset page : Z) (calls : list (Z * Z))
  : M (option collected) :=
  match fuel with
  | O => ret None
  | S fuel' =>
      let* response := _request (GET (paging_path P) (collect_params P offset)) in
      raise_for_status response;;
      let items := dget (paging_field P) (JList []) (data response) in
      if negb (truthy items) then ret (Some (Collected all calls))
      else
        let* new := iterated items in
        let all := all ++ new in
        let page := page + 1 in
        let calls := if on_page then calls ++ [(page, len all)] else calls in
        if len new <? default 100 (paging_limit P)
        then ret (Some (Collected all calls))
        else collect_loop P on_page fuel' all
               (offset + default (len new) (paging_limit P)) page calls
  end.

Definition fetch_submolts (on_page : bool) (fuel : nat) : M (option collected) :=
  collect_loop (Paging "/submolts" "submolts" None) on_page fuel [] 0 0 [].

Definition fetch_all_posts (on_page : bool) (limit : Z) (fuel : nat)
  : M (option collected) :=
  collect_loop (Paging "/posts" "posts" (Some limit)) on_page fuel [] 0 0 [].

(** The [i]-th answer from now on, whatever the request, is 200 with the
    page [pages i] in the field [field], for [i] up to [m]. *)
Definition serves_pages (field : string) (pages : nat -> list record) (m : nat)
    (s : state) : Prop :=
  forall i r, (i <= m)%nat ->
    exists b, network s (sent s + i)%nat r = Responded (Response 200 b) /\
              b !! field = Some (JList (pages i)).

(** The pages [0 .. k-1] one after the other. *)
Definition so_far (pages : nat -> list record) (k : nat) : list record :=
  concat (pages <$> seq 0 k).

(** The calls [on_page(page, so_far)] for the pages [0 .. n-1]. *)
Definition reported (pages : nat -> list record) (n : nat) : list (Z * Z) :=
  (fun k => (Z.of_nat (S k), len (so_far pages (S k)))) <$> seq 0 n.


(** ** More scenarios *)

(** A client that is allowed no attempt at all. *)
Definition no_attempts : state := new_client (-1) 1000 0 (always 200) no_entropy.

(** A client that may retry twice, facing a server that never answers. *)
Definition unreachable : state :=
  new_client 2 1000 0 (fun _ _ => TimedOut) no_entropy.

(** The [n]-th answer is 200 with the body [bodies n]. *)
Definition answers (bodies : nat -> body) : nat -> request -> outcome :=
  fun n _ => Responded (Response 200 (bodies n)).

(** Statistics that are empty at first and complete from the second
    answer on. *)
Definition late_stats (n : nat) : body :=
  if (n <? 1)%nat then ∅ else complete_stats.

Definition reports_late : state :=
  new_client 5 2000 1000 (answers late_stats) no_entropy.

(** Statistics that never count any comment. *)
Definition partial_stats : body :=
  {[ "agents" := JAtom (VNum 2); "submolts" := JAtom (VNum 5);
     "posts" := JAtom (VNum 9) ]}.

Definition reports_partial : state :=
  new_client 5 2000 1000 (answers (fun _ => partial_stats)) no_entropy.

(** A server whose answers hold the [success] flag and nothing else. *)
Definition bare_success : body := {[ "success" := JBool true ]}.

Definition says_success : state :=
  new_client 5 2000 1000 (answers (fun _ => bare_success)) no_entropy.

(** Two full pages of two records, then a page of one. *)
Definition three_pages (key : string) (n : nat) : list record :=
  if (n <? 2)%nat then twins key else [a_record key "z"].

(** A page of a hundred records, then a page of two. *)
Definition two_pages (key : string) (n : nat) : list record :=
  if (n <? 1)%nat then hundred key else twins key.

(** A client facing a server whose [n]-th answer holds the page
    [pages n] in the field [field]. *)
Definition paged (field : string) (pages : nat -> list record) : state :=
  new_client 5 2000 1000 (answers (fun n => {[ field := JList (pages n) ]}))
    no_entropy.

(** A server whose every answer holds the same hundred records, as posts
    and as submolts. *)
Definition both_full : body :=
  {[ "posts" := JList (hundred "id"); "submolts" := JList (hundred "id") ]}.

Definition repeats_both : state :=
  new_client 5 2000 1000 (answers (fun _ => both_full)) no_entropy.


(** * Properties *)

(** ** The admission check *)

Lemma popleft_below_suffix cutoff ts : popleft_below cutoff ts `suffix_of` ts.
Proof.
  induction ts as [|t ts IH]; simpl; [done|].
  destruct (t <? cutoff); [by apply suffix_cons_r | done].
Qed.

Lemma popleft_below_head cutoff ts t w :
  popleft_below cutoff ts = t :: w -> cutoff <= t.
Proof.
  induction ts as [|t' ts IH]; simpl; [done|].
  destruct (Z.ltb_spec t' cutoff); [done|].
  intros [= -> _]. done.
Qed.

Lemma popleft_below_length cutoff ts :
  (length (popleft_below cutoff ts) <= length ts)%nat.
Proof. apply suffix_length, popleft_below_suffix. Qed.

Lemma popleft_below_fresh cutoff ts :
  Forall (fun t => cutoff <= t) ts -> popleft_below cutoff ts = ts.
Proof.
  destruct 1 as [|t ts Ht _]; simpl; [done|].
  destruct (Z.ltb_spec t cutoff); [lia | done].
Qed.

(** [_enforce_throttle] never raises, and leaves the state [throttled]. *)
Lemma _enforce_throttle_throttled s : _enforce_throttle s = (Ok tt, throttled s).
Proof.
  unfold _enforce_throttle, throttled, bind, time, gets.
  set (s1 := if clock s <? _cooldown_until s then _ else s).
  assert (H1 : (if clock s <? _cooldown_until s
                then sleep (_cooldown_until s - clock s) else ret tt) s
               = (Ok tt, s1)).
  { subst s1. destruct (Z.ltb_spec (clock s) (_cooldown_until s)); [|done].
    unfold sleep. destruct (Z.ltb_spec (_cooldown_until s - clock s) 0); [lia|done]. }
  rewrite H1. cbn [modify].
  set (s2 := set_request_timestamps _ s1).
  destruct (_request_timestamps s2) as [|oldest w] eqn:Hw.
  { cbn. done. }
  assert (Hc : clock s2 = clock s1) by done.
  assert (Ho : clock s1 - RATE_WINDOW <= oldest).
  { eapply popleft_below_head. exact Hw. }
  unfold len.
  destruct (RATE_THRESHOLD <=? Z.of_nat (length (oldest :: w))); [|done].
  unfold sleep, slept.
  destruct (Z.ltb_spec 0 (oldest + RATE_WINDOW - clock s2 + 100)); [|lia].
  destruct (Z.ltb_spec (oldest + RATE_WINDOW - clock s2 + 100) 0); [lia|done].
Qed.

(** The admission check touches the clock, the trace and the window only. *)
Lemma throttled_frame s :
  max_retries (throttled s) = max_retries s /\
  base_delay (throttled s) = base_delay s /\
  request_count (throttled s) = request_count s /\
  _consecutive_429s (throttled s) = _consecutive_429s s /\
  _cooldown_until (throttled s) = _cooldown_until s /\
  network (throttled s) = network s /\
  sent (throttled s) = sent s /\
  entropy (throttled s) = entropy s /\
  drawn (throttled s) = drawn s.
Proof.
  unfold throttled.
  destruct (clock s <? _cooldown_until s); cbn;
    match goal with |- context [popleft_below ?c ?l] =>
      destruct (popleft_below c l) as [|oldest w] end; cbn;
    try (destruct (RATE_THRESHOLD <=? len (oldest :: w))); cbn; done.
Qed.

Lemma throttled_window s :
  _request_timestamps (throttled s) `suffix_of` _request_timestamps s.
Proof.
  unfold throttled.
  destruct (clock s <? _cooldown_until s); cbn;
    match goal with |- context [popleft_below ?c ?l] =>
      destruct (popleft_below c l) as [|oldest w] end; cbn;
    try (destruct (RATE_THRESHOLD <=? len (oldest :: w))); cbn;
    apply popleft_below_suffix.
Qed.

Lemma throttled_trace s :
  exists ds, trace (throttled s) = trace s ++ (Slept <$> ds).
Proof.
  unfold throttled.
  destruct (clock s <? _cooldown_until s); cbn;
    match goal with |- context [popleft_below ?c ?l] =>
      destruct (popleft_below c l) as [|oldest w] end; cbn;
    try (destruct (RATE_THRESHOLD <=? len (oldest :: w))); cbn;
    rewrite <- ?app_assoc; cbn.
  all: first [ by exists [] ; rewrite app_nil_r
             | by eexists [_]
             | by eexists [_; _] ].
Qed.

(** ** Sequencing *)

Lemma bind_ok {A B} (c : M A) (k : A -> M B) s a s' :
  c s = (Ok a, s') -> bind c k s = k a s'.
Proof. unfold bind. by intros ->. Qed.

Lemma bind_raise {A B} (c : M A) (k : A -> M B) s e s' :
  c s = (Raise e, s') -> bind c k s = (Raise e, s').
Proof. unfold bind. by intros ->. Qed.

(** ** One iteration of the retry loop *)

Lemma _request_loop_step n a r s :
  _request_loop (S n) a r s =
  let s1 := attempted r s in
  let retry := sleep (base_delay s * 2 ^ a);; _request_loop n (a + 1) r in
  match network s (sent s) r with
  | TimedOut =>
      if a <? max_retries s then retry s1 else (Raise Timeout, s1)
  | Responded resp =>
      if status_code resp =? 429 then
        (_on_429;;
         if a <? max_retries s then retry
         else raise (RateLimitError (RetriesExhausted (max_retries s)))) s1
      else if 500 <=? status_code resp then
        if a <? max_retries s then retry s1 else (Ok resp, succeeded s1)
      else (Ok resp, succeeded s1)
  end.
Proof.
  destruct (throttled_frame s) as (Hm & Hb & _ & _ & _ & Hn & Hs & _).
  cbn [_request_loop].
  unfold attempted, succeeded, bind, modify, gets, session_request.
  rewrite _enforce_throttle_throttled. cbn.
  rewrite Hm, Hb, Hn, Hs.
  destruct (network s (sent s) r) as [|resp]; destruct (a <? max_retries s);
    try done.
  all: destruct (status_code resp =? 429); [done|].
  all: destruct (500 <=? status_code resp); done.
Qed.

Lemma attempted_frame r s :
  max_retries (attempted r s) = max_retries s /\
  base_delay (attempted r s) = base_delay s /\
  request_count (attempted r s) = request_count s + 1 /\
  _consecutive_429s (attempted r s) = _consecutive_429s s /\
  _cooldown_until (attempted r s) = _cooldown_until s /\
  network (attempted r s) = network s /\
  sent (attempted r s) = S (sent s) /\
  entropy (attempted r s) = entropy s /\
  drawn (attempted r s) = drawn s.
Proof.
  destruct (throttled_frame s) as (? & ? & ? & ? & ? & ? & ? & ? & ?).
  unfold attempted; cbn. repeat split; congruence.
Qed.

Lemma attempted_trace r s :
  exists ds, trace (attempted r s) = trace s ++ (Slept <$> ds) ++ [Sent r].
Proof.
  destruct (throttled_trace s) as [ds Hds]. exists ds.
  unfold attempted; cbn. by rewrite Hds, <- app_assoc.
Qed.

(** ** The 429 handler *)

Lemma _on_429_spec s :
  let n := _consecutive_429s s + 1 in
  let s1 := set_consecutive_429s (fun n => n + 1) s in
  _on_429 s =
    if MAX_CONSECUTIVE_429S <=? n
    then (Raise (RateLimitError (Consecutive429s n (request_count s))), s1)
    else if 3 <=? n
    then (Ok tt, set_cooldown_until
                   (fun _ => clock s + Z.min (COOLDOWN_BASE * 2 ^ (n - 3)) COOLDOWN_CAP) s1)
    else (Ok tt, s1).
Proof.
  unfold _on_429, bind, modify, gets, time; cbn.
  destruct (MAX_CONSECUTIVE_429S <=? _consecutive_429s s + 1); [done|].
  destruct (3 <=? _consecutive_429s s + 1); done.
Qed.

(** C6: the [n]-th consecutive 429, for [n] from 3 to 9, sets the
    cooldown deadline [min(30 * 2^(n-3), 300)] seconds after the current
    time, that is 30, 60, 120, 240, 300, 300 and 300 seconds; below 3 the
    deadline is left as it was. *)
Theorem cooldown_escalation s n :
  _consecutive_429s s = n - 1 ->
  (3 <= n <= 9 ->
     result _on_429 s = Ok tt /\
     _consecutive_429s (after _on_429 s) = n /\
     _cooldown_until (after _on_429 s)
       = clock s + 1000 * Z.min (30 * 2 ^ (n - 3)) 300) /\
  (n < 3 ->
     result _on_429 s = Ok tt /\
     _consecutive_429s (after _on_429 s) = n /\
     _cooldown_until (after _on_429 s) = _cooldown_until s) /\
  (fun n => Z.min (30 * 2 ^ (n - 3)) 300) <$> [3; 4; 5; 6; 7; 8; 9]
    = [30; 60; 120; 240; 300; 300; 300].
Proof.
  intros Hn. unfold result, after. rewrite _on_429_spec; cbn zeta.
  replace (_consecutive_429s s + 1) with n by lia.
  unfold MAX_CONSECUTIVE_429S, COOLDOWN_BASE, COOLDOWN_CAP.
  split; [|split; [|reflexivity]]; intros Hr.
  - destruct (Z.leb_spec 10 n); [lia|].
    destruct (Z.leb_spec 3 n); [|lia]. cbn.
    split; [done|]. split; [lia|].
    generalize (2 ^ (n - 3)). intros p. lia.
  - destruct (Z.leb_spec 10 n); [lia|].
    destruct (Z.leb_spec 3 n); [lia|]. cbn.
    split; [done|]. split; [lia|done].
Qed.

Lemma cooldown_escalation_witness :
  result _on_429 after_four_429s = Ok tt /\
  _consecutive_429s (after _on_429 after_four_429s) = 5 /\
  _cooldown_until (after _on_429 after_four_429s)
    = clock after_four_429s + 1000 * Z.min (30 * 2 ^ (5 - 3)) 300.
Proof.
  destruct (cooldown_escalation after_four_429s 5 eq_refl) as [H _].
  apply H. lia.
Defined.

(** The step on which C5 rests, shared with the lemmas on callers. *)
Lemma fatal_step n attempt r s resp :
  _consecutive_429s s = 9 ->
  network s (sent s) r = Responded resp ->
  status_code resp = 429 ->
  _request_loop (S n) attempt r s
    = (Raise (RateLimitError (Consecutive429s 10 (request_count s + 1))),
       set_consecutive_429s (fun n => n + 1) (attempted r s)).
Proof.
  intros Hc Hnet H429.
  rewrite _request_loop_step, Hnet, H429; cbn zeta.
  change (429 =? 429) with true; cbn match.
  destruct (attempted_frame r s) as (_ & _ & Hq & Hk & _ & _ & Hs & _).
  apply bind_raise.
  rewrite _on_429_spec; cbn zeta. rewrite Hk, Hc, Hq. reflexivity.
Qed.

(** C5: when nine 429 responses in a row have been counted, the next one
    makes the executor raise the fatal error, which carries the tenth
    count and the number of requests of the session; the request just
    answered is the last event of the call: no sleep and no attempt
    follows it. *)
Theorem tenth_consecutive_429_is_fatal n attempt r s resp :
  _consecutive_429s s = 9 ->
  network s (sent s) r = Responded resp ->
  status_code resp = 429 ->
  let s' := after (_request_loop (S n) attempt r) s in
  result (_request_loop (S n) attempt r) s
    = Raise (RateLimitError (Consecutive429s 10 (request_count s + 1))) /\
  sent s' = S (sent s) /\
  _consecutive_429s s' = 10 /\
  exists ds, trace s' = trace s ++ (Slept <$> ds) ++ [Sent r].
Proof.
  intros Hc Hnet H429. unfold result, after.
  rewrite (fatal_step n attempt r s resp Hc Hnet H429). cbn [fst snd].
  destruct (attempted_frame r s) as (_ & _ & _ & Hk & _ & _ & Hs & _).
  split; [done|]. split; [exact Hs|].
  split; [|apply attempted_trace].
  change (_consecutive_429s (attempted r s) + 1 = 10).
  rewrite Hk, Hc. reflexivity.
Qed.

Lemma tenth_consecutive_429_is_fatal_witness :
  _consecutive_429s nine_429s = 9 /\
  sent nine_429s = 9%nat /\
  result (_request_loop 3 0 stats_request) nine_429s
    = Raise (RateLimitError (Consecutive429s 10 (request_count nine_429s + 1))) /\
  sent (after (_request_loop 3 0 stats_request) nine_429s) = S (sent nine_429s).
Proof.
  assert (H9 : _consecutive_429s nine_429s = 9) by (vm_compute; reflexivity).
  assert (Hs : sent nine_429s = 9%nat) by (vm_compute; reflexivity).
  assert (Hn : network nine_429s (sent nine_429s) stats_request
               = Responded (Response 429 ∅)) by (vm_compute; reflexivity).
  pose proof (tenth_consecutive_429_is_fatal 2 0 stats_request nine_429s
                (Response 429 ∅) H9 Hn eq_refl) as H.
  cbv zeta in H.
  split; [exact H9|]. split; [exact Hs|].
  split; [exact (proj1 H)|exact (proj1 (proj2 H))].
Defined.

(** C3, as the code has it: with no cooldown pending, the admission check
    lets a request through without sleeping as long as the purged window
    holds at most 89 timestamps, hence also the 90th request of a burst;
    once the window holds 90 or more, it sleeps until 0.1 seconds after
    the oldest timestamp has left the 60 second window. *)
Theorem throttle_threshold s :
  _cooldown_until s <= clock s ->
  let w := popleft_below (clock s - RATE_WINDOW) (_request_timestamps s) in
  result _enforce_throttle s = Ok tt /\
  _request_timestamps (after _enforce_throttle s) = w /\
  (len w <= 89 ->
     trace (after _enforce_throttle s) = trace s /\
     clock (after _enforce_throttle s) = clock s) /\
  (90 <= len w ->
     exists oldest, head w = Some oldest /\
       0 < oldest + RATE_WINDOW + 100 - clock s /\
       trace (after _enforce_throttle s)
         = trace s ++ [Slept (oldest + RATE_WINDOW + 100 - clock s)] /\
       clock (after _enforce_throttle s) = oldest + RATE_WINDOW + 100).
Proof.
  intros Hcool w. unfold result, after.
  rewrite _enforce_throttle_throttled. cbn [fst snd].
  split; [done|]. unfold throttled.
  destruct (Z.ltb_spec (clock s) (_cooldown_until s)); [lia|].
  set (s2 := set_request_timestamps _ s).
  assert (Hts : _request_timestamps s2 = w) by reflexivity.
  assert (Htr : trace s2 = trace s) by reflexivity.
  assert (Hck : clock s2 = clock s) by reflexivity.
  pose proof (popleft_below_head (clock s - RATE_WINDOW) (_request_timestamps s))
    as Hhd.
  fold w in Hhd. clearbody s2 w. rewrite Hts.
  unfold RATE_THRESHOLD, RATE_WINDOW in *.
  destruct w as [|oldest w'].
  { split; [done|]. split; [done|]. unfold len; cbn; lia. }
  specialize (Hhd _ _ eq_refl).
  destruct (Z.leb_spec 90 (len (oldest :: w'))); cbn; rewrite Hts, Htr, Hck.
  - split; [done|]. split; [intros; lia|]. intros _. exists oldest.
    split; [done|]. split; [lia|]. split; [|lia].
    by replace (oldest + 60000 - clock s + 100)
      with (oldest + 60000 + 100 - clock s) by lia.
  - split; [done|]. split; [done|]. intros; lia.
Qed.

Lemma throttle_threshold_witness :
  (trace (after _enforce_throttle (burst 89)) = trace (burst 89) /\
   clock (after _enforce_throttle (burst 89)) = clock (burst 89)) /\
  exists oldest,
    head (popleft_below (clock (burst 90) - RATE_WINDOW)
            (_request_timestamps (burst 90))) = Some oldest /\
    0 < oldest + RATE_WINDOW + 100 - clock (burst 90) /\
    trace (after _enforce_throttle (burst 90))
      = trace (burst 90) ++ [Slept (oldest + RATE_WINDOW + 100 - clock (burst 90))] /\
    clock (after _enforce_throttle (burst 90)) = oldest + RATE_WINDOW + 100.
Proof.
  assert (Hc89 : _cooldown_until (burst 89) <= clock (burst 89))
    by (apply Z.leb_le; vm_compute; reflexivity).
  assert (Hc90 : _cooldown_until (burst 90) <= clock (burst 90))
    by (apply Z.leb_le; vm_compute; reflexivity).
  assert (Hl89 : len (popleft_below (clock (burst 89) - RATE_WINDOW)
                        (_request_timestamps (burst 89))) <= 89)
    by (apply Z.leb_le; vm_compute; reflexivity).
  assert (Hl90 : 90 <= len (popleft_below (clock (burst 90) - RATE_WINDOW)
                              (_request_timestamps (burst 90))))
    by (apply Z.leb_le; vm_compute; reflexivity).
  pose proof (throttle_threshold (burst 89) Hc89) as H89.
  pose proof (throttle_threshold (burst 90) Hc90) as H90.
  cbv zeta in H89, H90.
  split.
  - exact (proj1 (proj2 (proj2 H89)) Hl89).
  - exact (proj2 (proj2 (proj2 H90)) Hl90).
Defined.

(** C3, as the claim has it, fails: with 89 successes inside the window,
    the 90th request goes out without any sleep; it is the 91st that
    waits. *)
Lemma ninetieth_request_not_throttled :
  len (_request_timestamps (burst 89)) = 89 /\
  forallb (fun t => clock (burst 89) - RATE_WINDOW <=? t)
    (_request_timestamps (burst 89)) = true /\
  sleeps (trace (after (_request (GET "/stats" [])) (burst 89))) = [] /\
  length (requests (trace (after (_request (GET "/stats" [])) (burst 89)))) = 90%nat /\
  sleeps (trace (after (_request (GET "/stats" [])) (burst 90))) = [60100].
Proof. vm_compute. repeat split; reflexivity. Qed.

(** ** The sliding window *)

Lemma popleft_below_purged c ts :
  purged_at c ts (popleft_below (c - RATE_WINDOW) ts).
Proof.
  unfold purged_at. induction ts as [|t ts (old & E & F & H)]; simpl.
  - exists []. by repeat split.
  - destruct (Z.ltb_spec t (c - RATE_WINDOW)).
    + exists (t :: old). split; [cbn; by rewrite <- E|]. split; [by constructor|done].
    + exists []. split; [done|]. split; [constructor|]. intros t' [= <-]. done.
Qed.

Lemma purged_at_unique c ts w :
  purged_at c ts w -> w = popleft_below (c - RATE_WINDOW) ts.
Proof.
  intros (old & -> & F & H). induction F as [|t old Ht F IH]; simpl.
  - destruct w as [|t w]; simpl; [done|].
    specialize (H t eq_refl). by destruct (Z.ltb_spec t (c - RATE_WINDOW)); [lia|].
  - by destruct (Z.ltb_spec t (c - RATE_WINDOW)); [|lia].
Qed.

Lemma popleft_below_twice c1 c2 ts :
  c1 <= c2 -> popleft_below c2 (popleft_below c1 ts) = popleft_below c2 ts.
Proof.
  intros Hc. induction ts as [|t ts IH]; simpl; [done|].
  destruct (Z.ltb_spec t c1).
  - rewrite IH. by destruct (Z.ltb_spec t c2); [|lia].
  - reflexivity.
Qed.

Lemma purged_at_twice c1 c2 ts w1 w2 :
  c1 <= c2 -> purged_at c1 ts w1 -> purged_at c2 w1 w2 -> purged_at c2 ts w2.
Proof.
  intros Hc H1 H2.
  apply purged_at_unique in H1, H2. subst w1 w2.
  rewrite popleft_below_twice by lia. apply popleft_below_purged.
Qed.

(** The admission check purges the window once, as of the time at which
    it has waited for the cooldown. *)
Lemma throttled_purge s :
  exists c, clock s <= c <= clock (throttled s) /\
    purged_at c (_request_timestamps s) (_request_timestamps (throttled s)).
Proof.
  unfold throttled.
  set (s1 := if clock s <? _cooldown_until s then _ else s).
  assert (H1 : clock s <= clock s1 /\ _request_timestamps s1 = _request_timestamps s).
  { subst s1. destruct (Z.ltb_spec (clock s) (_cooldown_until s)); cbn; [|done].
    split; [lia|done]. }
  destruct H1 as [Hc Hts]. clearbody s1.
  exists (clock s1). cbv zeta.
  set (s2 := set_request_timestamps _ s1).
  assert (H2 : clock s2 = clock s1 /\
               _request_timestamps s2
                 = popleft_below (clock s1 - RATE_WINDOW) (_request_timestamps s))
    by (subst s2; cbn; by rewrite Hts).
  destruct H2 as [Hc2 Hts2]. clearbody s2.
  pose proof (popleft_below_purged (clock s1) (_request_timestamps s)) as Hp.
  pose proof (popleft_below_head (clock s1 - RATE_WINDOW) (_request_timestamps s)) as Hh.
  rewrite <- Hts2 in Hp, Hh.
  destruct (_request_timestamps s2) as [|oldest w] eqn:E.
  - rewrite E. split; [lia | exact Hp].
  - specialize (Hh oldest w eq_refl).
    destruct (RATE_THRESHOLD <=? len (oldest :: w)); cbn; rewrite ?E;
      (split; [lia | exact Hp]).
Qed.

Lemma attempted_purge r s :
  sent (attempted r s) = S (sent s) /\
  exists c, clock s <= c <= clock (attempted r s) /\
    purged_at c (_request_timestamps s) (_request_timestamps (attempted r s)).
Proof.
  destruct (attempted_frame r s) as (_ & _ & _ & _ & _ & _ & Hs & _).
  split; [exact Hs|]. exact (throttled_purge s).
Qed.

(** A state that has sent an attempt of the call, whatever it raises. *)
Lemma window_kept_raise s s1 s2 e :
  (sent s < sent s1)%nat ->
  (exists c, clock s <= c <= clock s1 /\
     purged_at c (_request_timestamps s) (_request_timestamps s1)) ->
  sent s2 = sent s1 -> clock s1 <= clock s2 ->
  _request_timestamps s2 = _request_timestamps s1 ->
  window_kept s (Raise e, s2).
Proof.
  intros Hs (c & Hc & Hp) Hs2 Hc2 Hts. right. split; [lia|].
  exists c. split; [lia|]. by rewrite Hts.
Qed.

(** What a later part of the call does to the window, seen from the
    start of the call. *)
Lemma window_kept_mono s s1 s2 out :
  (sent s < sent s1)%nat ->
  (exists c, clock s <= c <= clock s1 /\
     purged_at c (_request_timestamps s) (_request_timestamps s1)) ->
  sent s2 = sent s1 -> clock s1 <= clock s2 ->
  _request_timestamps s2 = _request_timestamps s1 ->
  window_kept s2 out -> window_kept s out.
Proof.
  intros Hs (c1 & Hc1 & Hp1) Hs2 Hc2 Hts.
  destruct out as [[resp|e] s'].
  - intros (Hs' & c & w & Hc & Hp & Heq). split; [lia|].
    exists c, w. split; [lia|]. split; [|exact Heq].
    rewrite Hts in Hp. apply (purged_at_twice c1 c _ _ _ ltac:(lia) Hp1 Hp).
  - intros [-> | (Hs' & c & Hc & Hp)].
    + apply (window_kept_raise s s1 s2 e); try done. by exists c1.
    + right. split; [lia|]. exists c. split; [lia|].
      rewrite Hts in Hp. apply (purged_at_twice c1 c _ _ _ ltac:(lia) Hp1 Hp).
Qed.

Lemma window_kept_retry s s1 s2 d (k : M response) :
  (sent s < sent s1)%nat ->
  (exists c, clock s <= c <= clock s1 /\
     purged_at c (_request_timestamps s) (_request_timestamps s1)) ->
  sent s2 = sent s1 -> clock s2 = clock s1 ->
  _request_timestamps s2 = _request_timestamps s1 ->
  (forall s3, window_kept s3 (k s3)) ->
  window_kept s ((sleep d;; k) s2).
Proof.
  intros Hs Hp Hs2 Hc2 Hts Hk. unfold bind, sleep.
  destruct (Z.ltb_spec d 0); cbn.
  - apply (window_kept_raise s s1 s2 ValueError); try done. lia.
  - apply (window_kept_mono s s1 (log (Slept d) (set_clock (fun t => t + d) s2)));
      try done.
    cbn. lia.
Qed.

Lemma _request_loop_window n r : forall a s,
  window_kept s (_request_loop n a r s).
Proof.
  induction n as [|n IH]; intros a s; [cbn; by left|].
  rewrite _request_loop_step; cbn zeta.
  destruct (attempted_purge r s) as [Hs Hp].
  assert (Hs' : (sent s < sent (attempted r s))%nat) by lia. clear Hs.
  revert Hs' Hp. generalize (attempted r s); intros s1 Hs Hp.
  assert (Hretry : forall s2,
    sent s2 = sent s1 -> clock s2 = clock s1 ->
    _request_timestamps s2 = _request_timestamps s1 ->
    window_kept s
      ((sleep (base_delay s * 2 ^ a);; _request_loop n (a + 1) r) s2)).
  { intros s2 E1 E2 E3. apply (window_kept_retry s s1 s2); done. }
  assert (Hraise : forall s2 e,
    sent s2 = sent s1 -> clock s2 = clock s1 ->
    _request_timestamps s2 = _request_timestamps s1 ->
    window_kept s (Raise e, s2)).
  { intros s2 e E1 E2 E3. apply (window_kept_raise s s1 s2); try done. lia. }
  assert (Hdone : forall resp, window_kept s (Ok resp, succeeded s1)).
  { intros resp. destruct Hp as (c & Hc & Hp).
    split; [exact Hs|]. exists c, (_request_timestamps s1).
    split; [cbn; lia|]. split; [exact Hp | reflexivity]. }
  destruct (network s (sent s) r) as [|resp].
  { destruct (a <? max_retries s); [by apply Hretry | by apply Hraise]. }
  destruct (status_code resp =? 429).
  { unfold bind at 1. rewrite _on_429_spec; cbn zeta.
    destruct (MAX_CONSECUTIVE_429S <=? _consecutive_429s s1 + 1);
      [by apply Hraise|].
    destruct (3 <=? _consecutive_429s s1 + 1);
      (destruct (a <? max_retries s); [by apply Hretry | by apply Hraise]). }
  destruct (500 <=? status_code resp); [|apply Hdone].
  destruct (a <? max_retries s); [by apply Hretry | apply Hdone].
Qed.

(** C4, as the code has it: a call that sends an attempt changes the
    window only by purging from its left end the entries that are older
    than 60 seconds at an admission of the call and, when it returns a
    response, by appending the time of return; a call that ends in an
    exception appends nothing, and a call that sends nothing changes
    nothing.  The response of a last attempt answered 5xx is returned,
    and recorded like any other. *)
Theorem window_appended_on_return_only r s :
  window_kept s (_request r s) /\
  (forall n a resp,
     network s (sent s) r = Responded resp ->
     500 <= status_code resp ->
     max_retries s <= a ->
     _request_loop (S n) a r s = (Ok resp, succeeded (attempted r s)) /\
     _request_timestamps (succeeded (attempted r s))
       = _request_timestamps (throttled s) ++ [clock (throttled s)]).
Proof.
  split.
  - unfold _request, bind, gets. apply _request_loop_window.
  - intros n a resp Hnet H5 Ha. split; [|done].
    rewrite _request_loop_step, Hnet; cbn zeta.
    destruct (Z.eqb_spec (status_code resp) 429); [lia|].
    destruct (Z.leb_spec 500 (status_code resp)); [|lia].
    destruct (Z.ltb_spec a (max_retries s)); [lia|done].
Qed.

Lemma window_appended_on_return_only_witness :
  _request_loop 1 1 stats_request once_failed
    = (Ok (Response 503 ∅), succeeded (attempted stats_request once_failed)) /\
  _request_timestamps (succeeded (attempted stats_request once_failed))
    = _request_timestamps (throttled once_failed) ++ [clock (throttled once_failed)].
Proof.
  apply (proj2 (window_appended_on_return_only stats_request once_failed) 0%nat 1
           (Response 503 ∅)).
  - vm_compute; reflexivity.
  - apply Z.leb_le; vm_compute; reflexivity.
  - apply Z.leb_le; vm_compute; reflexivity.
Defined.

(** C4, as the claim has it, fails: the call below uses up its retries on
    5xx answers, and its last attempt leaves a timestamp in the window. *)
Lemma exhausted_5xx_appends_timestamp :
  result (_request (GET "/stats" [])) failing_server = Ok (Response 503 ∅) /\
  length (requests (trace (after (_request (GET "/stats" [])) failing_server))) = 2%nat /\
  _request_timestamps failing_server = [] /\
  _request_timestamps (after (_request (GET "/stats" [])) failing_server) = [1000].
Proof. vm_compute. repeat split; reflexivity. Qed.

(** ** Attempts on an empty window *)

Lemma throttled_empty s :
  _request_timestamps s = [] ->
  throttled s = if clock s <? _cooldown_until s
                then slept (_cooldown_until s - clock s) s else s.
Proof.
  destruct s as [mr bd rc ts c cd t net n ent d tr]; cbn. intros ->.
  unfold throttled; cbn. by destruct (t <? cd).
Qed.

Lemma rejected_fields a r s :
  _request_timestamps s = [] ->
  _consecutive_429s s + 1 < 10 ->
  let t := Z.max (clock s) (_cooldown_until s) in
  let c := _consecutive_429s s + 1 in
  let s' := rejected a r s in
  max_retries s' = max_retries s /\
  base_delay s' = base_delay s /\
  network s' = network s /\
  sent s' = S (sent s) /\
  _request_timestamps s' = [] /\
  _consecutive_429s s' = c /\
  clock s' = t + base_delay s * 2 ^ a /\
  _cooldown_until s'
    = (if 3 <=? c then t + Z.min (COOLDOWN_BASE * 2 ^ (c - 3)) COOLDOWN_CAP
       else _cooldown_until s) /\
  trace s' = trace s
             ++ (if clock s <? _cooldown_until s
                 then [Slept (_cooldown_until s - clock s)] else [])
             ++ [Sent r; Slept (base_delay s * 2 ^ a)].
Proof.
  intros Hts Hc. cbv zeta. unfold rejected, after, attempted.
  rewrite (throttled_empty s Hts), _on_429_spec. cbv zeta.
  unfold MAX_CONSECUTIVE_429S.
  destruct s as [mr bd rc ts c cd t net n ent d tr]; cbn in Hts, Hc |- *.
  destruct (Z.ltb_spec t cd); cbn.
  all: destruct (Z.leb_spec 10 (c + 1)); [lia|].
  all: destruct (Z.leb_spec 3 (c + 1)); cbn.
  all: rewrite <- ?app_assoc; cbn.
  all: repeat split; try done; try lia.
Qed.

Lemma rejected_step n a r s b :
  network s (sent s) r = Responded (Response 429 b) ->
  a < max_retries s ->
  0 <= base_delay s * 2 ^ a ->
  _consecutive_429s s + 1 < 10 ->
  _request_loop (S n) a r s = _request_loop n (a + 1) r (rejected a r s).
Proof.
  intros Hnet Ha Hd Hc.
  rewrite _request_loop_step, Hnet; cbn zeta. cbn [status_code].
  change (429 =? 429) with true; cbn match.
  destruct (attempted_frame r s) as (_ & _ & _ & Hk & _).
  destruct (_on_429 (attempted r s)) as [o s1] eqn:Ho.
  assert (o = Ok tt) as ->.
  { rewrite _on_429_spec in Ho; cbv zeta in Ho. rewrite Hk in Ho.
    unfold MAX_CONSECUTIVE_429S in Ho.
    destruct (Z.leb_spec 10 (_consecutive_429s s + 1)); [lia|].
    destruct (3 <=? _consecutive_429s s + 1); by inversion Ho. }
  rewrite (bind_ok _ _ _ _ _ Ho).
  destruct (Z.ltb_spec a (max_retries s)); [|lia].
  unfold rejected, after. rewrite Ho. cbn [snd].
  unfold bind, sleep.
  destruct (Z.ltb_spec (base_delay s * 2 ^ a) 0); [lia|done].
Qed.

Lemma accepted_step n a r s resp :
  network s (sent s) r = Responded resp ->
  status_code resp <> 429 ->
  status_code resp < 500 ->
  _request_loop (S n) a r s = (Ok resp, succeeded (attempted r s)).
Proof.
  intros Hnet H429 H5. rewrite _request_loop_step, Hnet; cbn zeta.
  destruct (Z.eqb_spec (status_code resp) 429); [done|].
  destruct (Z.leb_spec 500 (status_code resp)); [lia|done].
Qed.

(** A rejected attempt made while no cooldown is pending. *)
Lemma rejected_on_time a r s c d :
  _request_timestamps s = [] ->
  _cooldown_until s <= clock s ->
  _consecutive_429s s = c ->
  c + 1 < 10 ->
  base_delay s * 2 ^ a = d ->
  0 <= d ->
  let s' := rejected a r s in
  (max_retries s' = max_retries s /\
   base_delay s' = base_delay s /\
   network s' = network s /\
   sent s' = S (sent s) /\
   _request_timestamps s' = [] /\
   _consecutive_429s s' = c + 1) /\
  clock s' = clock s + d /\
  trace s' = trace s ++ [Sent r; Slept d] /\
  (c + 1 < 3 -> _cooldown_until s' <= clock s') /\
  (forall k, 3 <= c + 1 ->
     Z.min (COOLDOWN_BASE * 2 ^ (c + 1 - 3)) COOLDOWN_CAP = k ->
     _cooldown_until s' = clock s + k).
Proof.
  intros Hts Hcd Hc Hlt Hd Hd0 s'.
  destruct (rejected_fields a r s Hts ltac:(lia))
    as (M1 & B1 & N1 & S1 & T1 & C1 & K1 & D1 & R1).
  fold s' in M1, B1, N1, S1, T1, C1, K1, D1, R1. clearbody s'.
  rewrite Hc, Hd in *. rewrite Z.max_l in * by lia.
  destruct (Z.ltb_spec (clock s) (_cooldown_until s)); [lia|].
  repeat split; try done.
  - intros Hq. destruct (Z.leb_spec 3 (c + 1)); lia.
  - intros k Hq <-. by destruct (Z.leb_spec 3 (c + 1)); [|lia].
Qed.

(** An accepted attempt made [w] milliseconds before the end of the
    cooldown. *)
Lemma accepted_after_cooldown r s w :
  _request_timestamps s = [] ->
  _cooldown_until s - clock s = w ->
  0 < w ->
  trace (succeeded (attempted r s)) = trace s ++ [Slept w; Sent r] /\
  _consecutive_429s (succeeded (attempted r s)) = 0.
Proof.
  intros Hts Hw Hpos. unfold succeeded, attempted.
  rewrite (throttled_empty s Hts).
  destruct (Z.ltb_spec (clock s) (_cooldown_until s)); [|lia].
  cbn. by rewrite Hw, <- app_assoc.
Qed.

(** ** Three rejections, then success *)

(** C7, as the code has it: a fresh client with [max_retries = 5] and
    [base_delay = 2.0] that is answered 429 three times and then 200
    makes four attempts and returns the fourth answer with the counter
    of consecutive 429s back at 0; between the attempts it sleeps the
    backoffs 2, 4 and 8 seconds, and, before the fourth attempt, the 22
    seconds that remain of the 30 second cooldown set by the third 429. *)
Theorem three_429s_then_200 r s resp :
  max_retries s = 5 ->
  base_delay s = 2000 ->
  _consecutive_429s s = 0 ->
  _request_timestamps s = [] ->
  _cooldown_until s <= clock s ->
  (forall i r', (i < 3)%nat ->
     exists b, network s (sent s + i)%nat r' = Responded (Response 429 b)) ->
  (forall r', network s (sent s + 3)%nat r' = Responded resp) ->
  status_code resp = 200 ->
  let r' := default_timeout r in
  result (_request r) s = Ok resp /\
  trace (after (_request r) s)
    = trace s ++ [Sent r'; Slept 2000; Sent r'; Slept 4000; Sent r';
                  Slept 8000; Slept 22000; Sent r'] /\
  _consecutive_429s (after (_request r) s) = 0.
Proof.
  intros Hmr Hbd Hc Hts Hcd H429 H200 Hst r'.
  assert (Hrun : _request r s = _request_loop 6 0 r' s).
  { unfold _request, bind, gets. rewrite Hmr. reflexivity. }
  unfold result, after. rewrite Hrun. clear Hrun. clearbody r'.
  destruct (H429 0%nat r' ltac:(lia)) as [b0 H0].
  destruct (H429 1%nat r' ltac:(lia)) as [b1 H1].
  destruct (H429 2%nat r' ltac:(lia)) as [b2 H2].
  specialize (H200 r'). clear H429.
  rewrite Nat.add_0_r in H0.
  (* first attempt *)
  rewrite (rejected_step 5 0 r' s b0 H0) by (rewrite ?Hbd, ?Hmr, ?Hc; lia).
  destruct (rejected_on_time 0 r' s 0 2000 Hts Hcd Hc) 
    as ((M1 & B1 & N1 & S1 & T1 & C1) & K1 & R1 & D1 & _);
    [lia | by rewrite Hbd | lia |].
  specialize (D1 ltac:(lia)).
  set (s1 := rejected 0 r' s) in *. clearbody s1.
  (* second attempt *)
  assert (H1' : network s1 (sent s1) r' = Responded (Response 429 b1)).
  { rewrite N1, S1. by replace (S (sent s)) with (sent s + 1)%nat by lia. }
  rewrite (rejected_step 4 (0 + 1) r' s1 b1 H1')
    by (rewrite ?B1, ?Hbd, ?M1, ?Hmr, ?C1; lia).
  destruct (rejected_on_time (0 + 1) r' s1 (0 + 1) 4000 T1 D1 C1) 
    as ((M2 & B2 & N2 & S2 & T2 & C2) & K2 & R2 & D2 & _);
    [lia | by rewrite B1, Hbd | lia |].
  specialize (D2 ltac:(lia)).
  set (s2 := rejected (0 + 1) r' s1) in *. clearbody s2.
  (* third attempt: the cooldown starts *)
  assert (H2' : network s2 (sent s2) r' = Responded (Response 429 b2)).
  { rewrite N2, S2, N1, S1.
    by replace (S (S (sent s))) with (sent s + 2)%nat by lia. }
  rewrite (rejected_step 3 (0 + 1 + 1) r' s2 b2 H2')
    by (rewrite ?B2, ?B1, ?Hbd, ?M2, ?M1, ?Hmr, ?C2; lia).
  destruct (rejected_on_time (0 + 1 + 1) r' s2 (0 + 1 + 1) 8000 T2 D2 C2) 
    as ((M3 & B3 & N3 & S3 & T3 & C3) & K3 & R3 & _ & D3);
    [lia | by rewrite B2, B1, Hbd | lia |].
  specialize (D3 30000 ltac:(lia) eq_refl).
  set (s3 := rejected (0 + 1 + 1) r' s2) in *. clearbody s3.
  (* fourth attempt: the rest of the cooldown is waited out *)
  assert (H3' : network s3 (sent s3) r' = Responded resp).
  { rewrite N3, S3, N2, S2, N1, S1.
    by replace (S (S (S (sent s)))) with (sent s + 3)%nat by lia. }
  rewrite (accepted_step 2 (0 + 1 + 1 + 1) r' s3 resp H3') by lia.
  cbn [fst snd]. split; [done|].
  destruct (accepted_after_cooldown r' s3 22000 T3) as [R4 C4]; [lia | lia |].
  split; [|exact C4].
  rewrite R4, R3, R2, R1, <- !app_assoc. reflexivity.
Qed.

Lemma three_429s_then_200_witness :
  result (_request (GET "/stats" [])) thrice_rejected = Ok (Response 200 ∅) /\
  trace (after (_request (GET "/stats" [])) thrice_rejected)
    = trace thrice_rejected
      ++ [Sent stats_request; Slept 2000; Sent stats_request; Slept 4000;
          Sent stats_request; Slept 8000; Slept 22000; Sent stats_request] /\
  _consecutive_429s (after (_request (GET "/stats" [])) thrice_rejected) = 0.
Proof.
  apply (three_429s_then_200 (GET "/stats" []) thrice_rejected (Response 200 ∅)).
  - reflexivity.
  - reflexivity.
  - reflexivity.
  - reflexivity.
  - apply Z.leb_le; vm_compute; reflexivity.
  - intros i r' Hi. exists ∅.
    destruct i as [|[|[|i]]]; [reflexivity | reflexivity | reflexivity | lia].
  - intros r'. reflexivity.
  - reflexivity.
Defined.

(** C7, as the claim has it, fails: the backoffs are not the only sleeps
    of the call, a wait of 22 seconds precedes the fourth attempt. *)
Lemma cooldown_wait_precedes_fourth_attempt :
  result (_request (GET "/stats" [])) thrice_rejected = Ok (Response 200 ∅) /\
  length (requests (trace (after (_request (GET "/stats" [])) thrice_rejected))) = 4%nat /\
  sleeps (trace (after (_request (GET "/stats" [])) thrice_rejected))
    = [2000; 4000; 8000; 22000] /\
  sleeps (trace (after (_request (GET "/stats" [])) thrice_rejected))
    <> [2000; 4000; 8000].
Proof. vm_compute. repeat split; [reflexivity.. | discriminate]. Qed.

(** ** Calls answered at the first attempt *)

Lemma _request_first_try r s resp :
  0 <= max_retries s ->
  network s (sent s) (default_timeout r) = Responded resp ->
  status_code resp <> 429 ->
  status_code resp < 500 ->
  _request r s = (Ok resp, succeeded (attempted (default_timeout r) s)).
Proof.
  intros Hmr Hnet H429 H5. unfold _request, bind, gets.
  replace (Z.to_nat (max_retries s + 1)) with (S (Z.to_nat (max_retries s))) by lia.
  by apply accepted_step.
Qed.

(** ** Single-record fetches *)

(** C8 on the code: when the server answers 404, [fetch_post_with_comments]
    returns [None], but [fetch_agent_profile] raises the [HTTPError] of
    [raise_for_status]; a body whose [success] flag is false or missing
    makes both return [None]. *)
Theorem single_record_fetch_not_found name post_id s b :
  0 <= max_retries s ->
  ((forall r, network s (sent s) r = Responded (Response 404 b)) ->
     result (fetch_agent_profile name) s = Raise (HTTPError 404) /\
     result (fetch_post_with_comments post_id) s = Ok None) /\
  ((forall r, network s (sent s) r = Responded (Response 200 b)) ->
     truthy (dget "success" (JBool false) b) = false ->
     result (fetch_agent_profile name) s = Ok None /\
     result (fetch_post_with_comments post_id) s = Ok None).
Proof.
  intros Hmr. split.
  - intros Hnet. unfold result, fetch_agent_profile, fetch_post_with_comments.
    split.
    + erewrite bind_ok by (apply _request_first_try; [done | apply Hnet | done | done]).
      reflexivity.
    + erewrite bind_ok by (apply _request_first_try; [done | apply Hnet | done | done]).
      reflexivity.
  - intros Hnet Hflag. unfold result, fetch_agent_profile, fetch_post_with_comments.
    split.
    + erewrite bind_ok by (apply _request_first_try; [done | apply Hnet | done | done]).
      unfold bind, raise_for_status; cbn. by rewrite Hflag.
    + erewrite bind_ok by (apply _request_first_try; [done | apply Hnet | done | done]).
      unfold bind, raise_for_status; cbn. by rewrite Hflag.
Qed.

Lemma single_record_fetch_not_found_witness :
  (result (fetch_agent_profile "alice") nothing_there = Raise (HTTPError 404) /\
   result (fetch_post_with_comments "42") nothing_there = Ok None) /\
  (result (fetch_agent_profile "alice") says_failure = Ok None /\
   result (fetch_post_with_comments "42") says_failure = Ok None).
Proof.
  split.
  - apply (single_record_fetch_not_found "alice" "42" nothing_there ∅).
    + apply Z.leb_le; vm_compute; reflexivity.
    + intros r; reflexivity.
  - apply (single_record_fetch_not_found "alice" "42" says_failure
             {[ "success" := JBool false ]}).
    + apply Z.leb_le; vm_compute; reflexivity.
    + intros r; reflexivity.
    + vm_compute; reflexivity.
Defined.

(** ** Platform statistics *)

(** C10: called with [max_retries = 0] (or less), [fetch_platform_stats]
    sends nothing and raises [UnboundLocalError] at its final [return];
    whenever it returns a dictionary, [max_retries] was at least 1. *)
Theorem fetch_platform_stats_needs_a_round retries s :
  (retries <= 0 ->
     fetch_platform_stats retries s = (Raise (UnboundLocalError "stats"), s)) /\
  (forall st s', fetch_platform_stats retries s = (Ok st, s') -> 1 <= retries).
Proof.
  assert (H0 : retries <= 0 ->
    fetch_platform_stats retries s = (Raise (UnboundLocalError "stats"), s)).
  { intros Hr. unfold fetch_platform_stats.
    replace (Z.to_nat retries) with 0%nat by lia. reflexivity. }
  split; [exact H0|].
  intros st s' Hok. destruct (Z.le_gt_cases retries 0) as [Hr|Hr]; [|lia].
  rewrite (H0 Hr) in Hok. discriminate.
Qed.

Lemma fetch_platform_stats_needs_a_round_witness :
  fetch_platform_stats 0 reports_stats
    = (Raise (UnboundLocalError "stats"), reports_stats) /\
  result (fetch_platform_stats 1) reports_stats
    = Ok (Stats (JAtom (VNum 2)) (JAtom (VNum 5)) (JAtom (VNum 9)) (JAtom (VNum 3))) /\
  1 <= 1.
Proof.
  split; [|split].
  - apply (proj1 (fetch_platform_stats_needs_a_round 0 reports_stats)). lia.
  - vm_compute; reflexivity.
  - apply (proj2 (fetch_platform_stats_needs_a_round 1 reports_stats)
             (Stats (JAtom (VNum 2)) (JAtom (VNum 5)) (JAtom (VNum 9)) (JAtom (VNum 3)))
             (after (fetch_platform_stats 1) reports_stats)).
    vm_compute; reflexivity.
Defined.

(** ** Callers and the exceptions of the executor *)







(** ** The streaming loop on a backend that repeats itself *)

Lemma elem_of_add_all key batch seen k :
  k ∈ add_all key batch seen <-> k ∈ seen \/ k ∈ (rget key <$> batch).
Proof.
  unfold add_all. revert seen.
  induction batch as [|r batch IH]; intros seen; cbn.
  - rewrite elem_of_nil. tauto.
  - rewrite IH, elem_of_union, elem_of_singleton, elem_of_cons. tauto.
Qed.

Lemma unseen_nothing_seen key page : unseen key ∅ page = page.
Proof.
  unfold unseen. induction page as [|r page IH]; [done|].
  rewrite filter_cons. destruct (decide _) as [_|Hn]; [by rewrite IH|].
  exfalso. apply Hn. set_solver.
Qed.

Lemma unseen_all_seen key seen page :
  (forall r, r ∈ page -> rget key r ∈ seen) -> unseen key seen page = [].
Proof.
  unfold unseen. induction page as [|r page IH]; intros Hall; [done|].
  rewrite filter_cons. destruct (decide _) as [Hn|_].
  - exfalso. apply Hn, Hall. set_solver.
  - apply IH. intros r' Hr'. apply Hall. set_solver.
Qed.

Lemma fetch_page_served L off b s :
  serves b s ->
  exists s1,
    fetch_page L off s = (Ok (Some (dget (page_field L) (JList []) b)), s1) /\
    serves b s1 /\ sent s1 = S (sent s) /\ entropy s1 = entropy s.
Proof.
  intros [Hmr Hnet].
  set (r := default_timeout (GET (path L) (page_params L off))).
  exists (succeeded (attempted r s)).
  destruct (attempted_frame r s) as (Hm & _ & _ & _ & _ & Hn & Hs & He & _).
  split; [|repeat split].
  - unfold fetch_page, try_except.
    erewrite bind_ok
      by (apply _request_first_try; [done | apply Hnet | done | done]).
    reflexivity.
  - cbn. change (0 <= max_retries (attempted r s)). by rewrite Hm.
  - intros n r'. change (network (attempted r s) n r' = Responded (Response 200 b)).
    by rewrite Hn.
  - exact Hs.
  - exact He.
Qed.

Lemma dget_lookup k d (b : body) j : b !! k = Some j -> dget k d b = j.
Proof. unfold dget. by intros ->. Qed.

Lemma randint_drawn a b s :
  a <= b ->
  randint a b s = (Ok (a + entropy s (drawn s) `mod` (b - a + 1)), set_drawn S s).
Proof. intros Hab. unfold randint. by destruct (Z.ltb_spec b a); [lia|]. Qed.

(** The stale phase: every key of the page has been seen, and [m + 1]
    more stale pages exhaust the budget. *)
Lemma stale_phase L target_count max_stale_pages b pg T :
  0 <= random_bound L ->
  pg <> [] ->
  b !! page_field L = Some (JList pg) ->
  (0 <? target_count) && (target_count <=? T) = false ->
  forall m v s fuel,
    serves b s ->
    total v = T ->
    (forall r, r ∈ pg -> rget (key_field L) r ∈ seen v) ->
    Z.to_nat (max_stale_pages - stale_pages v) = S m ->
    (S m <= fuel)%nat ->
    exists s',
      streaming_loop L target_count max_stale_pages fuel v s = (Ok (Some T), s') /\
      sent s' = (sent s + S m)%nat.
Proof.
  intros Hbound Hpage Hb Htarget.
  assert (Htruthy : truthy (JList pg) = true).
  { cbn. by rewrite bool_decide_eq_false_2. }
  assert (Hlen : 0 < len pg).
  { unfold len. destruct pg; [done|cbn; lia]. }
  induction m as [|m IH]; intros v s fuel Hsrv HT Hseen Hleft Hfuel.
  all: destruct fuel as [|fuel]; [lia|]; cbn [streaming_loop].
  all: destruct (fetch_page_served L (offset v) b s Hsrv)
         as (s1 & Hfetch & Hsrv1 & Hsent1 & _).
  all: rewrite (dget_lookup _ _ _ _ Hb) in Hfetch.
  all: rewrite (bind_ok _ _ _ _ _ Hfetch); cbn match.
  all: rewrite Htruthy; cbn [negb].
  all: unfold as_records; unfold bind at 1; unfold ret at 1.
  all: rewrite (unseen_all_seen _ _ _ Hseen).
  all: unfold bind at 1; unfold ret at 1; cbn [total stale_pages].
  all: rewrite HT, Htarget.
  - destruct (Z.leb_spec max_stale_pages (stale_pages v + 1)); [|lia].
    exists s1. split; [done|lia].
  - destruct (Z.leb_spec max_stale_pages (stale_pages v + 1)); [lia|].
    change (len []) with 0. change (2 * 0) with 0.
    destruct (Z.ltb_spec 0 (len pg)); [|lia].
    rewrite (bind_ok _ _ _ _ _ (randint_drawn 0 (Z.max target_count (random_bound L)) s1 ltac:(lia))).
    match goal with
    | |- context [streaming_loop _ _ _ fuel ?v'] =>
        destruct (IH v' (set_drawn S s1) fuel) as (s' & Hrun & Hsent')
    end; [exact Hsrv1 | reflexivity | exact Hseen | cbn; lia | lia |].
    exists s'. split; [exact Hrun|].
    rewrite Hsent'. cbn. lia.
Qed.

Lemma repeating_backend L target_count max_stale_pages b pg s :
  0 <= random_bound L ->
  pg <> [] ->
  b !! page_field L = Some (JList pg) ->
  serves b s ->
  forall fuel, (1 + Z.to_nat max_stale_pages <= fuel)%nat ->
  exists s',
    streaming_loop L target_count max_stale_pages fuel locals0 s
      = (Ok (Some (len pg)), s') /\
    (sent s < sent s' <= sent s + 1 + Z.to_nat max_stale_pages)%nat.
Proof.
  intros Hbound Hpage Hb Hsrv fuel Hfuel.
  assert (Htruthy : truthy (JList pg) = true).
  { cbn. by rewrite bool_decide_eq_false_2. }
  assert (Hlen : 0 < len pg).
  { unfold len. destruct pg; [done|cbn; lia]. }
  destruct fuel as [|fuel]; [lia|]; cbn [streaming_loop].
  destruct (fetch_page_served L (offset locals0) b s Hsrv)
    as (s1 & Hfetch & Hsrv1 & Hsent1 & _).
  rewrite (dget_lookup _ _ _ _ Hb) in Hfetch.
  rewrite (bind_ok _ _ _ _ _ Hfetch); cbn match.
  rewrite Htruthy; cbn [negb].
  unfold as_records; unfold bind at 1; unfold ret at 1.
  cbn [seen locals0]. rewrite unseen_nothing_seen.
  destruct pg as [|r0 pg'] eqn:Hpg; [done|]. rewrite <- Hpg in *.
  unfold bind at 1. unfold bind at 1. unfold modify at 1. unfold ret at 1.
  cbn [total stale_pages offset page seen locals0].
  replace (0 + len pg) with (len pg) by lia.
  destruct ((0 <? target_count) && (target_count <=? len pg)) eqn:Htarget.
  { eexists. split; [reflexivity|]. cbn. lia. }
  destruct (Z.leb_spec max_stale_pages 0).
  { eexists. split; [reflexivity|]. cbn. lia. }
  destruct (Z.ltb_spec (2 * len pg) (len pg)); [lia|].
  match goal with
  | |- context [streaming_loop _ _ _ fuel ?v' ?s2] =>
      destruct (stale_phase L target_count max_stale_pages b pg (len pg)
                  Hbound Hpage Hb Htarget
                  (Nat.pred (Z.to_nat max_stale_pages)) v' s2 fuel)
        as (s' & Hrun & Hsent')
  end.
  - exact Hsrv1.
  - reflexivity.
  - intros r Hr. cbn [seen]. apply elem_of_add_all. right.
    by apply list_elem_of_fmap_2.
  - cbn [stale_pages]. lia.
  - lia.
  - exists s'. split; [exact Hrun|]. rewrite Hsent'. cbn. lia.
Qed.

(** C9: against a backend that answers every request with the same page
    of 100 records with distinct keys, a streaming collector returns
    once it has fetched that page and at most [max_stale_pages] further
    pages, and its total is 100, the number of distinct keys of the page. *)
Theorem repeating_backend_terminates L target_count max_stale_pages b pg s :
  L = submolts_listing \/ L = posts_listing ->
  0 <= max_retries s ->
  (forall n r, network s n r = Responded (Response 200 b)) ->
  b !! page_field L = Some (JList pg) ->
  length pg = 100%nat ->
  NoDup (rget (key_field L) <$> pg) ->
  forall fuel, (1 + Z.to_nat max_stale_pages <= fuel)%nat ->
  exists s',
    streaming_loop L target_count max_stale_pages fuel locals0 s
      = (Ok (Some 100), s') /\
    size (list_to_set (rget (key_field L) <$> pg) : gset value) = 100%nat /\
    (sent s < sent s' <= sent s + 1 + Z.to_nat max_stale_pages)%nat.
Proof.
  intros HL Hmr Hnet Hb Hlen Hnodup fuel Hfuel.
  assert (Hbound : 0 <= random_bound L) by (by destruct HL as [-> | ->]).
  assert (Hpage : pg <> []) by (by destruct pg).
  destruct (repeating_backend L target_count max_stale_pages b pg s
              Hbound Hpage Hb (conj Hmr Hnet) fuel Hfuel) as (s' & Hrun & Hsent).
  exists s'. unfold len in Hrun. rewrite Hlen in Hrun.
  split; [exact Hrun|]. split; [|exact Hsent].
  rewrite size_list_to_set by exact Hnodup. by rewrite length_fmap.
Qed.

Lemma repeating_backend_terminates_witness :
  exists s',
    fetch_submolts_streaming 0 20 21 repeats_submolts = (Ok (Some 100), s') /\
    size (list_to_set (rget "name" <$> hundred "name") : gset value) = 100%nat /\
    (sent repeats_submolts < sent s' <= sent repeats_submolts + 1 + Z.to_nat 20)%nat.
Proof.
  apply (repeating_backend_terminates submolts_listing 0 20
           {[ "submolts" := JList (hundred "name") ]} (hundred "name")
           repeats_submolts).
  - left; reflexivity.
  - apply Z.leb_le; vm_compute; reflexivity.
  - intros n r; reflexivity.
  - vm_compute; reflexivity.
  - vm_compute; reflexivity.
  - refine (bool_decide_unpack _ _). vm_compute; reflexivity.
  - vm_compute. lia.
Defined.

(** ** Keys delivered to the callback *)

(** C1 on the code: a key that occurs twice within one page passes the
    filter twice, since the keys of a page are added to the set of seen
    keys only after the whole page has been filtered; it is delivered
    twice in one call of the callback and counted twice in the total. *)
Theorem key_repeated_within_page_delivered_twice :
  result (fetch_submolts_streaming 0 1 2) (repeats_twins "submolts" "name")
    = Ok (Some 2) /\
  delivered "name"
    (trace (after (fetch_submolts_streaming 0 1 2) (repeats_twins "submolts" "name")))
    = [VStr "a"; VStr "a"] /\
  result (fetch_posts_streaming 0 1 2) (repeats_twins "posts" "id")
    = Ok (Some 2) /\
  delivered "id"
    (trace (after (fetch_posts_streaming 0 1 2) (repeats_twins "posts" "id")))
    = [VStr "a"; VStr "a"].
Proof. vm_compute. repeat split; reflexivity. Qed.

(** ** Keys delivered across pages *)

Lemma delivered_app key t1 t2 :
  delivered key (t1 ++ t2) = delivered key t1 ++ delivered key t2.
Proof. unfold delivered. apply bind_app. Qed.

Lemma delivered_sleeps key ds : delivered key (Slept <$> ds) = [].
Proof. induction ds as [|d ds IH]; [done|]. cbn. exact IH. Qed.

Lemma quiet_refl key s : quiet key s s.
Proof. by split. Qed.

Lemma quiet_trans key s1 s2 s3 : quiet key s1 s2 -> quiet key s2 s3 -> quiet key s1 s3.
Proof. intros [H1 H2] [H3 H4]. split; congruence. Qed.

Lemma quiet_attempted key r s : quiet key s (attempted r s).
Proof.
  destruct (attempted_frame r s) as (_ & _ & _ & _ & _ & Hn & _).
  destruct (attempted_trace r s) as [ds Hds].
  split; [exact Hn|].
  rewrite Hds, !delivered_app, delivered_sleeps. cbn. by rewrite app_nil_r.
Qed.

Lemma quiet_sleep key d s : quiet key s (after (sleep d) s).
Proof.
  unfold after, sleep. destruct (d <? 0); [apply quiet_refl|].
  split; [reflexivity|].
  change (delivered key (trace s ++ [Slept d]) = delivered key (trace s)).
  rewrite delivered_app. cbn. by rewrite app_nil_r.
Qed.

Lemma quiet_on_429 key s : quiet key s (after _on_429 s).
Proof.
  unfold after. rewrite _on_429_spec; cbn zeta.
  destruct (MAX_CONSECUTIVE_429S <=? _); [by split|].
  destruct (3 <=? _); by split.
Qed.

Lemma quiet_randint key a b s : quiet key s (after (randint a b) s).
Proof. unfold after, randint. destruct (b <? a); by split. Qed.

(** A call of the executor hands nothing to the callback, leaves the
    network as it is, and returns only what the network answered. *)
Lemma _request_loop_quiet key r n : forall a s,
  quiet key s (after (_request_loop n a r) s) /\
  forall resp, result (_request_loop n a r) s = Ok resp ->
               exists k, network s k r = Responded resp.
Proof.
  induction n as [|n IH]; intros a s.
  { split; [apply quiet_refl | discriminate]. }
  unfold after, result. rewrite _request_loop_step; cbn zeta.
  pose proof (quiet_attempted key r s) as Hq1.
  set (s1 := attempted r s) in *.
  assert (Hretry : forall s2, quiet key s s2 ->
    quiet key s (snd ((sleep (base_delay s * 2 ^ a);; _request_loop n (a + 1) r) s2)) /\
    forall resp,
      fst ((sleep (base_delay s * 2 ^ a);; _request_loop n (a + 1) r) s2) = Ok resp ->
      exists k, network s k r = Responded resp).
  { intros s2 Hq2. pose proof (quiet_sleep key (base_delay s * 2 ^ a) s2) as Hq3.
    unfold after in Hq3. unfold bind.
    destruct (sleep (base_delay s * 2 ^ a) s2) as [[[]|e] s3]; cbn [snd] in Hq3.
    - destruct (IH (a + 1) s3) as [Hq4 Hres]. split.
      + eapply quiet_trans; [exact Hq2|]. eapply quiet_trans; [exact Hq3|exact Hq4].
      + intros resp Hok. destruct (Hres resp Hok) as [k Hk]. exists k.
        destruct Hq2 as [Hn2 _], Hq3 as [Hn3 _]. by rewrite <- Hn2, <- Hn3.
    - split; [|discriminate]. by eapply quiet_trans. }
  assert (Hdone : forall resp, network s (sent s) r = Responded resp ->
    quiet key s (snd (Ok resp, succeeded s1)) /\
    forall resp', fst (Ok resp, succeeded s1) = Ok resp' ->
                  exists k, network s k r = Responded resp').
  { intros resp Hnet. split.
    - eapply quiet_trans; [exact Hq1|]. by split.
    - intros resp' [= <-]. by exists (sent s). }
  destruct (network s (sent s) r) as [|resp] eqn:Hnet.
  { destruct (a <? max_retries s); [by apply Hretry|]. split; [done|discriminate]. }
  destruct (status_code resp =? 429).
  { pose proof (quiet_on_429 key s1) as Hq2. unfold after in Hq2.
    unfold bind at 1 3.
    destruct (_on_429 s1) as [[[]|e] s2]; cbn [snd] in Hq2.
    - destruct (a <? max_retries s).
      + apply Hretry. by eapply quiet_trans.
      + split; [by eapply quiet_trans | discriminate].
    - split; [by eapply quiet_trans | discriminate]. }
  destruct (500 <=? status_code resp); [|by apply Hdone].
  destruct (a <? max_retries s); [by apply Hretry | by apply Hdone].
Qed.

Lemma _request_quiet key r s :
  quiet key s (after (_request r) s) /\
  forall resp, result (_request r) s = Ok resp ->
               exists k r', network s k r' = Responded resp.
Proof.
  destruct (_request_loop_quiet key (default_timeout r)
              (Z.to_nat (max_retries s + 1)) 0 s) as [Hq Hres].
  split; [exact Hq|].
  intros resp Hok. destruct (Hres resp Hok) as [k Hk]. by exists k, (default_timeout r).
Qed.

Lemma fetch_page_quiet L off s :
  quiet (key_field L) s (after (fetch_page L off) s) /\
  exists fetched,
    result (fetch_page L off) s = Ok fetched /\
    forall j, fetched = Some j ->
      exists k r resp, network s k r = Responded resp /\
                       j = dget (page_field L) (JList []) (data resp).
Proof.
  unfold fetch_page, try_except, bind.
  destruct (_request_quiet (key_field L) (GET (path L) (page_params L off)) s)
    as [Hq Hres].
  unfold after, result in *.
  destruct (_request (GET (path L) (page_params L off)) s)
    as [[resp|e] s1]; cbn [fst snd] in *.
  - destruct (Hres resp eq_refl) as (k & r & Hk).
    unfold raise_for_status.
    destruct ((400 <=? status_code resp) && (status_code resp <? 600)); cbn.
    + split; [exact Hq|]. exists None. split; [done|discriminate].
    + split; [exact Hq|]. eexists. split; [done|].
      intros j [= <-]. by exists k, r, resp.
  - cbn. split; [exact Hq|]. exists None. split; [done|discriminate].
Qed.

Lemma delivered_once_quiet L v s s' :
  quiet (key_field L) s s' -> delivered_once L v s -> delivered_once L v s'.
Proof. intros [Hn Hd] (Hc & Hnd & Hseen). unfold delivered_once. by rewrite Hn, Hd. Qed.

Lemma delivered_once_locals L v v' s :
  seen v' = seen v -> delivered_once L v s -> delivered_once L v' s.
Proof. intros Hs (Hc & Hnd & Hseen). unfold delivered_once. by rewrite Hs. Qed.

Lemma unseen_keys key seen items :
  NoDup (rget key <$> items) ->
  NoDup (rget key <$> unseen key seen items) /\
  forall k, k ∈ (rget key <$> unseen key seen items) -> k ∉ seen.
Proof.
  unfold unseen. induction items as [|r items IH]; intros Hnd.
  { split; [constructor|]. intros k Hk. by apply elem_of_nil in Hk. }
  rewrite fmap_cons in Hnd. apply NoDup_cons in Hnd as [Hr Hnd].
  destruct (IH Hnd) as [IH1 IH2].
  rewrite filter_cons. destruct (decide _) as [Hin|Hin]; [|by split].
  rewrite fmap_cons. split.
  - apply NoDup_cons. split; [|exact IH1].
    intros Hk. apply Hr. apply list_elem_of_fmap in Hk as (r' & -> & Hr').
    apply list_elem_of_fmap_2. by apply list_elem_of_filter in Hr' as [_ ?].
  - intros k Hk. apply elem_of_cons in Hk as [->|Hk]; [exact Hin|by apply IH2].
Qed.

(** Delivering the unseen records of a clean page keeps the invariant. *)
Lemma delivered_once_page L v s p items total' offset' stale' errors' :
  delivered_once L v s ->
  NoDup (rget (key_field L) <$> items) ->
  let new := unseen (key_field L) (seen v) items in
  delivered_once L
    (Locals total' offset' p (add_all (key_field L) new (seen v)) stale' errors')
    (log (OnPage p new) s).
Proof.
  intros (Hc & Hnd & Hseen) Hitems new.
  destruct (unseen_keys (key_field L) (seen v) items Hitems) as [Hnew Hfresh].
  fold new in Hnew, Hfresh.
  assert (Hd : delivered (key_field L) (trace (log (OnPage p new) s))
               = delivered (key_field L) (trace s) ++ (rget (key_field L) <$> new)).
  { change (trace (log (OnPage p new) s)) with (trace s ++ [OnPage p new]).
    rewrite delivered_app. cbn. by rewrite app_nil_r. }
  split; [exact Hc|]. rewrite Hd. split.
  - apply NoDup_app. split; [exact Hnd|]. split; [|exact Hnew].
    intros k Hk Hk'. by apply (Hfresh k Hk'), Hseen.
  - intros k Hk. cbn [seen]. apply elem_of_add_all.
    apply elem_of_app in Hk as [Hk|Hk]; [left; by apply Hseen | by right].
Qed.

(** On a network whose pages are clean, a streaming loop never delivers
    a key twice, however long it runs. *)
Lemma streaming_loop_delivers_once L target_count max_stale_pages fuel :
  forall v s,
    delivered_once L v s ->
    NoDup (delivered (key_field L)
             (trace (after (streaming_loop L target_count max_stale_pages fuel v) s))).
Proof.
  induction fuel as [|fuel IH]; intros v s Hinv.
  { exact (proj1 (proj2 Hinv)). }
  set (again := streaming_loop L target_count max_stale_pages fuel) in *.
  assert (Hagain : forall v0 v' s', seen v' = seen v0 -> delivered_once L v0 s' ->
    NoDup (delivered (key_field L) (trace (snd (again v' s'))))).
  { intros v0 v' s' Hs Hi. apply IH. by apply (delivered_once_locals L v0). }
  assert (Hjump : forall v0 (f : Z -> locals) a b s',
    (forall o, seen (f o) = seen v0) -> delivered_once L v0 s' ->
    NoDup (delivered (key_field L)
             (trace (snd ((let* o := randint a b in again (f o)) s'))))).
  { intros v0 f a b s' Hf Hi. unfold bind.
    pose proof (quiet_randint (key_field L) a b s') as Hq. unfold after in Hq.
    destruct (randint a b s') as [[o|e] s2]; cbn [snd] in *.
    - apply (Hagain v0); [apply Hf | by eapply delivered_once_quiet].
    - by destruct (delivered_once_quiet _ _ _ _ Hq Hi) as (_ & ? & _). }
  assert (Htail : forall v' s2 (n1 n2 : Z), delivered_once L v' s2 ->
    NoDup (delivered (key_field L) (trace (snd (
      (if (0 <? target_count) && (target_count <=? total v')
       then ret (Some (total v'))
       else if max_stale_pages <=? stale_pages v' then ret (Some (total v'))
       else if 2 * n1 <? n2 then
         let* offset' := randint 0 (Z.max target_count (random_bound L)) in
         again (Locals (total v') offset' (page v') (seen v') (stale_pages v') 0)
       else
         again (Locals (total v') (offset v' + page_size) (page v') (seen v')
                  (stale_pages v') 0)) s2))))).
  { intros v' s2 n1 n2 Hi.
    destruct ((0 <? target_count) && (target_count <=? total v')).
    { exact (proj1 (proj2 Hi)). }
    destruct (max_stale_pages <=? stale_pages v').
    { exact (proj1 (proj2 Hi)). }
    destruct (2 * n1 <? n2).
    - by apply (Hjump v').
    - by apply (Hagain v'). }
  unfold after. cbn [streaming_loop]. fold again. unfold bind at 1.
  destruct (fetch_page_quiet L (offset v) s) as [Hq (fetched & Hres & Hj)].
  unfold after, result in Hq, Hres.
  destruct (fetch_page L (offset v) s) as [o s1]; cbn [fst snd] in Hq, Hres.
  subst o. pose proof (delivered_once_quiet _ _ _ _ Hq Hinv) as Hinv1.
  destruct fetched as [j|].
  2: { unfold on_fetch_error.
    destruct (max_consecutive_errors <=? consecutive_errors v + 1).
    { exact (proj1 (proj2 Hinv1)). }
    unfold bind.
    pose proof (quiet_randint (key_field L) 0
                  (Z.max target_count (random_bound L)) s1) as Hq2.
    unfold after in Hq2.
    destruct (randint 0 (Z.max target_count (random_bound L)) s1)
      as [[o|e] s2]; cbn [snd] in *.
    2: { by destruct (delivered_once_quiet _ _ _ _ Hq2 Hinv1) as (_ & ? & _). }
    pose proof (delivered_once_quiet _ _ _ _ Hq2 Hinv1) as Hinv2.
    unfold gets.
    pose proof (quiet_sleep (key_field L)
                  (base_delay s2 * (consecutive_errors v + 1)) s2) as Hq3.
    unfold after in Hq3.
    destruct (sleep (base_delay s2 * (consecutive_errors v + 1)) s2)
      as [[[]|e] s3]; cbn [snd] in *.
    - apply (Hagain v); [done | by eapply delivered_once_quiet].
    - by destruct (delivered_once_quiet _ _ _ _ Hq3 Hinv2) as (_ & ? & _). }
  destruct (Hj j eq_refl) as (k & r & resp & Hnet & ->). clear Hj.
  destruct (truthy (dget (page_field L) (JList []) (data resp))) eqn:Htruthy;
    cbn [negb].
  2: { destruct ((0 <? target_count) && (total v <? target_count)).
    2: { exact (proj1 (proj2 Hinv1)). }
    destruct (max_stale_pages <=? stale_pages v + 1).
    { exact (proj1 (proj2 Hinv1)). }
    by apply (Hagain v). }
  destruct (data resp !! page_field L) as [j|] eqn:Hfield.
  2: { unfold dget in Htruthy. rewrite Hfield in Htruthy. discriminate. }
  rewrite (dget_lookup _ _ _ _ Hfield) in *.
  unfold as_records, bind at 1.
  destruct j as [[| |]| | |items]; try exact (proj1 (proj2 Hinv1)).
  assert (Hclean : NoDup (rget (key_field L) <$> items)).
  { destruct Hinv as (Hc & _). by apply (Hc k r resp). }
  unfold ret at 1. unfold bind at 1.
  destruct (unseen (key_field L) (seen v) items) as [|r0 new] eqn:Hnew.
  - unfold ret at 1. apply Htail. by apply (delivered_once_locals L v).
  - unfold bind at 1, modify at 1, ret at 1. apply Htail.
    rewrite <- Hnew. by apply delivered_once_page.
Qed.

(** What remains of C1 on the code: against a backend none of whose
    pages repeats a key, every key reaches the callback at most once in
    a run of either collector, whatever the pages are and however often
    a key comes back on later pages. *)
Lemma streaming_delivers_once_on_clean_pages target_count max_stale_pages fuel s :
  (clean_pages submolts_listing (network s) ->
   delivered "name" (trace s) = [] ->
   NoDup (delivered "name"
            (trace (after (fetch_submolts_streaming target_count max_stale_pages fuel) s)))) /\
  (clean_pages posts_listing (network s) ->
   delivered "id" (trace s) = [] ->
   NoDup (delivered "id"
            (trace (after (fetch_posts_streaming target_count max_stale_pages fuel) s)))).
Proof.
  split; intros Hclean Hnone.
  - apply (streaming_loop_delivers_once submolts_listing).
    split; [exact Hclean|]. cbn [key_field submolts_listing]. rewrite Hnone.
    split; [constructor|]. intros k Hk. by apply elem_of_nil in Hk.
  - apply (streaming_loop_delivers_once posts_listing).
    split; [exact Hclean|]. cbn [key_field posts_listing]. rewrite Hnone.
    split; [constructor|]. intros k Hk. by apply elem_of_nil in Hk.
Qed.

(** * Further properties of the executor *)

(** ** Accounting of attempts *)

Lemma advanced_refl s : advanced s s.
Proof. unfold advanced. rewrite Nat.sub_diag. cbn. repeat split; try done; lia. Qed.

Lemma advanced_trans s1 s2 s3 : advanced s1 s2 -> advanced s2 s3 -> advanced s1 s3.
Proof.
  intros (M1 & B1 & N1 & E1 & S1 & Q1 & R1 & C1) (M2 & B2 & N2 & E2 & S2 & Q2 & R2 & C2).
  unfold advanced. repeat split; try congruence; try lia.
Qed.

Lemma requests_app t1 t2 : requests (t1 ++ t2) = requests t1 ++ requests t2.
Proof. unfold requests. apply omap_app. Qed.

Lemma requests_sleeps ds : requests (Slept <$> ds) = [].
Proof. induction ds as [|d ds IH]; [done|]. cbn. exact IH. Qed.

Lemma throttled_clock s : clock s <= clock (throttled s).
Proof.
  unfold throttled.
  destruct (Z.ltb_spec (clock s) (_cooldown_until s)); cbn.
  all: match goal with |- context [popleft_below ?c ?l] =>
         pose proof (popleft_below_head c l) as Hhd;
         destruct (popleft_below c l) as [|oldest w] end; cbn; try lia.
  all: specialize (Hhd _ _ eq_refl); unfold RATE_WINDOW in *.
  all: destruct (RATE_THRESHOLD <=? len (oldest :: w)); cbn; lia.
Qed.

Lemma advanced_attempted r s :
  advanced s (attempted r s) /\ sent (attempted r s) = S (sent s).
Proof.
  destruct (attempted_frame r s) as (M & B & Q & _ & _ & N & S1 & E & _).
  destruct (attempted_trace r s) as [ds Hds].
  pose proof (throttled_clock s) as Hc.
  split; [|exact S1]. unfold advanced. rewrite M, B, Q, N, S1, E, Hds.
  rewrite !requests_app, requests_sleeps, !length_app. cbn.
  repeat split; try done; try lia.
Qed.

Lemma advanced_sleep d s : advanced s (after (sleep d) s).
Proof.
  unfold after, sleep. destruct (Z.ltb_spec d 0); [apply advanced_refl|].
  cbn. unfold advanced; cbn. rewrite requests_app, length_app, Nat.sub_diag. cbn.
  repeat split; try done; lia.
Qed.

Lemma advanced_on_429 s : advanced s (after _on_429 s).
Proof.
  unfold after. rewrite _on_429_spec; cbn zeta.
  destruct (MAX_CONSECUTIVE_429S <=? _); [|destruct (3 <=? _)]; cbn;
    unfold advanced; cbn; rewrite Nat.sub_diag; repeat split; try done; lia.
Qed.

Lemma _on_429_sent s : sent (snd (_on_429 s)) = sent s.
Proof.
  rewrite _on_429_spec; cbn zeta.
  destruct (MAX_CONSECUTIVE_429S <=? _); [|destruct (3 <=? _)]; done.
Qed.

Lemma succeeded_frame s :
  max_retries (succeeded s) = max_retries s /\
  base_delay (succeeded s) = base_delay s /\
  network (succeeded s) = network s /\
  sent (succeeded s) = sent s /\
  entropy (succeeded s) = entropy s /\
  drawn (succeeded s) = drawn s /\
  clock (succeeded s) = clock s /\
  trace (succeeded s) = trace s.
Proof. done. Qed.

Lemma advanced_succeeded s : advanced s (succeeded s).
Proof.
  unfold advanced; cbn. rewrite Nat.sub_diag. repeat split; try done; lia.
Qed.

(** A run of the retry loop with [n] iterations left sends between 0 and
    [n] requests. *)
Lemma _request_loop_advanced r n : forall a s,
  advanced s (after (_request_loop n a r) s) /\
  (sent (after (_request_loop n a r) s) <= sent s + n)%nat.
Proof.
  induction n as [|n IH]; intros a s.
  { split; [apply advanced_refl | cbn; lia]. }
  unfold after. rewrite _request_loop_step; cbn zeta.
  destruct (advanced_attempted r s) as [Ha Hs].
  set (s1 := attempted r s) in *.
  assert (Hretry : forall s2, advanced s s2 -> sent s2 = S (sent s) ->
    advanced s (snd ((sleep (base_delay s * 2 ^ a);; _request_loop n (a + 1) r) s2)) /\
    (sent (snd ((sleep (base_delay s * 2 ^ a);; _request_loop n (a + 1) r) s2))
       <= sent s + S n)%nat).
  { intros s2 H2 Hs2. unfold bind.
    pose proof (advanced_sleep (base_delay s * 2 ^ a) s2) as H3. unfold after in H3.
    assert (Hs3 : sent (snd (sleep (base_delay s * 2 ^ a) s2)) = sent s2).
    { unfold sleep. by destruct (_ <? 0). }
    destruct (sleep (base_delay s * 2 ^ a) s2) as [[[]|e] s3]; cbn [snd] in *.
    - destruct (IH (a + 1) s3) as [H4 Hb]. unfold after in H4, Hb. split.
      + eapply advanced_trans; [exact H2|]. eapply advanced_trans; [exact H3|exact H4].
      + lia.
    - split; [by eapply advanced_trans | lia]. }
  assert (Hstop : forall s2, advanced s s2 -> sent s2 = S (sent s) ->
    advanced s s2 /\ (sent s2 <= sent s + S n)%nat).
  { intros s2 H2 Hs2. split; [done|lia]. }
  destruct (network s (sent s) r) as [|resp].
  { destruct (a <? max_retries s); [by apply Hretry | by apply Hstop]. }
  destruct (status_code resp =? 429).
  { pose proof (advanced_on_429 s1) as H2. unfold after in H2.
    pose proof (_on_429_sent s1) as Hs2.
    unfold bind at 1 3.
    destruct (_on_429 s1) as [[[]|e] s2]; cbn [snd] in *.
    - destruct (a <? max_retries s).
      + apply Hretry; [by eapply advanced_trans | congruence].
      + apply (Hstop s2); [by eapply advanced_trans | congruence].
    - apply (Hstop s2); [by eapply advanced_trans | congruence]. }
  assert (Hok : advanced s (succeeded s1) /\ (sent (succeeded s1) <= sent s + S n)%nat).
  { split; [eapply advanced_trans; [exact Ha | apply advanced_succeeded]|].
    change (sent (succeeded s1)) with (sent s1). lia. }
  destruct (500 <=? status_code resp); [|exact Hok].
  destruct (a <? max_retries s); [by apply Hretry | exact Hok].
Qed.

(** X1: a call of the executor puts at most [max_retries + 1] attempts on
    the wire, and counts each of them in [request_count]. *)
Theorem _request_attempts_bounded r s :
  let s' := after (_request r) s in
  (sent s <= sent s' <= sent s + Z.to_nat (max_retries s + 1))%nat /\
  request_count s' = request_count s + Z.of_nat (sent s' - sent s) /\
  length (requests (trace s'))
    = (length (requests (trace s)) + (sent s' - sent s))%nat.
Proof.
  destruct (_request_loop_advanced (default_timeout r)
              (Z.to_nat (max_retries s + 1)) 0 s)
    as [(_ & _ & _ & _ & Hs & Hq & Hr & _) Hb].
  cbv zeta. change (after (_request r) s)
    with (after (_request_loop (Z.to_nat (max_retries s + 1)) 0 (default_timeout r)) s).
  repeat split; assumption.
Qed.

(** ** What a returned response tells *)

Lemma _request_loop_returns r n : forall a s resp s',
  _request_loop n a r s = (Ok resp, s') ->
  _consecutive_429s s' = 0 /\
  last (_request_timestamps s') = Some (clock s') /\
  status_code resp <> 429 /\
  (500 <= status_code resp -> max_retries s <= a + Z.of_nat (sent s' - sent s) - 1).
Proof.
  induction n as [|n IH]; intros a s resp s'; [discriminate|].
  rewrite _request_loop_step; cbn zeta.
  destruct (advanced_attempted r s) as [Ha Hs].
  set (s1 := attempted r s) in *.
  assert (Hretry : forall s2, advanced s s2 -> sent s2 = S (sent s) ->
    (sleep (base_delay s * 2 ^ a);; _request_loop n (a + 1) r) s2 = (Ok resp, s') ->
    _consecutive_429s s' = 0 /\
    last (_request_timestamps s') = Some (clock s') /\
    status_code resp <> 429 /\
    (500 <= status_code resp -> max_retries s <= a + Z.of_nat (sent s' - sent s) - 1)).
  { intros s2 H2 Hs2. unfold bind.
    pose proof (advanced_sleep (base_delay s * 2 ^ a) s2) as H3. unfold after in H3.
    assert (Hs3 : sent (snd (sleep (base_delay s * 2 ^ a) s2)) = sent s2).
    { unfold sleep. by destruct (_ <? 0). }
    destruct (sleep (base_delay s * 2 ^ a) s2) as [[[]|e] s3]; cbn [snd] in *;
      [|discriminate].
    intros Hrun. destruct (IH _ _ _ _ Hrun) as (Hc & Hl & Hn & H5).
    destruct (_request_loop_advanced r n (a + 1) s3) as [(_ & _ & _ & _ & Hle & _) _].
    unfold after in Hle. rewrite Hrun in Hle. cbn [snd] in Hle.
    repeat split; try done. intros H500. specialize (H5 H500).
    destruct H2 as (M2 & _), H3 as (M3 & _). lia. }
  assert (Hdone : (Ok resp, succeeded s1) = (Ok resp, s') ->
    network s (sent s) r = Responded resp ->
    (status_code resp =? 429) = false ->
    (500 <= status_code resp -> max_retries s <= a) ->
    _consecutive_429s s' = 0 /\
    last (_request_timestamps s') = Some (clock s') /\
    status_code resp <> 429 /\
    (500 <= status_code resp -> max_retries s <= a + Z.of_nat (sent s' - sent s) - 1)).
  { intros [= <-] _ H429 H5. split; [done|]. split; [apply last_snoc|].
    split; [by apply Z.eqb_neq|]. intros H500. specialize (H5 H500).
    change (sent (succeeded s1)) with (sent s1). lia. }
  destruct (network s (sent s) r) as [|resp0] eqn:Hnet.
  { destruct (a <? max_retries s); [by apply Hretry | discriminate]. }
  destruct (status_code resp0 =? 429) eqn:H429.
  { pose proof (advanced_on_429 s1) as H2. unfold after in H2.
    pose proof (_on_429_sent s1) as Hs2.
    unfold bind at 1.
    destruct (_on_429 s1) as [[[]|e] s2]; cbn [snd] in *; [|discriminate].
    destruct (a <? max_retries s); [|discriminate].
    apply Hretry; [by eapply advanced_trans | congruence]. }
  destruct (Z.leb_spec 500 (status_code resp0)).
  - destruct (Z.ltb_spec a (max_retries s)); [by apply Hretry|].
    intros Heq. assert (resp0 = resp) as -> by congruence.
    apply Hdone; [done | done | done | lia].
  - intros Heq. assert (resp0 = resp) as -> by congruence.
    apply Hdone; [done | done | done | lia].
Qed.

(** X2: whenever the executor returns a response, the counter of
    consecutive 429s is 0 and the time of return is the newest entry of
    the window, whatever the counter was before. *)
Theorem success_resets_counter r s resp s' :
  _request r s = (Ok resp, s') ->
  _consecutive_429s s' = 0 /\
  last (_request_timestamps s') = Some (clock s').
Proof.
  intros Hrun.
  destruct (_request_loop_returns (default_timeout r) _ 0 s resp s' Hrun)
    as (Hc & Hl & _).
  by split.
Qed.

Lemma success_resets_counter_witness :
  _consecutive_429s (after (_request (GET "/stats" [])) thrice_rejected) = 0 /\
  last (_request_timestamps (after (_request (GET "/stats" [])) thrice_rejected))
    = Some (clock (after (_request (GET "/stats" [])) thrice_rejected)).
Proof.
  apply (success_resets_counter (GET "/stats" []) thrice_rejected (Response 200 ∅)).
  vm_compute; reflexivity.
Defined.

(** X3: the executor never hands a 429 response to its caller, and it
    hands over a 5xx response only when the call has used all its
    [max_retries + 1] attempts. *)
Theorem returned_status r s resp s' :
  _request r s = (Ok resp, s') ->
  status_code resp <> 429 /\
  (500 <= status_code resp ->
   sent s' = (sent s + Z.to_nat (max_retries s + 1))%nat).
Proof.
  intros Hrun.
  destruct (_request_loop_returns (default_timeout r) _ 0 s resp s' Hrun)
    as (_ & _ & Hn & H5).
  split; [exact Hn|]. intros H500. specialize (H5 H500).
  destruct (_request_loop_advanced (default_timeout r)
              (Z.to_nat (max_retries s + 1)) 0 s) as [(_ & _ & _ & _ & Hle & _) Hb].
  unfold after in Hle, Hb.
  change (_request_loop (Z.to_nat (max_retries s + 1)) 0 (default_timeout r) s)
    with (_request r s) in Hle, Hb.
  rewrite Hrun in Hle, Hb. cbn [snd] in Hle, Hb. lia.
Qed.

Lemma returned_status_witness :
  result (_request (GET "/stats" [])) failing_server = Ok (Response 503 ∅) /\
  sent (after (_request (GET "/stats" [])) failing_server) = 2%nat.
Proof.
  split; [vm_compute; reflexivity|].
  apply (proj2 (returned_status (GET "/stats" []) failing_server (Response 503 ∅)
                  (after (_request (GET "/stats" [])) failing_server)
                  ltac:(vm_compute; reflexivity))).
  apply Z.leb_le; vm_compute; reflexivity.
Defined.

(** ** The raise after the loop *)

Lemma _request_loop_never_falls_through r n : forall a s,
  (0 < n)%nat ->
  a + Z.of_nat n = max_retries s + 1 ->
  result (_request_loop n a r) s <> Raise (RateLimitError MaxRetriesExceeded).
Proof.
  induction n as [|n IH]; intros a s Hn Han; [lia|].
  unfold result. rewrite _request_loop_step; cbn zeta.
  destruct (advanced_attempted r s) as [Ha Hs].
  set (s1 := attempted r s) in *.
  assert (Hretry : forall s2, advanced s s2 -> a < max_retries s ->
    fst ((sleep (base_delay s * 2 ^ a);; _request_loop n (a + 1) r) s2)
      <> Raise (RateLimitError MaxRetriesExceeded)).
  { intros s2 H2 Hlt. unfold bind.
    pose proof (advanced_sleep (base_delay s * 2 ^ a) s2) as H3. unfold after in H3.
    assert (He : forall e s3, sleep (base_delay s * 2 ^ a) s2 = (Raise e, s3) ->
                              e = ValueError).
    { unfold sleep. destruct (_ <? 0); [by intros e s3 [= <- _] | discriminate]. }
    destruct (sleep (base_delay s * 2 ^ a) s2) as [[[]|e] s3]; cbn [snd] in *.
    - apply IH; [lia|]. destruct H2 as (M2 & _), H3 as (M3 & _). lia.
    - rewrite (He e s3 eq_refl). discriminate. }
  destruct (network s (sent s) r) as [|resp].
  { destruct (Z.ltb_spec a (max_retries s)); [by apply Hretry | discriminate]. }
  destruct (status_code resp =? 429).
  { pose proof (advanced_on_429 s1) as H2. unfold after in H2.
    assert (He : forall e s2, _on_429 s1 = (Raise e, s2) ->
                              exists k c, e = RateLimitError (Consecutive429s k c)).
    { rewrite _on_429_spec; cbn zeta.
      destruct (MAX_CONSECUTIVE_429S <=? _); [|destruct (3 <=? _)];
        intros e s2 [= <- _]. by eexists _, _. }
    unfold bind at 1.
    destruct (_on_429 s1) as [[[]|e] s2]; cbn [snd] in *.
    - destruct (Z.ltb_spec a (max_retries s)); [|discriminate].
      apply Hretry; [by eapply advanced_trans | done].
    - destruct (He e s2 eq_refl) as (k & c & ->). discriminate. }
  destruct (500 <=? status_code resp); [|discriminate].
  destruct (Z.ltb_spec a (max_retries s)); [by apply Hretry | discriminate].
Qed.

(** X4: the raise that follows the retry loop ("should not reach here")
    is reached exactly when [max_retries] is negative, and then no
    request is sent and the client is left as it was. *)
Theorem max_retries_exceeded_iff r s :
  (result (_request r) s = Raise (RateLimitError MaxRetriesExceeded)
   <-> max_retries s < 0) /\
  (max_retries s < 0 -> after (_request r) s = s).
Proof.
  assert (Hneg : max_retries s < 0 ->
    _request r s = (Raise (RateLimitError MaxRetriesExceeded), s)).
  { intros Hlt. unfold _request, bind, gets.
    replace (Z.to_nat (max_retries s + 1)) with 0%nat by lia. reflexivity. }
  split; [split|].
  - intros Hres. destruct (Z.lt_ge_cases (max_retries s) 0) as [|Hge]; [done|].
    exfalso. revert Hres.
    apply (_request_loop_never_falls_through (default_timeout r)
             (Z.to_nat (max_retries s + 1)) 0 s); lia.
  - intros Hlt. unfold result. by rewrite Hneg.
  - intros Hlt. unfold after. by rewrite Hneg.
Qed.

Lemma max_retries_exceeded_iff_witness :
  result (_request (GET "/stats" [])) no_attempts
    = Raise (RateLimitError MaxRetriesExceeded) /\
  after (_request (GET "/stats" [])) no_attempts = no_attempts.
Proof.
  assert (H : max_retries no_attempts < 0)
    by (apply Z.ltb_lt; vm_compute; reflexivity).
  pose proof (max_retries_exceeded_iff (GET "/stats" []) no_attempts) as [H1 H2].
  split; [apply (proj2 H1 H) | apply (H2 H)].
Defined.

(** ** A call that times out at every attempt *)

Lemma _request_loop_timeouts r n : forall a s,
  (forall k r', network s k r' = TimedOut) ->
  0 <= base_delay s ->
  0 <= a ->
  (0 < n)%nat ->
  a + Z.of_nat n = max_retries s + 1 ->
  let s' := after (_request_loop n a r) s in
  result (_request_loop n a r) s = Raise Timeout /\
  sent s' = (sent s + n)%nat /\
  _consecutive_429s s' = _consecutive_429s s /\
  _cooldown_until s' = _cooldown_until s /\
  base_delay s * (2 ^ max_retries s - 2 ^ a) <= clock s' - clock s.
Proof.
  induction n as [|n IH]; intros a s Hnet Hb Ha Hn Han; [lia|].
  cbv zeta. unfold result, after. rewrite _request_loop_step, Hnet; cbn zeta.
  destruct (advanced_attempted r s) as [(M1 & B1 & N1 & _ & _ & _ & _ & C1) Hs].
  destruct (attempted_frame r s) as (_ & _ & _ & K1 & D1 & _).
  set (s1 := attempted r s) in *.
  destruct (Z.ltb_spec a (max_retries s)) as [Hlt|Hge].
  - assert (Hd : 0 <= base_delay s * 2 ^ a) by (apply Z.mul_nonneg_nonneg; lia).
    unfold bind, sleep. destruct (Z.ltb_spec (base_delay s * 2 ^ a) 0); [lia|].
    cbn [modify].
    set (s2 := log _ _).
    destruct (IH (a + 1) s2) as (Hr & Hsent & Hk & Hcd & Hclock).
    + intros k r'. change (network s2) with (network s1). by rewrite N1.
    + change (base_delay s2) with (base_delay s1). lia.
    + lia.
    + lia.
    + change (max_retries s2) with (max_retries s1). lia.
    + unfold result, after in *. rewrite Hr.
      split; [done|]. split; [change (sent s2) with (sent s1) in Hsent; lia|].
      split; [change (_consecutive_429s s2) with (_consecutive_429s s1) in Hk;
              congruence|].
      split; [change (_cooldown_until s2) with (_cooldown_until s1) in Hcd;
              congruence|].
      change (base_delay s2) with (base_delay s1) in Hclock.
      change (max_retries s2) with (max_retries s1) in Hclock.
      change (clock s2) with (clock s1 + base_delay s * 2 ^ a) in Hclock.
      rewrite M1, B1 in Hclock.
      rewrite Z.pow_add_r in Hclock by lia. change (2 ^ 1) with 2 in Hclock.
      nia.
  - assert (a = max_retries s) as -> by lia. cbn [fst snd].
    split; [done|]. split; [lia|]. split; [done|]. split; [done|].
    rewrite Z.sub_diag, Z.mul_0_r. lia.
Qed.

(** X5: when every attempt times out, the call raises the timeout after
    exactly [max_retries + 1] attempts; the counter of consecutive 429s
    and the cooldown deadline are as before, and the caller has been
    blocked for at least [base_delay * (2^max_retries - 1)]. *)
Theorem timeout_after_all_attempts r s :
  (forall k r', network s k r' = TimedOut) ->
  0 <= base_delay s ->
  0 <= max_retries s ->
  let s' := after (_request r) s in
  result (_request r) s = Raise Timeout /\
  sent s' = (sent s + Z.to_nat (max_retries s + 1))%nat /\
  _consecutive_429s s' = _consecutive_429s s /\
  _cooldown_until s' = _cooldown_until s /\
  base_delay s * (2 ^ max_retries s - 1) <= clock s' - clock s.
Proof.
  intros Hnet Hb Hm.
  apply (_request_loop_timeouts (default_timeout r)
           (Z.to_nat (max_retries s + 1)) 0 s); try done; lia.
Qed.

Lemma timeout_after_all_attempts_witness :
  result (_request (GET "/stats" [])) unreachable = Raise Timeout /\
  sent (after (_request (GET "/stats" [])) unreachable) = 3%nat /\
  1000 * (2 ^ 2 - 1)
    <= clock (after (_request (GET "/stats" [])) unreachable) - clock unreachable.
Proof.
  pose proof (timeout_after_all_attempts (GET "/stats" []) unreachable
                (fun _ _ => eq_refl)
                ltac:(apply Z.leb_le; vm_compute; reflexivity)
                ltac:(apply Z.leb_le; vm_compute; reflexivity)) as H.
  cbv zeta in H.
  split; [exact (proj1 H)|]. split; [exact (proj1 (proj2 H))|].
  exact (proj2 (proj2 (proj2 (proj2 H)))).
Defined.

(** * The window as a rate limit *)

Lemma popleft_below_sorted cutoff ts :
  StronglySorted Z.le ts ->
  popleft_below cutoff ts = filter (fun t => cutoff <= t) ts.
Proof.
  induction 1 as [|t ts Hs IH Hall]; [done|]. cbn [popleft_below].
  rewrite filter_cons.
  destruct (Z.ltb_spec t cutoff); destruct (decide (cutoff <= t)); try lia.
  - exact IH.
  - f_equal. symmetry. clear IH Hs.
    induction Hall as [|t' ts Ht Hall IH]; [done|].
    rewrite filter_cons. destruct (decide (cutoff <= t')); [by f_equal | lia].
Qed.

Lemma recent_later now now' ts :
  now <= now' -> (length (recent now' ts) <= length (recent now ts))%nat.
Proof.
  intros Hle. unfold recent. induction ts as [|t ts IH]; [done|].
  rewrite !filter_cons.
  destruct (decide (now' - RATE_WINDOW <= t)); destruct (decide (now - RATE_WINDOW <= t));
    cbn; lia.
Qed.

Lemma suffix_sorted (w ts : list Z) :
  w `suffix_of` ts -> StronglySorted Z.le ts -> StronglySorted Z.le w.
Proof. intros [k ->]. apply StronglySorted_app_1_r. Qed.

Lemma suffix_Forall (P : Z -> Prop) (w ts : list Z) :
  w `suffix_of` ts -> Forall P ts -> Forall P w.
Proof. intros [k ->] H. by apply Forall_app in H as [_ ?]. Qed.

Lemma window_ok_later s s' :
  _request_timestamps s' = _request_timestamps s ->
  clock s <= clock s' ->
  window_ok s -> window_ok s'.
Proof.
  intros Hts Hc (Hs & Hf & Hr). unfold window_ok. rewrite Hts.
  split; [exact Hs|]. split.
  - eapply Forall_impl; [exact Hf|]. cbn. intros t Ht. lia.
  - pose proof (recent_later (clock s) (clock s') (_request_timestamps s) Hc). lia.
Qed.

(** The admission check on a window that is in order. *)
Lemma throttled_window_ok s :
  window_ok s ->
  window_ok (throttled s) /\
  (length (recent (clock (throttled s)) (_request_timestamps (throttled s))) <= 89)%nat.
Proof.
  intros (Hs & Hf & Hr). unfold throttled.
  set (s1 := if clock s <? _cooldown_until s then _ else s).
  assert (Hts1 : _request_timestamps s1 = _request_timestamps s).
  { subst s1. by destruct (_ <? _). }
  assert (Hc1 : clock s <= clock s1).
  { subst s1. destruct (Z.ltb_spec (clock s) (_cooldown_until s)); cbn; lia. }
  clearbody s1.
  set (s2 := set_request_timestamps _ s1).
  assert (Hc2 : clock s2 = clock s1) by done.
  assert (Hts2 : _request_timestamps s2
                 = recent (clock s1) (_request_timestamps s)).
  { subst s2. cbn. rewrite Hts1. by apply popleft_below_sorted. }
  assert (Hsuf : _request_timestamps s2 `suffix_of` _request_timestamps s).
  { subst s2. cbn. rewrite Hts1. apply popleft_below_suffix. }
  assert (Hhd : forall t w, _request_timestamps s2 = t :: w -> clock s1 - RATE_WINDOW <= t).
  { subst s2. cbn. apply popleft_below_head. }
  clearbody s2.
  assert (Hlen : (length (_request_timestamps s2) <= 90)%nat).
  { rewrite Hts2. pose proof (recent_later _ _ (_request_timestamps s) Hc1). lia. }
  assert (Hs2 : StronglySorted Z.le (_request_timestamps s2))
    by (by eapply suffix_sorted).
  assert (Hf2 : Forall (fun t => t <= clock s1) (_request_timestamps s2)).
  { eapply suffix_Forall; [exact Hsuf|].
    eapply Forall_impl; [exact Hf|]. cbn. intros t Ht. lia. }
  assert (Hquiet : (length (_request_timestamps s2) <= 89)%nat ->
    window_ok s2 /\
    (length (recent (clock s2) (_request_timestamps s2)) <= 89)%nat).
  { intros H89.
    pose proof (length_filter (fun t => clock s2 - RATE_WINDOW <= t)
                  (_request_timestamps s2)) as Hfl.
    unfold window_ok, recent. rewrite Hc2 in *.
    repeat split; try done; lia. }
  destruct (_request_timestamps s2) as [|oldest w] eqn:Hw.
  { rewrite <- Hw in *. apply Hquiet. rewrite Hw. cbn. lia. }
  specialize (Hhd _ _ eq_refl).
  unfold len, RATE_THRESHOLD.
  destruct (Z.leb_spec 90 (Z.of_nat (length (oldest :: w)))).
  2: { rewrite <- Hw in *. apply Hquiet. lia. }
  apply StronglySorted_inv in Hs2 as [Hsw Hall].
  apply Forall_cons in Hf2 as [Ho Hfw].
  assert (Hrec : (length (recent (oldest + RATE_WINDOW - clock s2 + 100 + clock s2)
                            (oldest :: w)) <= 89)%nat).
  { unfold recent. rewrite filter_cons.
    destruct (decide _) as [Hd|_]; [unfold RATE_WINDOW in *; lia|].
    pose proof (length_filter
      (fun t => oldest + RATE_WINDOW - clock s2 + 100 + clock s2 - RATE_WINDOW <= t) w).
    cbn in Hlen. lia. }
  unfold window_ok, slept; cbn. rewrite Hw.
  replace (clock s2 + (oldest + RATE_WINDOW - clock s2 + 100))
    with (oldest + RATE_WINDOW - clock s2 + 100 + clock s2) by lia.
  split; [|exact Hrec]. split; [by constructor|].
  split; [|unfold recent in Hrec; lia].
  unfold RATE_WINDOW in *.
  constructor; [lia|]. eapply Forall_impl; [exact Hfw|]. cbn. intros t Ht. lia.
Qed.

Lemma window_ok_attempted r s :
  window_ok s ->
  window_ok (attempted r s) /\
  (length (recent (clock (attempted r s)) (_request_timestamps (attempted r s)))
     <= 89)%nat.
Proof. intros Hok. exact (throttled_window_ok s Hok). Qed.

Lemma window_ok_succeeded s :
  window_ok s ->
  (length (recent (clock s) (_request_timestamps s)) <= 89)%nat ->
  window_ok (succeeded s).
Proof.
  intros (Hs & Hf & _) Hr. unfold window_ok; cbn.
  split; [|split].
  - apply StronglySorted_app_2; [|exact Hs|repeat constructor].
    intros t1 t2 H1 H2. apply list_elem_of_singleton in H2 as ->.
    by apply (proj1 (Forall_forall _ _) Hf).
  - apply Forall_app. split; [exact Hf|]. repeat constructor. lia.
  - unfold recent in *. rewrite filter_app, length_app.
    pose proof (length_filter (fun t => clock s - RATE_WINDOW <= t) [clock s]).
    cbn in *. lia.
Qed.

Lemma window_ok_sleep d s : window_ok s -> window_ok (after (sleep d) s).
Proof.
  intros Hok. unfold after, sleep. destruct (Z.ltb_spec d 0); [done|].
  apply (window_ok_later s); [done | cbn; lia | done].
Qed.

Lemma window_ok_on_429 s : window_ok s -> window_ok (after _on_429 s).
Proof.
  intros Hok. unfold after. rewrite _on_429_spec; cbn zeta.
  destruct (MAX_CONSECUTIVE_429S <=? _); [|destruct (3 <=? _)]; exact Hok.
Qed.

Lemma _request_loop_window_ok r n : forall a s,
  window_ok s -> window_ok (after (_request_loop n a r) s).
Proof.
  induction n as [|n IH]; intros a s Hok; [exact Hok|].
  unfold after. rewrite _request_loop_step; cbn zeta.
  destruct (window_ok_attempted r s Hok) as [H1 H89].
  set (s1 := attempted r s) in *.
  assert (Hretry : forall s2, window_ok s2 ->
    window_ok (snd ((sleep (base_delay s * 2 ^ a);; _request_loop n (a + 1) r) s2))).
  { intros s2 H2. unfold bind.
    pose proof (window_ok_sleep (base_delay s * 2 ^ a) s2 H2) as H3.
    unfold after in H3.
    destruct (sleep (base_delay s * 2 ^ a) s2) as [[[]|e] s3]; cbn [snd] in *;
      [by apply IH | done]. }
  destruct (network s (sent s) r) as [|resp].
  { destruct (a <? max_retries s); [by apply Hretry | done]. }
  destruct (status_code resp =? 429).
  { pose proof (window_ok_on_429 s1 H1) as H2. unfold after in H2.
    unfold bind at 1.
    destruct (_on_429 s1) as [[[]|e] s2]; cbn [snd] in *; [|done].
    destruct (a <? max_retries s); [by apply Hretry | done]. }
  destruct (500 <=? status_code resp); [|by apply window_ok_succeeded].
  destruct (a <? max_retries s); [by apply Hretry | by apply window_ok_succeeded].
Qed.

(** X6: the admission check never moves the clock back and ends with
    the cooldown deadline behind the clock; on a window that is in order
    it leaves a window in order that holds at most 89 timestamps of the
    last 60 seconds.  The window records the responses returned, not the
    attempts sent. *)
Theorem admission_leaves_room s :
  let s' := after _enforce_throttle s in
  clock s <= clock s' /\
  _cooldown_until s' <= clock s' /\
  (window_ok s ->
   window_ok s' /\
   (length (recent (clock s') (_request_timestamps s')) <= 89)%nat).
Proof.
  cbv zeta. unfold after. rewrite _enforce_throttle_throttled. cbn [snd].
  split; [apply throttled_clock|]. split; [|apply throttled_window_ok].
  destruct (throttled_frame s) as (_ & _ & _ & _ & Hcd & _). rewrite Hcd.
  pose proof (throttled_clock s) as Hc. unfold throttled in *.
  destruct (Z.ltb_spec (clock s) (_cooldown_until s)); [|lia].
  revert Hc. cbn.
  match goal with |- context [popleft_below ?c ?l] =>
    pose proof (popleft_below_head c l) as Hhd;
    destruct (popleft_below c l) as [|oldest w] end; cbn; [lia|].
  specialize (Hhd _ _ eq_refl). unfold RATE_WINDOW in *.
  destruct (RATE_THRESHOLD <=? len (oldest :: w)); cbn; lia.
Qed.

Lemma admission_leaves_room_witness :
  window_ok (burst 90) /\
  window_ok (after _enforce_throttle (burst 90)) /\
  (length (recent (clock (after _enforce_throttle (burst 90)))
             (_request_timestamps (after _enforce_throttle (burst 90)))) <= 89)%nat.
Proof.
  assert (H : window_ok (burst 90)).
  { split; [|split].
    - refine (bool_decide_unpack _ _). vm_compute; reflexivity.
    - refine (bool_decide_unpack _ _). vm_compute; reflexivity.
    - apply Nat.leb_le. vm_compute; reflexivity. }
  split; [exact H|].
  pose proof (admission_leaves_room (burst 90)) as A. cbv zeta in A.
  exact (proj2 (proj2 A) H).
Defined.

(** X7: a call of the executor keeps the window in order: ascending, with
    no time of the future, and with at most 90 timestamps of the last
    60 seconds. *)
Theorem window_invariant r s :
  window_ok s -> window_ok (after (_request r) s).
Proof. apply _request_loop_window_ok. Qed.

Lemma window_invariant_witness :
  window_ok (burst 3) /\
  window_ok (after (_request (GET "/stats" [])) (burst 3)).
Proof.
  assert (H : window_ok (burst 3)).
  { split; [|split].
    - refine (bool_decide_unpack _ _). vm_compute; reflexivity.
    - refine (bool_decide_unpack _ _). vm_compute; reflexivity.
    - apply Nat.leb_le. vm_compute; reflexivity. }
  split; [exact H|].
  exact (window_invariant (GET "/stats" []) (burst 3) H).
Defined.

(** * Further properties of the operations *)

(** ** One answered request *)

Lemma _request_answered r s resp :
  0 <= max_retries s ->
  network s (sent s) (default_timeout r) = Responded resp ->
  status_code resp <> 429 ->
  status_code resp < 500 ->
  exists s1,
    _request r s = (Ok resp, s1) /\
    max_retries s1 = max_retries s /\
    base_delay s1 = base_delay s /\
    network s1 = network s /\
    sent s1 = S (sent s).
Proof.
  intros Hm Hnet H429 H5. exists (succeeded (attempted (default_timeout r) s)).
  destruct (attempted_frame (default_timeout r) s) as (M & B & _ & _ & _ & N & S1 & _).
  split; [by apply _request_first_try|].
  generalize (attempted (default_timeout r) s), M, B, N, S1. clear.
  intros s1 M B N S1.
  destruct (succeeded_frame s1) as (M' & B' & N' & S' & _).
  rewrite M', B', N', S'. done.
Qed.

(** ** Moderators *)

(** X8: [fetch_submolt_moderators] never raises: it returns the empty
    list when the executor raises or when the status is an error status
    (404 included), and the [moderators] field, or the empty list in its
    absence, otherwise. *)
Theorem moderators_never_raise submolt_name s :
  result (fetch_submolt_moderators submolt_name) s
    = Ok (match result (_request (moderators_request submolt_name)) s with
          | Ok resp =>
              if (400 <=? status_code resp) && (status_code resp <? 600)
              then JList []
              else dget "moderators" (JList []) (data resp)
          | Raise _ => JList []
          end).
Proof.
  unfold result, fetch_submolt_moderators, try_except, bind, moderators_request.
  destruct (_request _ s) as [[resp|e] s1]; cbn [fst]; [|done].
  destruct (Z.eqb_spec (status_code resp) 404) as [H404|_].
  { rewrite H404. reflexivity. }
  unfold raise_for_status.
  destruct ((400 <=? status_code resp) && (status_code resp <? 600)); reflexivity.
Qed.

(** ** Platform statistics *)

Lemma all_positive_pure vs s s0 :
  all_positive vs s0 = (result (all_positive vs) s, s0).
Proof.
  unfold result. induction vs as [|v vs IH]; [done|]. cbn [all_positive].
  unfold bind. destruct v as [[| |]| | |]; cbn; try done.
  - destruct (0 <? z); [exact IH | done].
  - destruct b; [exact IH | done].
Qed.

(** One round of the loop whose answer is not complete goes on to the
    next round, with the dictionary of this round as the best so far. *)
Lemma stats_round_incomplete n attempt retries last b s :
  0 <= max_retries s ->
  0 <= base_delay s ->
  0 <= attempt ->
  (forall r, network s (sent s) r = Responded (Response 200 b)) ->
  result (all_positive (stat_values (stats_of b))) s = Ok false ->
  exists s1,
    fetch_platform_stats_loop (S n) attempt retries last s
      = fetch_platform_stats_loop n (attempt + 1) retries (Some (stats_of b)) s1 /\
    max_retries s1 = max_retries s /\
    base_delay s1 = base_delay s /\
    network s1 = network s /\
    sent s1 = S (sent s).
Proof.
  intros Hm Hb Ha Hnet Hinc.
  destruct (_request_answered (GET "/stats" []) s (Response 200 b) Hm (Hnet _))
    as (s1 & Hreq & M1 & B1 & N1 & S1); [done | done |].
  cbn [fetch_platform_stats_loop]. rewrite (bind_ok _ _ _ _ _ Hreq).
  unfold raise_for_status; cbn [status_code data andb Z.leb Z.ltb Z.compare
                                  Pos.compare Pos.compare_cont].
  unfold bind at 1. unfold ret at 1.
  change (all_positive _) with (all_positive (stat_values (stats_of b))).
  rewrite (bind_ok _ _ _ _ _
             (eq_trans (all_positive_pure _ s s1) (f_equal (fun o => (o, s1)) Hinc))).
  unfold bind at 1, gets at 1.
  destruct (Z.ltb_spec attempt (retries - 1)).
  - unfold bind at 1, sleep.
    destruct (Z.ltb_spec (base_delay s1 * (attempt + 1)) 0); [nia|].
    cbn [modify]. eexists. split; [reflexivity|]. by repeat split.
  - unfold bind at 1, ret at 1. exists s1. by repeat split.
Qed.

Lemma stats_round_complete n attempt retries last b s :
  0 <= max_retries s ->
  (forall r, network s (sent s) r = Responded (Response 200 b)) ->
  result (all_positive (stat_values (stats_of b))) s = Ok true ->
  exists s1,
    fetch_platform_stats_loop (S n) attempt retries last s = (Ok (stats_of b), s1) /\
    sent s1 = S (sent s).
Proof.
  intros Hm Hnet Hfull.
  destruct (_request_answered (GET "/stats" []) s (Response 200 b) Hm (Hnet _))
    as (s1 & Hreq & M1 & B1 & N1 & S1); [done | done |].
  cbn [fetch_platform_stats_loop]. rewrite (bind_ok _ _ _ _ _ Hreq).
  unfold raise_for_status; cbn [status_code data andb Z.leb Z.ltb Z.compare
                                  Pos.compare Pos.compare_cont].
  unfold bind at 1. unfold ret at 1.
  change (all_positive _) with (all_positive (stat_values (stats_of b))).
  rewrite (bind_ok _ _ _ _ _
             (eq_trans (all_positive_pure _ s s1) (f_equal (fun o => (o, s1)) Hfull))).
  exists s1. by split.
Qed.

Lemma all_positive_result vs s s0 :
  result (all_positive vs) s0 = result (all_positive vs) s.
Proof. unfold result at 1. by rewrite (all_positive_pure vs s s0). Qed.

Lemma stats_rounds_until_complete k : forall (bodies : nat -> body) n attempt retries last s,
  (k < n)%nat ->
  0 <= max_retries s ->
  0 <= base_delay s ->
  0 <= attempt ->
  (forall i r, (i <= k)%nat ->
     network s (sent s + i)%nat r = Responded (Response 200 (bodies i))) ->
  (forall i, (i < k)%nat ->
     result (all_positive (stat_values (stats_of (bodies i)))) s = Ok false) ->
  result (all_positive (stat_values (stats_of (bodies k)))) s = Ok true ->
  exists s',
    fetch_platform_stats_loop n attempt retries last s = (Ok (stats_of (bodies k)), s') /\
    sent s' = (sent s + S k)%nat.
Proof.
  induction k as [|k IH]; intros bodies n attempt retries last s Hk Hm Hb Ha Hnet Hinc Hfull.
  all: destruct n as [|n]; [lia|].
  - destruct (stats_round_complete n attempt retries last (bodies 0%nat) s Hm)
      as (s1 & Hrun & Hs1); [|done|].
    { intros r. specialize (Hnet 0%nat r ltac:(lia)). by rewrite Nat.add_0_r in Hnet. }
    exists s1. split; [done|lia].
  - destruct (stats_round_incomplete n attempt retries last (bodies 0%nat) s Hm Hb Ha)
      as (s1 & Hrun & M1 & B1 & N1 & S1).
    { intros r. specialize (Hnet 0%nat r ltac:(lia)). by rewrite Nat.add_0_r in Hnet. }
    { apply Hinc. lia. }
    rewrite Hrun.
    destruct (IH (fun i => bodies (S i)) n (attempt + 1) retries
                (Some (stats_of (bodies 0%nat))) s1) as (s' & Hrun' & Hs'); try lia.
    + intros i r Hi. rewrite N1, S1.
      replace (S (sent s) + i)%nat with (sent s + S i)%nat by lia.
      apply Hnet. lia.
    + intros i Hi. rewrite (all_positive_result _ s s1). apply Hinc. lia.
    + by rewrite (all_positive_result _ s s1).
    + exists s'. split; [done|lia].
Qed.

Lemma stats_rounds_all_incomplete n : forall (bodies : nat -> body) attempt retries st0 s,
  0 <= max_retries s ->
  0 <= base_delay s ->
  0 <= attempt ->
  (forall i r, (i < n)%nat ->
     network s (sent s + i)%nat r = Responded (Response 200 (bodies i))) ->
  (forall i, (i < n)%nat ->
     result (all_positive (stat_values (stats_of (bodies i)))) s = Ok false) ->
  exists s',
    fetch_platform_stats_loop n attempt retries (Some st0) s
      = (Ok (match n with O => st0 | S m => stats_of (bodies m) end), s') /\
    sent s' = (sent s + n)%nat.
Proof.
  induction n as [|n IH]; intros bodies attempt retries st0 s Hm Hb Ha Hnet Hinc.
  { exists s. split; [done|lia]. }
  destruct (stats_round_incomplete n attempt retries (Some st0) (bodies 0%nat) s Hm Hb Ha)
    as (s1 & Hrun & M1 & B1 & N1 & S1).
  { intros r. specialize (Hnet 0%nat r ltac:(lia)). by rewrite Nat.add_0_r in Hnet. }
  { apply Hinc. lia. }
  rewrite Hrun.
  destruct (IH (fun i => bodies (S i)) (attempt + 1) retries
              (stats_of (bodies 0%nat)) s1) as (s' & Hrun' & Hs'); try lia.
  - intros i r Hi. rewrite N1, S1.
    replace (S (sent s) + i)%nat with (sent s + S i)%nat by lia.
    apply Hnet. lia.
  - intros i Hi. rewrite (all_positive_result _ s s1). apply Hinc. lia.
  - exists s'. split; [|lia]. rewrite Hrun'. by destruct n.
Qed.

(** X9: [fetch_platform_stats] returns the statistics of the first round
    whose four values are all positive, and sends no request after it. *)
Theorem stats_first_complete_round (bodies : nat -> body) k retries s :
  (k < Z.to_nat retries)%nat ->
  0 <= max_retries s ->
  0 <= base_delay s ->
  (forall i r, (i <= k)%nat ->
     network s (sent s + i)%nat r = Responded (Response 200 (bodies i))) ->
  (forall i, (i < k)%nat ->
     result (all_positive (stat_values (stats_of (bodies i)))) s = Ok false) ->
  result (all_positive (stat_values (stats_of (bodies k)))) s = Ok true ->
  result (fetch_platform_stats retries) s = Ok (stats_of (bodies k)) /\
  sent (after (fetch_platform_stats retries) s) = (sent s + S k)%nat.
Proof.
  intros Hk Hm Hb Hnet Hinc Hfull.
  destruct (stats_rounds_until_complete k bodies (Z.to_nat retries) 0 retries None s)
    as (s' & Hrun & Hs'); try done.
  unfold result, after, fetch_platform_stats. rewrite Hrun. by split.
Qed.

Lemma stats_first_complete_round_witness :
  result (fetch_platform_stats 3) reports_late = Ok (stats_of complete_stats) /\
  sent (after (fetch_platform_stats 3) reports_late) = 2%nat.
Proof.
  apply (stats_first_complete_round late_stats 1 3 reports_late).
  - vm_compute. lia.
  - apply Z.leb_le; vm_compute; reflexivity.
  - apply Z.leb_le; vm_compute; reflexivity.
  - intros i r _. reflexivity.
  - intros [|i] Hi; [vm_compute; reflexivity | lia].
  - vm_compute; reflexivity.
Defined.

(** X10: when no round is complete, [fetch_platform_stats] does not
    raise: after [max_retries] rounds, one request each, it returns the
    statistics of the last round. *)
Theorem stats_best_effort (bodies : nat -> body) retries s :
  1 <= retries ->
  0 <= max_retries s ->
  0 <= base_delay s ->
  (forall i r, (i < Z.to_nat retries)%nat ->
     network s (sent s + i)%nat r = Responded (Response 200 (bodies i))) ->
  (forall i, (i < Z.to_nat retries)%nat ->
     result (all_positive (stat_values (stats_of (bodies i)))) s = Ok false) ->
  result (fetch_platform_stats retries) s
    = Ok (stats_of (bodies (Nat.pred (Z.to_nat retries)))) /\
  sent (after (fetch_platform_stats retries) s) = (sent s + Z.to_nat retries)%nat.
Proof.
  intros Hr Hm Hb Hnet Hinc.
  unfold result, after, fetch_platform_stats.
  destruct (Z.to_nat retries) as [|n] eqn:Hn; [lia|].
  destruct (stats_round_incomplete n 0 retries None (bodies 0%nat) s Hm Hb)
    as (s1 & Hrun & M1 & B1 & N1 & S1); [lia | | |].
  { intros r. specialize (Hnet 0%nat r ltac:(lia)). by rewrite Nat.add_0_r in Hnet. }
  { apply Hinc. lia. }
  rewrite Hrun.
  destruct (stats_rounds_all_incomplete n (fun i => bodies (S i)) (0 + 1) retries
              (stats_of (bodies 0%nat)) s1) as (s' & Hrun' & Hs'); try lia.
  - intros i r Hi. rewrite N1, S1.
    replace (S (sent s) + i)%nat with (sent s + S i)%nat by lia.
    apply Hnet. lia.
  - intros i Hi. rewrite (all_positive_result _ s s1). apply Hinc. lia.
  - rewrite Hrun'. cbn [fst snd Nat.pred]. split; [by destruct n|lia].
Qed.

Lemma stats_best_effort_witness :
  result (fetch_platform_stats 2) reports_partial = Ok (stats_of partial_stats) /\
  sent (after (fetch_platform_stats 2) reports_partial) = 2%nat.
Proof.
  apply (stats_best_effort (fun _ => partial_stats) 2 reports_partial).
  - lia.
  - apply Z.leb_le; vm_compute; reflexivity.
  - apply Z.leb_le; vm_compute; reflexivity.
  - intros i r _. reflexivity.
  - intros i _. vm_compute; reflexivity.
Defined.

(** * Further properties of the streaming collectors *)

(** ** Steps that deliver nothing *)

Lemma batches_app t1 t2 : batches (t1 ++ t2) = batches t1 ++ batches t2.
Proof. unfold batches. apply omap_app. Qed.

Lemma batches_sleeps ds : batches (Slept <$> ds) = [].
Proof. induction ds as [|d ds IH]; [done|]. cbn. exact IH. Qed.

Lemma hush_trans s1 s2 s3 : hush s1 s2 -> hush s2 s3 -> hush s1 s3.
Proof. unfold hush. congruence. Qed.

Lemma hush_attempted r s : hush s (attempted r s).
Proof.
  destruct (attempted_trace r s) as [ds Hds]. unfold hush.
  rewrite Hds, !batches_app, batches_sleeps. cbn. by rewrite app_nil_r.
Qed.

Lemma hush_sleep d s : hush s (after (sleep d) s).
Proof.
  unfold after, sleep. destruct (d <? 0); [done|]. unfold hush.
  change (batches (trace s ++ [Slept d]) = batches (trace s)).
  rewrite batches_app. cbn. by rewrite app_nil_r.
Qed.

Lemma hush_on_429 s : hush s (after _on_429 s).
Proof.
  unfold after. rewrite _on_429_spec; cbn zeta.
  destruct (MAX_CONSECUTIVE_429S <=? _); [|destruct (3 <=? _)]; done.
Qed.

Lemma hush_randint a b s : hush s (after (randint a b) s).
Proof. unfold after, randint. by destruct (b <? a). Qed.

Lemma _request_loop_hush r n : forall a s, hush s (after (_request_loop n a r) s).
Proof.
  induction n as [|n IH]; intros a s; [done|].
  unfold after. rewrite _request_loop_step; cbn zeta.
  pose proof (hush_attempted r s) as H1.
  generalize dependent (attempted r s). intros s1 H1.
  assert (Hretry : forall s2, hush s s2 ->
    hush s (snd ((sleep (base_delay s * 2 ^ a);; _request_loop n (a + 1) r) s2))).
  { intros s2 H2. unfold bind.
    pose proof (hush_sleep (base_delay s * 2 ^ a) s2) as H3. unfold after in H3.
    destruct (sleep (base_delay s * 2 ^ a) s2) as [[[]|e] s3]; cbn [snd] in *.
    - eapply hush_trans; [exact H2|]. eapply hush_trans; [exact H3|apply IH].
    - by eapply hush_trans. }
  destruct (network s (sent s) r) as [|resp].
  { destruct (a <? max_retries s); [by apply Hretry | done]. }
  destruct (status_code resp =? 429).
  { pose proof (hush_on_429 s1) as H2. unfold after in H2. unfold bind at 1.
    destruct (_on_429 s1) as [[[]|e] s2]; cbn [snd] in *.
    - destruct (a <? max_retries s);
        [apply Hretry; by eapply hush_trans | by eapply hush_trans].
    - by eapply hush_trans. }
  destruct (500 <=? status_code resp); [|exact H1].
  destruct (a <? max_retries s); [by apply Hretry | exact H1].
Qed.

Lemma fetch_page_hush L off s :
  hush s (after (fetch_page L off) s) /\
  exists fetched, result (fetch_page L off) s = Ok fetched.
Proof.
  unfold after, result, fetch_page, try_except, bind.
  pose proof (_request_loop_hush (default_timeout (GET (path L) (page_params L off)))
                (Z.to_nat (max_retries s + 1)) 0 s) as Hq.
  unfold after in Hq.
  change (_request_loop _ 0 _ s) with (_request (GET (path L) (page_params L off)) s) in Hq.
  destruct (_request (GET (path L) (page_params L off)) s) as [[resp|e] s1];
    cbn [fst snd] in *.
  - unfold raise_for_status.
    destruct ((400 <=? status_code resp) && (status_code resp <? 600)); cbn;
      (split; [exact Hq | by eexists]).
  - cbn. split; [exact Hq | by eexists].
Qed.

(** ** An induction rule for the loop *)

(** To show that every run of the loop ends in [Q], give a property [I]
    of the local variables and the state at the head of the loop that
    silent steps and changes of the cursor keep, that a delivery either
    keeps or, when the target is reached, turns into [Q], and that yields
    [Q] wherever the loop is left. *)
Lemma streaming_loop_rule L target_count max_stale_pages
    (I : locals -> state -> Prop) (Q : res (option Z) -> state -> Prop) :
  (forall v s s', I v s -> hush s s' -> I v s') ->
  (forall v v' s, total v' = total v -> page v' = page v -> I v s -> I v' s) ->
  (forall v s, I v s -> Q (Ok None) s) ->
  (forall v s e, I v s -> Q (Raise e) s) ->
  (forall v s, I v s -> Q (Ok (Some (total v))) s) ->
  (forall v s new sn, I v s -> new <> [] ->
     let v' := Locals (total v + len new) (offset v) (page v + 1) sn 0 0 in
     let s2 := log (OnPage (page v + 1) new) s in
     if (0 <? target_count) && (target_count <=? total v')
     then Q (Ok (Some (total v'))) s2 else I v' s2) ->
  forall fuel v s,
    I v s ->
    Q (result (streaming_loop L target_count max_stale_pages fuel v) s)
      (after (streaming_loop L target_count max_stale_pages fuel v) s).
Proof.
  intros Hhush Hlocals Hfuel Hraise Hret Hpage.
  set (Q' := fun p : res (option Z) * state => Q (fst p) (snd p)).
  assert (Hret' : forall v s, I v s -> Q' (ret (Some (total v)) s))
    by (intros; by apply Hret).
  assert (Hraise' : forall v s e, I v s -> Q' (@raise (option Z) e s))
    by (intros; by apply (Hraise v)).
  induction fuel as [|fuel IH]; intros v s Hinv; [by apply (Hfuel v)|].
  change (Q' (streaming_loop L target_count max_stale_pages (S fuel) v s)).
  assert (IH' : forall v s, I v s ->
    Q' (streaming_loop L target_count max_stale_pages fuel v s)) by exact IH.
  clear IH.
  set (again := streaming_loop L target_count max_stale_pages fuel) in *.
  assert (Hagain : forall v0 v' s', total v' = total v0 -> page v' = page v0 ->
    I v0 s' -> Q' (again v' s')).
  { intros v0 v' s' Ht Hp Hi. apply IH'. by apply (Hlocals v0). }
  assert (Hjump : forall v0 (f : Z -> locals) a b s',
    (forall o, total (f o) = total v0) -> (forall o, page (f o) = page v0) ->
    I v0 s' -> Q' ((let* o := randint a b in again (f o)) s')).
  { intros v0 f a b s' Hft Hfp Hi. unfold bind.
    pose proof (hush_randint a b s') as Hq. unfold after in Hq.
    destruct (randint a b s') as [[o|e] s2]; cbn [snd] in *.
    - apply (Hagain v0); [apply Hft | apply Hfp | by apply (Hhush v0 s')].
    - apply (Hraise' v0). by apply (Hhush v0 s'). }
  assert (Htail : forall v' s2 (n1 n2 : Z), I v' s2 ->
    Q' ((if max_stale_pages <=? stale_pages v' then ret (Some (total v'))
         else if 2 * n1 <? n2 then
           let* offset' := randint 0 (Z.max target_count (random_bound L)) in
           again (Locals (total v') offset' (page v') (seen v') (stale_pages v') 0)
         else
           again (Locals (total v') (offset v' + page_size) (page v') (seen v')
                    (stale_pages v') 0)) s2)).
  { intros v' s2 n1 n2 Hi.
    destruct (max_stale_pages <=? stale_pages v'); [by apply Hret'|].
    destruct (2 * n1 <? n2).
    - by apply (Hjump v').
    - by apply (Hagain v'). }
  cbn [streaming_loop]. fold again. unfold bind at 1.
  destruct (fetch_page_hush L (offset v) s) as [Hq (fetched & Hres)].
  unfold after, result in Hq, Hres.
  destruct (fetch_page L (offset v) s) as [o s1]; cbn [fst snd] in Hq, Hres.
  subst o. pose proof (Hhush _ _ _ Hinv Hq) as Hinv1.
  destruct fetched as [j|].
  2: { unfold on_fetch_error.
    destruct (max_consecutive_errors <=? consecutive_errors v + 1).
    { by apply Hret'. }
    unfold bind.
    pose proof (hush_randint 0 (Z.max target_count (random_bound L)) s1) as Hq2.
    unfold after in Hq2.
    destruct (randint 0 (Z.max target_count (random_bound L)) s1)
      as [[o|e] s2]; cbn [snd] in *.
    2: { apply (Hraise' v). by apply (Hhush v s1). }
    pose proof (Hhush _ _ _ Hinv1 Hq2) as Hinv2.
    unfold gets.
    pose proof (hush_sleep (base_delay s2 * (consecutive_errors v + 1)) s2) as Hq3.
    unfold after in Hq3.
    destruct (sleep (base_delay s2 * (consecutive_errors v + 1)) s2)
      as [[[]|e] s3]; cbn [snd] in *.
    - apply (Hagain v); [done | done | by apply (Hhush v s2)].
    - apply (Hraise' v). by apply (Hhush v s2). }
  destruct (truthy j); cbn [negb].
  2: { destruct ((0 <? target_count) && (total v <? target_count)).
    2: { by apply Hret'. }
    destruct (max_stale_pages <=? stale_pages v + 1).
    { by apply Hret'. }
    by apply (Hagain v). }
  unfold as_records, bind at 1.
  destruct j as [[| |]| | |items]; try (by apply (Hraise' v)).
  unfold ret at 1. unfold bind at 1.
  destruct (unseen (key_field L) (seen v) items) as [|r0 new] eqn:Hnew.
  - unfold ret at 1.
    cbn [total stale_pages offset page seen].
    destruct ((0 <? target_count) && (target_count <=? total v)).
    { by apply Hret'. }
    apply (Htail (Locals (total v) (offset v) (page v) (seen v) (stale_pages v + 1) 0)).
    by apply (Hlocals v).
  - unfold bind at 1, modify at 1, ret at 1.
    specialize (Hpage v s1 (r0 :: new)
                  (add_all (key_field L) (r0 :: new) (seen v)) Hinv1 ltac:(done)).
    cbv zeta in Hpage. cbn [total] in Hpage |- *.
    destruct ((0 <? target_count) && (target_count <=? total v + len (r0 :: new))).
    { exact Hpage. }
    by apply (Htail _ _ _ _ Hpage).
Qed.

(** ** Deliveries and the total *)

Lemma counted_app bs1 bs2 : counted (bs1 ++ bs2) = counted bs1 + counted bs2.
Proof.
  unfold counted. induction bs1 as [|pb bs1 IH]; cbn; [lia|].
  rewrite IH. lia.
Qed.

Lemma well_paged_snoc bs batch :
  well_paged bs -> batch <> [] -> well_paged (bs ++ [(len bs + 1, batch)]).
Proof.
  intros [Hnum Hne] Hb. split.
  - rewrite fmap_app, Hnum. cbn. unfold len. rewrite length_app. cbn.
    replace (Z.of_nat (length bs + 1)) with (Z.of_nat (length bs) + 1) by lia.
    rewrite seqZ_app by lia. f_equal. rewrite Z.add_comm. reflexivity.
  - apply Forall_app. split; [exact Hne|]. by repeat constructor.
Qed.

Lemma streaming_loop_accounting L target_count max_stale_pages fuel s :
  batches (trace s) = [] ->
  let s' := after (streaming_loop L target_count max_stale_pages fuel locals0) s in
  well_paged (batches (trace s')) /\
  forall T,
    result (streaming_loop L target_count max_stale_pages fuel locals0) s = Ok (Some T) ->
    T = counted (batches (trace s')).
Proof.
  intros Hnone.
  apply (streaming_loop_rule L target_count max_stale_pages
    (fun v s => well_paged (batches (trace s)) /\
                page v = len (batches (trace s)) /\
                total v = counted (batches (trace s)))
    (fun o s => well_paged (batches (trace s)) /\
                forall T, o = Ok (Some T) -> T = counted (batches (trace s)))).
  - intros v s0 s1 Hi Hq. unfold hush in Hq. by rewrite Hq.
  - intros v v' s0 Ht Hp Hi. by rewrite Ht, Hp.
  - intros v s0 (Hw & _). split; [done|discriminate].
  - intros v s0 e (Hw & _). split; [done|discriminate].
  - intros v s0 (Hw & _ & Ht). split; [done|]. by intros T [= <-].
  - intros v s0 new sn (Hw & Hp & Ht) Hnew. cbv zeta.
    assert (Hb : batches (trace (log (OnPage (page v + 1) new) s0))
                 = batches (trace s0) ++ [(len (batches (trace s0)) + 1, new)]).
    { change (trace (log (OnPage (page v + 1) new) s0))
        with (trace s0 ++ [OnPage (page v + 1) new]).
      rewrite batches_app, Hp. reflexivity. }
    assert (Hw' : well_paged (batches (trace (log (OnPage (page v + 1) new) s0)))).
    { rewrite Hb. by apply well_paged_snoc. }
    assert (Hc : total v + len new
                 = counted (batches (trace (log (OnPage (page v + 1) new) s0)))).
    { rewrite Hb, counted_app, Ht. cbn. lia. }
    cbn [total page].
    destruct ((0 <? target_count) && (target_count <=? total v + len new)).
    + split; [done|]. by intros T [= <-].
    + split; [done|]. split; [|done].
      rewrite Hb. unfold len in *. rewrite length_app. cbn [length]. lia.
  - rewrite Hnone. by repeat split.
Qed.

(** X11: the total that a streaming collector returns is the number of
    records it has handed to [on_page]. *)
Theorem total_counts_deliveries L target_count max_stale_pages fuel s T :
  batches (trace s) = [] ->
  result (streaming_loop L target_count max_stale_pages fuel locals0) s = Ok (Some T) ->
  T = counted (batches
                 (trace (after (streaming_loop L target_count max_stale_pages fuel locals0) s))).
Proof.
  intros Hnone Hres.
  by apply (streaming_loop_accounting L target_count max_stale_pages fuel s Hnone).
Qed.

Lemma total_counts_deliveries_witness :
  result (fetch_submolts_streaming 0 1 5) (repeats_twins "submolts" "name")
    = Ok (Some 2) /\
  2 = counted (batches (trace (after (fetch_submolts_streaming 0 1 5)
                                 (repeats_twins "submolts" "name")))).
Proof.
  assert (H : result (fetch_submolts_streaming 0 1 5) (repeats_twins "submolts" "name")
              = Ok (Some 2)) by (vm_compute; reflexivity).
  split; [exact H|].
  exact (total_counts_deliveries submolts_listing 0 1 5
           (repeats_twins "submolts" "name") 2 eq_refl H).
Defined.

(** X12: a streaming collector numbers its calls of [on_page] 1, 2, 3,
    ... without a gap, and never calls it with an empty batch. *)
Theorem deliveries_well_paged L target_count max_stale_pages fuel s :
  batches (trace s) = [] ->
  well_paged
    (batches (trace (after (streaming_loop L target_count max_stale_pages fuel locals0) s))).
Proof.
  intros Hnone.
  by apply (streaming_loop_accounting L target_count max_stale_pages fuel s Hnone).
Qed.

Lemma deliveries_well_paged_witness :
  batches (trace (repeats_twins "posts" "id")) = [] /\
  well_paged (batches (trace (after (fetch_posts_streaming 0 1 5)
                                (repeats_twins "posts" "id")))).
Proof.
  split; [reflexivity|].
  exact (deliveries_well_paged posts_listing 0 1 5 (repeats_twins "posts" "id") eq_refl).
Defined.

(** ** Reaching the target *)

(** X13: when the total returned has reached a positive target, the
    delivery that reached it is the last event of the run, and the total
    was below the target before it: the collector fetches nothing once
    the target is met. *)
Theorem stops_when_target_reached L target_count max_stale_pages fuel s T :
  0 < target_count ->
  result (streaming_loop L target_count max_stale_pages fuel locals0) s = Ok (Some T) ->
  target_count <= T ->
  exists p batch t0,
    trace (after (streaming_loop L target_count max_stale_pages fuel locals0) s)
      = t0 ++ [OnPage p batch] /\
    T - len batch < target_count.
Proof.
  intros Htarget Hres HT.
  assert (H : forall T',
    result (streaming_loop L target_count max_stale_pages fuel locals0) s = Ok (Some T') ->
    T' < target_count \/
    exists p batch t0,
      trace (after (streaming_loop L target_count max_stale_pages fuel locals0) s)
        = t0 ++ [OnPage p batch] /\
      T' - len batch < target_count).
  { apply (streaming_loop_rule L target_count max_stale_pages
      (fun v _ => total v < target_count)
      (fun o s => forall T', o = Ok (Some T') ->
         T' < target_count \/
         exists p batch t0, trace s = t0 ++ [OnPage p batch] /\
                            T' - len batch < target_count)).
    - done.
    - intros v v' s0 Ht _ Hi. by rewrite Ht.
    - discriminate.
    - discriminate.
    - intros v s0 Hi T' [= <-]. by left.
    - intros v s0 new sn Hi Hnew. cbv zeta. cbn [total].
      destruct (Z.leb_spec target_count (total v + len new)).
      + rewrite andb_true_r. destruct (Z.ltb_spec 0 target_count); [|lia].
        intros T' [= <-]. right. exists (page v + 1), new, (trace s0).
        split; [done|lia].
      + rewrite andb_false_r. done.
    - cbn. lia. }
  destruct (H T Hres) as [Hlt|Hex]; [lia | exact Hex].
Qed.

Lemma stops_when_target_reached_witness :
  result (fetch_submolts_streaming 1 1 5) (repeats_twins "submolts" "name")
    = Ok (Some 2) /\
  exists p batch t0,
    trace (after (fetch_submolts_streaming 1 1 5) (repeats_twins "submolts" "name"))
      = t0 ++ [OnPage p batch] /\
    2 - len batch < 1.
Proof.
  assert (H : result (fetch_submolts_streaming 1 1 5) (repeats_twins "submolts" "name")
              = Ok (Some 2)) by (vm_compute; reflexivity).
  split; [exact H|].
  apply (stops_when_target_reached submolts_listing 1 1 5
           (repeats_twins "submolts" "name") 2); [lia | exact H | lia].
Defined.

(** ** Giving up on a server that refuses *)

Lemma fetch_page_refused L off c b s :
  refuses c b s ->
  400 <= c < 500 -> c <> 429 ->
  exists s1,
    fetch_page L off s = (Ok None, s1) /\
    refuses c b s1 /\ sent s1 = S (sent s) /\ hush s s1.
Proof.
  intros (Hm & Hb & Hnet) Hc H429.
  destruct (_request_answered (GET (path L) (page_params L off)) s (Response c b)
              Hm (Hnet _ _)) as (s1 & Hreq & M1 & B1 & N1 & S1); [done | cbn; lia |].
  exists s1.
  pose proof (fetch_page_hush L off s) as [Hq _].
  unfold fetch_page, try_except in *. unfold after in Hq.
  rewrite (bind_ok _ _ _ _ _ Hreq) in Hq |- *.
  unfold raise_for_status, bind in Hq |- *. cbn [status_code] in Hq |- *.
  destruct (Z.leb_spec 400 c); [|lia]. destruct (Z.ltb_spec c 600); [|lia].
  cbn in Hq |- *. split; [done|]. split; [|by split].
  unfold refuses. rewrite M1, B1, N1. by repeat split.
Qed.

Lemma gives_up L target_count max_stale_pages c b :
  0 <= random_bound L ->
  400 <= c < 500 -> c <> 429 ->
  forall m v s fuel,
    refuses c b s ->
    0 <= consecutive_errors v ->
    Z.to_nat (max_consecutive_errors - consecutive_errors v) = S m ->
    (S m <= fuel)%nat ->
    exists s',
      streaming_loop L target_count max_stale_pages fuel v s = (Ok (Some (total v)), s') /\
      sent s' = (sent s + S m)%nat /\
      hush s s'.
Proof.
  intros Hbound Hc H429. unfold max_consecutive_errors.
  induction m as [|m IH]; intros v s fuel Href He Hleft Hfuel.
  all: destruct fuel as [|fuel]; [lia|]; cbn [streaming_loop].
  all: destruct (fetch_page_refused L (offset v) c b s Href Hc H429)
         as (s1 & Hfetch & Href1 & Hsent1 & Hq1).
  all: rewrite (bind_ok _ _ _ _ _ Hfetch); cbn match.
  all: unfold on_fetch_error, max_consecutive_errors.
  - destruct (Z.leb_spec 10 (consecutive_errors v + 1)); [|lia].
    exists s1. split; [done|]. split; [lia|done].
  - destruct (Z.leb_spec 10 (consecutive_errors v + 1)); [lia|].
    rewrite (bind_ok _ _ _ _ _
               (randint_drawn 0 (Z.max target_count (random_bound L)) s1 ltac:(lia))).
    unfold bind at 1, gets at 1.
    destruct Href1 as (Hm1 & Hb1 & Hnet1).
    unfold bind at 1, sleep.
    destruct (Z.ltb_spec (base_delay (set_drawn S s1) * (consecutive_errors v + 1)) 0).
    { change (base_delay (set_drawn S s1)) with (base_delay s1) in *. nia. }
    cbn [modify].
    match goal with
    | |- context [streaming_loop _ _ _ fuel ?v' ?s2] =>
        destruct (IH v' s2 fuel) as (s' & Hrun & Hsent' & Hq')
    end; [by repeat split | cbn; lia | cbn; lia | lia |].
    exists s'. split; [exact Hrun|]. split.
    + rewrite Hsent'. cbn. lia.
    + eapply hush_trans; [exact Hq1|]. eapply hush_trans; [|exact Hq'].
      unfold hush. cbn. rewrite batches_app. cbn. by rewrite app_nil_r.
Qed.

(** X14: against a server that answers every request with a client
    error (an invalid key, say), a streaming collector does not raise:
    after 10 failed fetches, one request each, it returns a total of 0
    and has delivered nothing. *)
Theorem gives_up_after_ten_errors L target_count max_stale_pages c b s fuel :
  L = submolts_listing \/ L = posts_listing ->
  refuses c b s ->
  400 <= c < 500 -> c <> 429 ->
  (10 <= fuel)%nat ->
  let s' := after (streaming_loop L target_count max_stale_pages fuel locals0) s in
  result (streaming_loop L target_count max_stale_pages fuel locals0) s = Ok (Some 0) /\
  sent s' = (sent s + 10)%nat /\
  batches (trace s') = batches (trace s).
Proof.
  intros HL Href Hc H429 Hfuel.
  assert (Hbound : 0 <= random_bound L) by (by destruct HL as [-> | ->]).
  destruct (gives_up L target_count max_stale_pages c b Hbound Hc H429
              9 locals0 s fuel Href) as (s' & Hrun & Hsent & Hq); [done | done | lia |].
  cbv zeta. unfold result, after. rewrite Hrun. by repeat split.
Qed.

Lemma gives_up_after_ten_errors_witness :
  result (fetch_submolts_streaming 0 20 10) nothing_there = Ok (Some 0) /\
  sent (after (fetch_submolts_streaming 0 20 10) nothing_there) = 10%nat /\
  batches (trace (after (fetch_submolts_streaming 0 20 10) nothing_there)) = [].
Proof.
  assert (R : refuses 404 ∅ nothing_there).
  { split; [apply Z.leb_le; vm_compute; reflexivity|].
    split; [apply Z.leb_le; vm_compute; reflexivity|].
    intros n r; reflexivity. }
  pose proof (gives_up_after_ten_errors submolts_listing 0 20 404 ∅ nothing_there 10
                (or_introl eq_refl) R ltac:(lia) ltac:(lia) ltac:(lia)) as H.
  cbv zeta in H. exact H.
Defined.

(** ** A body without its page *)

(** X15: when the body of a 200 answer has no [posts] field, [fetch_posts]
    raises [KeyError], whereas the streaming collector without a target
    takes the missing page for the end of the data and returns 0 after
    that one request; [fetch_agent_profile] raises [KeyError] on a body
    that reports success but holds no [agent]. *)
Theorem body_without_payload b s :
  serves b s ->
  (b !! "posts" = None ->
     (forall offset limit,
        result (fetch_posts offset limit) s = Raise (KeyError "posts")) /\
     (forall target_count max_stale_pages fuel,
        target_count <= 0 -> (0 < fuel)%nat ->
        result (fetch_posts_streaming target_count max_stale_pages fuel) s = Ok (Some 0) /\
        sent (after (fetch_posts_streaming target_count max_stale_pages fuel) s)
          = S (sent s))) /\
  (truthy (dget "success" (JBool false) b) = true -> b !! "agent" = None ->
     forall name, result (fetch_agent_profile name) s = Raise (KeyError "agent")).
Proof.
  intros Hsrv. pose proof Hsrv as [Hm Hnet]. split.
  - intros Hposts. split.
    + intros offset limit. unfold result, fetch_posts.
      erewrite bind_ok by (apply _request_first_try; [done | apply Hnet | done | done]).
      unfold bind, raise_for_status; cbn. by rewrite Hposts.
    + intros target_count max_stale_pages fuel Ht Hfuel.
      destruct fuel as [|fuel]; [lia|].
      unfold result, after, fetch_posts_streaming. cbn [streaming_loop].
      destruct (fetch_page_served posts_listing (offset locals0) b s Hsrv)
        as (s1 & Hfetch & _ & Hsent1 & _).
      rewrite (bind_ok _ _ _ _ _ Hfetch). cbn match.
      unfold dget. cbn [page_field posts_listing]. rewrite Hposts. cbn.
      destruct (Z.ltb_spec 0 target_count); [lia|]. cbn. by split.
  - intros Hflag Hagent name. unfold result, fetch_agent_profile.
    erewrite bind_ok by (apply _request_first_try; [done | apply Hnet | done | done]).
    unfold bind, raise_for_status; cbn. by rewrite Hflag, Hagent.
Qed.

Lemma body_without_payload_witness :
  result (fetch_posts 0 100) says_success = Raise (KeyError "posts") /\
  result (fetch_posts_streaming 0 20 5) says_success = Ok (Some 0) /\
  result (fetch_agent_profile "alice") says_success = Raise (KeyError "agent").
Proof.
  assert (S : serves bare_success says_success).
  { split; [apply Z.leb_le; vm_compute; reflexivity | intros n r; reflexivity]. }
  pose proof (body_without_payload bare_success says_success S) as [P A].
  specialize (P eq_refl). destruct P as [P1 P2].
  split; [apply P1|]. split.
  - apply (P2 0 20 5%nat); lia.
  - apply A; reflexivity.
Defined.

(** ** Collecting a whole listing *)

(** One iteration whose request is answered 200 with a list. *)
Lemma collect_loop_served P on_page fuel all offset pg calls s b pgl :
  0 <= max_retries s ->
  network s (sent s)
    (default_timeout (GET (paging_path P) (collect_params P offset)))
    = Responded (Response 200 b) ->
  b !! paging_field P = Some (JList pgl) ->
  exists s1,
    max_retries s1 = max_retries s /\ network s1 = network s /\
    sent s1 = S (sent s) /\
    collect_loop P on_page (S fuel) all offset pg calls s =
      if bool_decide (pgl = []) then (Ok (Some (Collected all calls)), s1)
      else
        let all' := all ++ (JObj <$> pgl) in
        let calls' := if on_page then calls ++ [(pg + 1, len all')] else calls in
        if len pgl <? default 100 (paging_limit P)
        then (Ok (Some (Collected all' calls')), s1)
        else collect_loop P on_page fuel all'
               (offset + default (len pgl) (paging_limit P)) (pg + 1) calls' s1.
Proof.
  intros Hm Hnet Hb.
  destruct (_request_answered (GET (paging_path P) (collect_params P offset)) s
              (Response 200 b) Hm Hnet) as (s1 & Hr & M1 & _ & N1 & S1);
    [cbn; lia | cbn; lia |].
  exists s1. repeat split; try assumption.
  cbn [collect_loop].
  rewrite (bind_ok _ _ _ _ _ Hr).
  unfold raise_for_status. cbn [status_code data].
  change ((400 <=? 200) && (200 <? 600)) with false. cbv iota.
  unfold bind at 1. unfold ret at 1. cbv beta iota.
  rewrite (dget_lookup _ _ _ _ Hb).
  cbn [truthy]. destruct (bool_decide (pgl = [])); cbn [negb]; [reflexivity|].
  cbn [iterated]. unfold bind at 1. unfold ret at 1. cbv beta iota zeta.
  unfold len at 1 3. rewrite length_fmap. fold (len pgl).
  by destruct (len pgl <? default 100 (paging_limit P)).
Qed.

Lemma concat_pages_S (pages : nat -> list record) n :
  concat (pages <$> seq 0 (S n))
  = pages 0%nat ++ concat ((fun i => pages (S i)) <$> seq 0 n).
Proof.
  cbn [seq fmap list_fmap concat]. f_equal. f_equal.
  rewrite <- fmap_S_seq, <- list_fmap_compose. reflexivity.
Qed.

(** The calls [on_page(page, so_far)] made for the pages [0 .. n-1],
    when [pg] pages and [before] elements came before them. *)
Lemma progress_S (pages : nat -> list record) (pg before : Z) n :
  (fun k => (pg + Z.of_nat (S k),
             before + len (concat (pages <$> seq 0 (S k))))) <$> seq 0 (S n)
  = (pg + 1, before + len (pages 0%nat)) ::
    ((fun k => (pg + 1 + Z.of_nat (S k),
                before + len (pages 0%nat)
                + len (concat ((fun i => pages (S i)) <$> seq 0 (S k)))))
       <$> seq 0 n).
Proof.
  change (seq 0 (S n)) with (0%nat :: seq 1 n). rewrite fmap_cons. f_equal.
  - cbn. rewrite app_nil_r. f_equal.
  - rewrite <- fmap_S_seq, <- list_fmap_compose.
    apply list_fmap_ext. intros _ k _. unfold compose.
    rewrite (concat_pages_S pages (S k)). unfold len.
    rewrite (length_app (pages 0%nat)). f_equal; lia.
Qed.

Lemma collect_loop_pages P on_page : forall m pages fuel all offset pg calls s,
  0 <= max_retries s ->
  (m < fuel)%nat ->
  (forall i, (i < m)%nat ->
     default 100 (paging_limit P) <= len (pages i) /\ pages i <> []) ->
  len (pages m) < default 100 (paging_limit P) ->
  serves_pages (paging_field P) pages m s ->
  exists c s',
    collect_loop P on_page fuel all offset pg calls s = (Ok (Some c), s') /\
    gathered c = all ++ (JObj <$> concat (pages <$> seq 0 (S m))) /\
    progress c
      = calls ++
        (if on_page
         then (fun k => (pg + Z.of_nat (S k),
                         len all + len (concat (pages <$> seq 0 (S k)))))
                <$> seq 0 (if bool_decide (pages m = []) then m else S m)
         else []) /\
    sent s' = (sent s + S m)%nat.
Proof.
  induction m as [|m IH]; intros pages fuel all offset pg calls s Hm Hf Hfull Hshort Hsrv;
    (destruct fuel as [|fuel]; [lia|]);
    destruct (Hsrv 0%nat
                (default_timeout (GET (paging_path P) (collect_params P offset)))
                ltac:(lia)) as (b & Hnet & Hb);
    rewrite Nat.add_0_r in Hnet;
    destruct (collect_loop_served P on_page fuel all offset pg calls s b
                (pages 0%nat) Hm Hnet Hb) as (s1 & M1 & N1 & S1 & ->).
  - case_bool_decide as He.
    + exists (Collected all calls), s1. repeat split.
      * cbn. rewrite He. cbn. by rewrite app_nil_r.
      * cbn. destruct on_page; cbn; by rewrite app_nil_r.
      * lia.
    + cbv zeta. apply Z.ltb_lt in Hshort. rewrite Hshort.
      eexists _, s1. split; [reflexivity|]. repeat split.
      * cbn. by rewrite app_nil_r.
      * cbn [progress]. destruct on_page; [|by rewrite app_nil_r].
        cbn. rewrite app_nil_r. unfold len. rewrite length_app, length_fmap.
        do 3 f_equal. lia.
      * lia.
  - destruct (Hfull 0%nat ltac:(lia)) as [Hge Hne].
    rewrite bool_decide_eq_false_2 by exact Hne. cbv zeta.
    apply Z.ltb_ge in Hge. rewrite Hge.
    edestruct (IH (fun i => pages (S i)) fuel) as (c & s' & -> & G & Pr & Sn);
      [ rewrite M1; exact Hm | lia | intros i Hi; apply Hfull; lia | exact Hshort
      | | ].
    + intros i r Hi. destruct (Hsrv (S i) r ltac:(lia)) as (b' & Hn' & Hb').
      exists b'. split; [|exact Hb'].
      rewrite N1, S1. rewrite <- Hn'. f_equal. lia.
    + exists c, s'. split; [reflexivity|]. repeat split.
      * rewrite G, (concat_pages_S pages (S m)), fmap_app, app_assoc. reflexivity.
      * rewrite Pr. destruct on_page.
        -- assert ((if bool_decide (pages (S m) = []) then S m else S (S m))
                   = S (if bool_decide (pages (S m) = []) then m else S m)) as ->
             by (by destruct (bool_decide (pages (S m) = []))).
           rewrite progress_S. rewrite <- app_assoc. cbn [app].
           unfold len. rewrite !length_app, !length_fmap.
           f_equal. f_equal; [f_equal; lia|].
           apply list_fmap_ext. intros _ k _. f_equal. lia.
        -- reflexivity.
      * rewrite Sn, S1. lia.
Qed.

Lemma collect_loop_from_start P on_page m pages fuel s :
  0 <= max_retries s ->
  (m < fuel)%nat ->
  (forall i, (i < m)%nat ->
     default 100 (paging_limit P) <= len (pages i) /\ pages i <> []) ->
  len (pages m) < default 100 (paging_limit P) ->
  serves_pages (paging_field P) pages m s ->
  exists c s',
    collect_loop P on_page fuel [] 0 0 [] s = (Ok (Some c), s') /\
    gathered c = JObj <$> so_far pages (S m) /\
    progress c
      = (if on_page
         then reported pages (if bool_decide (pages m = []) then m else S m)
         else []) /\
    sent s' = (sent s + S m)%nat.
Proof.
  intros Hm Hf Hfull Hshort Hsrv.
  destruct (collect_loop_pages P on_page m pages fuel [] 0 0 [] s
              Hm Hf Hfull Hshort Hsrv) as (c & s' & E & G & Pr & Sn).
  exists c, s'. split; [exact E|]. split; [exact G|]. split; [|exact Sn].
  rewrite Pr. cbn [app]. destruct on_page; [|reflexivity].
  apply list_fmap_ext. intros _ k _. unfold so_far, len. cbn [length]. f_equal; lia.
Qed.

(** X16: [fetch_all_posts] returns the pages it was served one after
    the other, up to and including the first page shorter than [limit],
    after one request per page; the callback is called once per
    non-empty page with the number of the page and the number of posts
    so far. *)
Theorem fetch_all_posts_until_short_page on_page limit pages m fuel s :
  0 <= max_retries s ->
  (m < fuel)%nat ->
  (forall i, (i < m)%nat -> limit <= len (pages i) /\ pages i <> []) ->
  len (pages m) < limit ->
  serves_pages "posts" pages m s ->
  exists c s',
    fetch_all_posts on_page limit fuel s = (Ok (Some c), s') /\
    gathered c = JObj <$> so_far pages (S m) /\
    progress c
      = (if on_page
         then reported pages (if bool_decide (pages m = []) then m else S m)
         else []) /\
    sent s' = (sent s + S m)%nat.
Proof.
  intros. by apply (collect_loop_from_start (Paging "/posts" "posts" (Some limit))).
Qed.

Lemma fetch_all_posts_until_short_page_witness :
  exists c s',
    fetch_all_posts true 2 5 (paged "posts" (three_pages "id")) = (Ok (Some c), s') /\
    gathered c = JObj <$> so_far (three_pages "id") 3 /\
    progress c = reported (three_pages "id") 3 /\
    sent s' = 3%nat.
Proof.
  apply (fetch_all_posts_until_short_page true 2 (three_pages "id") 2 5
           (paged "posts" (three_pages "id"))).
  - apply Z.leb_le; vm_compute; reflexivity.
  - lia.
  - intros [|[|i]] Hi; [split; [vm_compute; discriminate | discriminate] ..| lia].
  - vm_compute; reflexivity.
  - intros i r _. eexists. split; [reflexivity|]. apply lookup_singleton_eq.
Defined.

(** X17: [fetch_submolts] returns the pages it was served one after the
    other, up to and including the first page of fewer than 100
    submolts, after one request per page; the callback is called once
    per non-empty page. *)
Theorem fetch_submolts_until_short_page on_page pages m fuel s :
  0 <= max_retries s ->
  (m < fuel)%nat ->
  (forall i, (i < m)%nat -> 100 <= len (pages i)) ->
  len (pages m) < 100 ->
  serves_pages "submolts" pages m s ->
  exists c s',
    fetch_submolts on_page fuel s = (Ok (Some c), s') /\
    gathered c = JObj <$> so_far pages (S m) /\
    progress c
      = (if on_page
         then reported pages (if bool_decide (pages m = []) then m else S m)
         else []) /\
    sent s' = (sent s + S m)%nat.
Proof.
  intros Hm Hf Hfull Hshort Hsrv.
  apply (collect_loop_from_start (Paging "/submolts" "submolts" None)); try done.
  intros i Hi. specialize (Hfull i Hi). split; [exact Hfull|].
  intros E. rewrite E in Hfull. unfold len in Hfull. cbn [length] in Hfull. lia.
Qed.

Lemma fetch_submolts_until_short_page_witness :
  exists c s',
    fetch_submolts false 5 (paged "submolts" (two_pages "name")) = (Ok (Some c), s') /\
    gathered c = JObj <$> so_far (two_pages "name") 2 /\
    progress c = [] /\
    sent s' = 2%nat.
Proof.
  apply (fetch_submolts_until_short_page false (two_pages "name") 1 5
           (paged "submolts" (two_pages "name"))).
  - apply Z.leb_le; vm_compute; reflexivity.
  - lia.
  - intros [|i] Hi; [apply Z.leb_le; vm_compute; reflexivity | lia].
  - vm_compute; reflexivity.
  - intros i r _. eexists. split; [reflexivity|]. apply lookup_singleton_eq.
Defined.

Lemma collect_loop_full_pages P on_page b pgl :
  b !! paging_field P = Some (JList pgl) ->
  pgl <> [] ->
  default 100 (paging_limit P) <= len pgl ->
  forall fuel all offset pg calls s,
    serves b s ->
    result (collect_loop P on_page fuel all offset pg calls) s = Ok None /\
    sent (after (collect_loop P on_page fuel all offset pg calls) s)
      = (sent s + fuel)%nat.
Proof.
  intros Hb Hne Hfull.
  induction fuel as [|fuel IH]; intros all offset pg calls s [Hm Hnet].
  - cbn. split; [reflexivity | lia].
  - destruct (collect_loop_served P on_page fuel all offset pg calls s b pgl
                Hm (Hnet _ _) Hb) as (s1 & M1 & N1 & S1 & E).
    unfold result, after in *. rewrite E.
    rewrite bool_decide_eq_false_2 by exact Hne. cbv zeta.
    apply Z.ltb_ge in Hfull. rewrite Hfull.
    edestruct IH as [R Sn]; [|rewrite R, Sn, S1; split; [reflexivity | lia]].
    split; [by rewrite M1 | intros n r; by rewrite N1].
Qed.

(** X18: against a server that answers every request with the same
    page, [fetch_all_posts] never returns if the page is not empty and
    not shorter than [limit], and [fetch_submolts] never returns if the
    page holds at least 100 submolts: whatever the number of iterations
    allowed, the loop uses them all, with one request each. *)
Theorem full_pages_never_end on_page limit b pgl fuel s :
  serves b s ->
  pgl <> [] ->
  (b !! "posts" = Some (JList pgl) -> limit <= len pgl ->
   result (fetch_all_posts on_page limit fuel) s = Ok None /\
   sent (after (fetch_all_posts on_page limit fuel) s) = (sent s + fuel)%nat) /\
  (b !! "submolts" = Some (JList pgl) -> 100 <= len pgl ->
   result (fetch_submolts on_page fuel) s = Ok None /\
   sent (after (fetch_submolts on_page fuel) s) = (sent s + fuel)%nat).
Proof.
  intros Hs Hne. split; intros Hb Hfull.
  - by apply (collect_loop_full_pages (Paging "/posts" "posts" (Some limit))
                on_page b pgl).
  - by apply (collect_loop_full_pages (Paging "/submolts" "submolts" None)
                on_page b pgl).
Qed.

Lemma full_pages_never_end_witness :
  (result (fetch_all_posts false 100 7) repeats_both = Ok None /\
   sent (after (fetch_all_posts false 100 7) repeats_both) = 7%nat) /\
  (result (fetch_submolts false 7) repeats_both = Ok None /\
   sent (after (fetch_submolts false 7) repeats_both) = 7%nat).
Proof.
  assert (S : serves both_full repeats_both).
  { split; [apply Z.leb_le; vm_compute; reflexivity | intros n r; reflexivity]. }
  assert (N : hundred "id" <> []) by discriminate.
  pose proof (full_pages_never_end false 100 both_full (hundred "id") 7
                repeats_both S N) as [P Q].
  split.
  - apply P; [reflexivity | apply Z.leb_le; vm_compute; reflexivity].
  - apply Q; [reflexivity | apply Z.leb_le; vm_compute; reflexivity].
Defined.

Lemma collect_loop_refused P on_page fuel all offset pg calls c b s :
  refuses c b s ->
  400 <= c < 500 -> c <> 429 ->
  result (collect_loop P on_page (S fuel) all offset pg calls) s
    = Raise (HTTPError c) /\
  sent (after (collect_loop P on_page (S fuel) all offset pg calls) s)
    = S (sent s).
Proof.
  intros (Hm & _ & Hnet) Hc H429.
  destruct (_request_answered (GET (paging_path P) (collect_params P offset)) s
              (Response c b) Hm (Hnet _ _)) as (s1 & Hr & _ & _ & _ & S1);
    [done | cbn; lia |].
  unfold result, after. cbn [collect_loop].
  rewrite (bind_ok _ _ _ _ _ Hr).
  unfold raise_for_status, bind. cbn [status_code].
  destruct (Z.leb_spec 400 c); [|lia]. destruct (Z.ltb_spec c 600); [|lia].
  cbn. done.
Qed.

(** X19: [fetch_all_posts] and [fetch_submolts] do not survive an error
    status: against a server that refuses every request with a client
    error other than 429 they raise the HTTP error at the first request
    and send nothing more. *)
Theorem whole_listing_raises_on_error_status on_page limit fuel c b s :
  refuses c b s ->
  400 <= c < 500 -> c <> 429 ->
  (0 < fuel)%nat ->
  (result (fetch_all_posts on_page limit fuel) s = Raise (HTTPError c) /\
   sent (after (fetch_all_posts on_page limit fuel) s) = S (sent s)) /\
  (result (fetch_submolts on_page fuel) s = Raise (HTTPError c) /\
   sent (after (fetch_submolts on_page fuel) s) = S (sent s)).
Proof.
  intros Hr Hc H429 Hf. destruct fuel as [|fuel]; [lia|].
  split; by eapply collect_loop_refused.
Qed.

Lemma whole_listing_raises_on_error_status_witness :
  (result (fetch_all_posts true 100 3) nothing_there = Raise (HTTPError 404) /\
   sent (after (fetch_all_posts true 100 3) nothing_there) = 1%nat) /\
  (result (fetch_submolts true 3) nothing_there = Raise (HTTPError 404) /\
   sent (after (fetch_submolts true 3) nothing_there) = 1%nat).
Proof.
  assert (R : refuses 404 ∅ nothing_there).
  { split; [apply Z.leb_le; vm_compute; reflexivity|].
    split; [apply Z.leb_le; vm_compute; reflexivity|].
    intros n r; reflexivity. }
  exact (whole_listing_raises_on_error_status true 100 3 404 ∅ nothing_there
           R ltac:(lia) ltac:(lia) ltac:(lia)).
Defined.
